(** * DeepV-Ki wiki generation task scheduler

    A shallow embedding of the durable task scheduler of DeepV-Ki:
    - [GitLabDB]      the task and project store methods of api/gitlab_db.py,
    - [WikiGenerator] the page loop of api/wiki_generator.py (generate_wiki),
    - [TaskQueue]     TaskQueueManager of api/task_queue.py (create_task,
                      get_task_status, _process_task and its progress callback).

    The SQLite tables are lists of rows; an UPDATE ... WHERE is a [map], a
    SELECT ... WHERE a [filter] or [find].  CURRENT_TIMESTAMP, sqlite errors,
    uuid4 and the pipeline stage functions are inputs of the model. *)

From Stdlib Require Import List String Ascii ZArith Bool Lia Sorted DecimalString.
Import ListNotations.

Open Scope string_scope.
Open Scope Z_scope.
Open Scope list_scope.

(** ** Data model *)

(** CHECK(status IN ('queued', 'processing', 'completed', 'failed')) on
    wiki_generation_tasks.status. *)
Inductive TaskStatus : Type := Queued | Processing | Completed | Failed.

(** CHECK(status IN ('not_generated', 'generating', 'generated', 'failed')) on
    wiki_projects.status.  The constraint admits no other value, so the test
    status IN ('generating', 'queued') of the sweep can only match
    [Generating]. *)
Inductive ProjectStatus : Type :=
  NotGenerated | Generating | Generated | ProjectFailed.

Definition TaskStatus_eqb (a b : TaskStatus) : bool :=
  match a, b with
  | Queued, Queued | Processing, Processing
  | Completed, Completed | Failed, Failed => true
  | _, _ => false
  end.

Definition ProjectStatus_eqb (a b : ProjectStatus) : bool :=
  match a, b with
  | NotGenerated, NotGenerated | Generating, Generating
  | Generated, Generated | ProjectFailed, ProjectFailed => true
  | _, _ => false
  end.

(** A page dict of the wiki structure (parse_wiki_structure_xml); the key
    'content' is absent until generate_wiki fills it in. *)
Record Page : Type := mkPage {
  page_id : string;
  page_title : string;
  page_description : string;
  importance : string;
  filePaths : list string;
  relatedPages : list string;
  parentSection : option string;
  content : option string
}.

Definition set_content (c : string) (p : Page) : Page :=
  mkPage p.(page_id) p.(page_title) p.(page_description) p.(importance)
         p.(filePaths) p.(relatedPages) p.(parentSection) (Some c).

(** The dict built at the end of generate_wiki. *)
Record WikiStructure : Type := mkWiki {
  wiki_title : string;
  wiki_description : string;
  pages : list Page
}.

(** The result payload of a completed task ({'wiki_structure', 'documents_count',
    'repo_path'}); json.dumps on write and json.loads in get_task are taken as
    inverse to each other, so the column holds the value itself. *)
Record TaskResult : Type := mkResult {
  result_wiki_structure : WikiStructure;
  result_documents_count : Z;
  result_repo_path : string
}.

Module Task.

(** One row of table wiki_generation_tasks (gitlab_db.py, CREATE TABLE at line 111;
    project_key and force_refresh are the columns added by the migrations below it).
    The autoincrement id is the position of the row in the table. *)
Record row : Type := mk {
  task_id : string;
  repo_url : string;
  repo_type : string;
  owner : string;
  repo_name : string;
  provider : string;
  model : string;
  language : string;
  is_comprehensive : bool;
  excluded_dirs : option string;
  excluded_files : option string;
  included_dirs : option string;
  included_files : option string;
  access_token : option string;
  force_refresh : bool;
  project_key : option string;
  status : TaskStatus;
  progress : Z;
  message : option string;
  result : option TaskResult;
  error_message : option string;
  created_at : Z;
  updated_at : Z;
  started_at : option Z;
  completed_at : option Z
}.

Definition set_status (v : TaskStatus) (r : row) : row :=
  mk (r.(task_id)) (r.(repo_url)) (r.(repo_type)) (r.(owner)) (r.(repo_name))
    (r.(provider)) (r.(model)) (r.(language)) (r.(is_comprehensive))
    (r.(excluded_dirs)) (r.(excluded_files)) (r.(included_dirs))
    (r.(included_files)) (r.(access_token)) (r.(force_refresh))
    (r.(project_key)) v (r.(progress)) (r.(message)) (r.(result))
    (r.(error_message)) (r.(created_at)) (r.(updated_at)) (r.(started_at))
    (r.(completed_at)).

Definition set_progress (v : Z) (r : row) : row :=
  mk (r.(task_id)) (r.(repo_url)) (r.(repo_type)) (r.(owner)) (r.(repo_name))
    (r.(provider)) (r.(model)) (r.(language)) (r.(is_comprehensive))
    (r.(excluded_dirs)) (r.(excluded_files)) (r.(included_dirs))
    (r.(included_files)) (r.(access_token)) (r.(force_refresh))
    (r.(project_key)) (r.(status)) v (r.(message)) (r.(result))
    (r.(error_message)) (r.(created_at)) (r.(updated_at)) (r.(started_at))
    (r.(completed_at)).

Definition set_message (v : option string) (r : row) : row :=
  mk (r.(task_id)) (r.(repo_url)) (r.(repo_type)) (r.(owner)) (r.(repo_name))
    (r.(provider)) (r.(model)) (r.(language)) (r.(is_comprehensive))
    (r.(excluded_dirs)) (r.(excluded_files)) (r.(included_dirs))
    (r.(included_files)) (r.(access_token)) (r.(force_refresh))
    (r.(project_key)) (r.(status)) (r.(progress)) v (r.(result))
    (r.(error_message)) (r.(created_at)) (r.(updated_at)) (r.(started_at))
    (r.(completed_at)).

Definition set_result (v : option TaskResult) (r : row) : row :=
  mk (r.(task_id)) (r.(repo_url)) (r.(repo_type)) (r.(owner)) (r.(repo_name))
    (r.(provider)) (r.(model)) (r.(language)) (r.(is_comprehensive))
    (r.(excluded_dirs)) (r.(excluded_files)) (r.(included_dirs))
    (r.(included_files)) (r.(access_token)) (r.(force_refresh))
    (r.(project_key)) (r.(status)) (r.(progress)) (r.(message)) v
    (r.(error_message)) (r.(created_at)) (r.(updated_at)) (r.(started_at))
    (r.(completed_at)).

Definition set_error_message (v : option string) (r : row) : row :=
  mk (r.(task_id)) (r.(repo_url)) (r.(repo_type)) (r.(owner)) (r.(repo_name))
    (r.(provider)) (r.(model)) (r.(language)) (r.(is_comprehensive))
    (r.(excluded_dirs)) (r.(excluded_files)) (r.(included_dirs))
    (r.(included_files)) (r.(access_token)) (r.(force_refresh))
    (r.(project_key)) (r.(status)) (r.(progress)) (r.(message)) (r.(result)) v
    (r.(created_at)) (r.(updated_at)) (r.(started_at)) (r.(completed_at)).

Definition set_updated_at (v : Z) (r : row) : row :=
  mk (r.(task_id)) (r.(repo_url)) (r.(repo_type)) (r.(owner)) (r.(repo_name))
    (r.(provider)) (r.(model)) (r.(language)) (r.(is_comprehensive))
    (r.(excluded_dirs)) (r.(excluded_files)) (r.(included_dirs))
    (r.(included_files)) (r.(access_token)) (r.(force_refresh))
    (r.(project_key)) (r.(status)) (r.(progress)) (r.(message)) (r.(result))
    (r.(error_message)) (r.(created_at)) v (r.(started_at)) (r.(completed_at)).

Definition set_started_at (v : option Z) (r : row) : row :=
  mk (r.(task_id)) (r.(repo_url)) (r.(repo_type)) (r.(owner)) (r.(repo_name))
    (r.(provider)) (r.(model)) (r.(language)) (r.(is_comprehensive))
    (r.(excluded_dirs)) (r.(excluded_files)) (r.(included_dirs))
    (r.(included_files)) (r.(access_token)) (r.(force_refresh))
    (r.(project_key)) (r.(status)) (r.(progress)) (r.(message)) (r.(result))
    (r.(error_message)) (r.(created_at)) (r.(updated_at)) v (r.(completed_at)).

Definition set_completed_at (v : option Z) (r : row) : row :=
  mk (r.(task_id)) (r.(repo_url)) (r.(repo_type)) (r.(owner)) (r.(repo_name))
    (r.(provider)) (r.(model)) (r.(language)) (r.(is_comprehensive))
    (r.(excluded_dirs)) (r.(excluded_files)) (r.(included_dirs))
    (r.(included_files)) (r.(access_token)) (r.(force_refresh))
    (r.(project_key)) (r.(status)) (r.(progress)) (r.(message)) (r.(result))
    (r.(error_message)) (r.(created_at)) (r.(updated_at)) (r.(started_at)) v.

Definition set_access_token (v : option string) (r : row) : row :=
  mk (r.(task_id)) (r.(repo_url)) (r.(repo_type)) (r.(owner)) (r.(repo_name))
    (r.(provider)) (r.(model)) (r.(language)) (r.(is_comprehensive))
    (r.(excluded_dirs)) (r.(excluded_files)) (r.(included_dirs))
    (r.(included_files)) v (r.(force_refresh)) (r.(project_key)) (r.(status))
    (r.(progress)) (r.(message)) (r.(result)) (r.(error_message))
    (r.(created_at)) (r.(updated_at)) (r.(started_at)) (r.(completed_at)).

End Task.

Module Project.

(** One row of table wiki_projects (gitlab_db.py, CREATE TABLE at line 159, with the
    progress and message columns added by ALTER TABLE at line 215). *)
Record row : Type := mk {
  project_key : string;
  repo_url : string;
  repo_type : string;
  owner : string;
  repo_name : string;
  status : ProjectStatus;
  current_task_id : option string;
  last_generated_at : option Z;
  last_failed_at : option Z;
  last_success_date : option string;
  generation_count : Z;
  wiki_structure : option WikiStructure;
  documents_count : option Z;
  pages_count : option Z;
  provider : string;
  model : string;
  language : string;
  created_at : Z;
  updated_at : Z;
  progress : Z;
  message : option string
}.

Definition set_status (v : ProjectStatus) (r : row) : row :=
  mk (r.(project_key)) (r.(repo_url)) (r.(repo_type)) (r.(owner))
    (r.(repo_name)) v (r.(current_task_id)) (r.(last_generated_at))
    (r.(last_failed_at)) (r.(last_success_date)) (r.(generation_count))
    (r.(wiki_structure)) (r.(documents_count)) (r.(pages_count))
    (r.(provider)) (r.(model)) (r.(language)) (r.(created_at))
    (r.(updated_at)) (r.(progress)) (r.(message)).

Definition set_current_task_id (v : option string) (r : row) : row :=
  mk (r.(project_key)) (r.(repo_url)) (r.(repo_type)) (r.(owner))
    (r.(repo_name)) (r.(status)) v (r.(last_generated_at))
    (r.(last_failed_at)) (r.(last_success_date)) (r.(generation_count))
    (r.(wiki_structure)) (r.(documents_count)) (r.(pages_count))
    (r.(provider)) (r.(model)) (r.(language)) (r.(created_at))
    (r.(updated_at)) (r.(progress)) (r.(message)).

Definition set_last_generated_at (v : option Z) (r : row) : row :=
  mk (r.(project_key)) (r.(repo_url)) (r.(repo_type)) (r.(owner))
    (r.(repo_name)) (r.(status)) (r.(current_task_id)) v (r.(last_failed_at))
    (r.(last_success_date)) (r.(generation_count)) (r.(wiki_structure))
    (r.(documents_count)) (r.(pages_count)) (r.(provider)) (r.(model))
    (r.(language)) (r.(created_at)) (r.(updated_at)) (r.(progress))
    (r.(message)).

Definition set_last_failed_at (v : option Z) (r : row) : row :=
  mk (r.(project_key)) (r.(repo_url)) (r.(repo_type)) (r.(owner))
    (r.(repo_name)) (r.(status)) (r.(current_task_id)) (r.(last_generated_at))
    v (r.(last_success_date)) (r.(generation_count)) (r.(wiki_structure))
    (r.(documents_count)) (r.(pages_count)) (r.(provider)) (r.(model))
    (r.(language)) (r.(created_at)) (r.(updated_at)) (r.(progress))
    (r.(message)).

Definition set_last_success_date (v : option string) (r : row) : row :=
  mk (r.(project_key)) (r.(repo_url)) (r.(repo_type)) (r.(owner))
    (r.(repo_name)) (r.(status)) (r.(current_task_id)) (r.(last_generated_at))
    (r.(last_failed_at)) v (r.(generation_count)) (r.(wiki_structure))
    (r.(documents_count)) (r.(pages_count)) (r.(provider)) (r.(model))
    (r.(language)) (r.(created_at)) (r.(updated_at)) (r.(progress))
    (r.(message)).

Definition set_generation_count (v : Z) (r : row) : row :=
  mk (r.(project_key)) (r.(repo_url)) (r.(repo_type)) (r.(owner))
    (r.(repo_name)) (r.(status)) (r.(current_task_id)) (r.(last_generated_at))
    (r.(last_failed_at)) (r.(last_success_date)) v (r.(wiki_structure))
    (r.(documents_count)) (r.(pages_count)) (r.(provider)) (r.(model))
    (r.(language)) (r.(created_at)) (r.(updated_at)) (r.(progress))
    (r.(message)).

Definition set_wiki_structure (v : option WikiStructure) (r : row) : row :=
  mk (r.(project_key)) (r.(repo_url)) (r.(repo_type)) (r.(owner))
    (r.(repo_name)) (r.(status)) (r.(current_task_id)) (r.(last_generated_at))
    (r.(last_failed_at)) (r.(last_success_date)) (r.(generation_count)) v
    (r.(documents_count)) (r.(pages_count)) (r.(provider)) (r.(model))
    (r.(language)) (r.(created_at)) (r.(updated_at)) (r.(progress))
    (r.(message)).

Definition set_documents_count (v : option Z) (r : row) : row :=
  mk (r.(project_key)) (r.(repo_url)) (r.(repo_type)) (r.(owner))
    (r.(repo_name)) (r.(status)) (r.(current_task_id)) (r.(last_generated_at))
    (r.(last_failed_at)) (r.(last_success_date)) (r.(generation_count))
    (r.(wiki_structure)) v (r.(pages_count)) (r.(provider)) (r.(model))
    (r.(language)) (r.(created_at)) (r.(updated_at)) (r.(progress))
    (r.(message)).

Definition set_pages_count (v : option Z) (r : row) : row :=
  mk (r.(project_key)) (r.(repo_url)) (r.(repo_type)) (r.(owner))
    (r.(repo_name)) (r.(status)) (r.(current_task_id)) (r.(last_generated_at))
    (r.(last_failed_at)) (r.(last_success_date)) (r.(generation_count))
    (r.(wiki_structure)) (r.(documents_count)) v (r.(provider)) (r.(model))
    (r.(language)) (r.(created_at)) (r.(updated_at)) (r.(progress))
    (r.(message)).

Definition set_updated_at (v : Z) (r : row) : row :=
  mk (r.(project_key)) (r.(repo_url)) (r.(repo_type)) (r.(owner))
    (r.(repo_name)) (r.(status)) (r.(current_task_id)) (r.(last_generated_at))
    (r.(last_failed_at)) (r.(last_success_date)) (r.(generation_count))
    (r.(wiki_structure)) (r.(documents_count)) (r.(pages_count))
    (r.(provider)) (r.(model)) (r.(language)) (r.(created_at)) v
    (r.(progress)) (r.(message)).

Definition set_progress (v : Z) (r : row) : row :=
  mk (r.(project_key)) (r.(repo_url)) (r.(repo_type)) (r.(owner))
    (r.(repo_name)) (r.(status)) (r.(current_task_id)) (r.(last_generated_at))
    (r.(last_failed_at)) (r.(last_success_date)) (r.(generation_count))
    (r.(wiki_structure)) (r.(documents_count)) (r.(pages_count))
    (r.(provider)) (r.(model)) (r.(language)) (r.(created_at))
    (r.(updated_at)) v (r.(message)).

Definition set_message (v : option string) (r : row) : row :=
  mk (r.(project_key)) (r.(repo_url)) (r.(repo_type)) (r.(owner))
    (r.(repo_name)) (r.(status)) (r.(current_task_id)) (r.(last_generated_at))
    (r.(last_failed_at)) (r.(last_success_date)) (r.(generation_count))
    (r.(wiki_structure)) (r.(documents_count)) (r.(pages_count))
    (r.(provider)) (r.(model)) (r.(language)) (r.(created_at))
    (r.(updated_at)) (r.(progress)) v.

End Project.

(** The two tables of the store. *)
Record DB : Type := mkDB {
  wiki_generation_tasks : list Task.row;
  wiki_projects : list Project.row
}.

(** Python truthiness of a nullable TEXT value: None and '' are false. *)
Definition truthy (o : option string) : bool :=
  match o with
  | Some s => negb (String.eqb s "")
  | None => false
  end.

(** str(n) for a non-negative count. *)
Definition str_of_nat (n : nat) : string := NilZero.string_of_uint (Nat.to_uint n).

(** str(z) for an int. *)
Definition str_of_Z (z : Z) : string := NilZero.string_of_int (Z.to_int z).

Definition newline : string := String (ascii_of_nat 10) EmptyString.

(** ** Exceptions *)

(** The two exception classes the scheduler tells apart: TaskTimeoutError
    (api/exceptions.py) and every other Exception.  Both carry the text that
    str(e) gives. *)
Inductive exn : Type :=
| TaskTimeoutError (message : string)
| Exception (message : string).

Definition str (e : exn) : string :=
  match e with
  | TaskTimeoutError m => m
  | Exception m => m
  end.

(** The outcome of a call that may raise. *)
Inductive Outcome (A : Type) : Type :=
| Ok (a : A)
| Raise (e : exn).

Arguments Ok {A} a.
Arguments Raise {A} e.

(** The keyword arguments of TaskQueueManager.create_task. *)
Module Request.

Record t : Type := mk {
  repo_url : string;
  repo_type : string;
  owner : string;
  repo_name : string;
  provider : string;
  model : string;
  language : string;
  is_comprehensive : bool;
  excluded_dirs : option string;
  excluded_files : option string;
  included_dirs : option string;
  included_files : option string;
  access_token : option string;
  force_refresh : bool
}.

End Request.

(** project_key = f"{repo_type}:{owner}/{repo_name}" *)
Definition make_project_key (repo_type owner repo_name : string) : string :=
  (repo_type ++ ":" ++ owner ++ "/" ++ repo_name)%string.

(** ** api/gitlab_db.py: the task and project methods of GitLabDB

    Every method runs its statements in one transaction inside try/except.
    The argument [raises] says whether sqlite raises during the call; the
    transaction is then rolled back and the method takes its except branch.
    [now] is the value of CURRENT_TIMESTAMP. *)
Module GitLabDB.

Definition has_task_id (task_id : string) (t : Task.row) : bool :=
  String.eqb t.(Task.task_id) task_id.

Definition has_project_key (project_key : string) (p : Project.row) : bool :=
  String.eqb p.(Project.project_key) project_key.

(** INSERT INTO wiki_generation_tasks ... VALUES (..., 'queued', 0,
    'Task created and queued').  task_id is UNIQUE: a second row with the same
    task_id makes sqlite raise. *)
Definition create_wiki_generation_task (raises : bool) (now : Z)
    (task_id : string) (q : Request.t) (project_key : option string)
    (d : DB) : bool * DB :=
  if raises || existsb (has_task_id task_id) d.(wiki_generation_tasks)
  then (false, d)
  else (true,
        mkDB (d.(wiki_generation_tasks) ++
              [Task.mk task_id q.(Request.repo_url) q.(Request.repo_type)
                 q.(Request.owner) q.(Request.repo_name) q.(Request.provider)
                 q.(Request.model) q.(Request.language)
                 q.(Request.is_comprehensive) q.(Request.excluded_dirs)
                 q.(Request.excluded_files) q.(Request.included_dirs)
                 q.(Request.included_files) q.(Request.access_token)
                 q.(Request.force_refresh) project_key
                 Queued 0 (Some "Task created and queued") None None
                 now now None None])
             d.(wiki_projects)).

(** SELECT * FROM wiki_generation_tasks WHERE task_id = ? ; fetchone. *)
Definition get_task (raises : bool) (task_id : string) (d : DB)
    : option Task.row :=
  if raises then None
  else find (has_task_id task_id) d.(wiki_generation_tasks).

(** status == 'processing' and progress == 0 *)
Definition stamps_started_at (status : TaskStatus) (progress : option Z) : bool :=
  match status, progress with
  | Processing, Some p => p =? 0
  | _, _ => false
  end.

(** status in ['completed', 'failed'] *)
Definition is_terminal (status : TaskStatus) : bool :=
  match status with
  | Completed | Failed => true
  | _ => false
  end.

Definition or_keep {A : Type} (new : option A) (old : option A) : option A :=
  match new with
  | Some v => Some v
  | None => old
  end.

(** The SET list that update_task_status builds, applied to one row. *)
Definition update_task_row (now : Z) (status : TaskStatus) (progress : option Z)
    (message : option string) (result : option TaskResult)
    (error_message : option string) (t : Task.row) : Task.row :=
  let t := Task.set_status status t in
  let t := Task.set_updated_at now t in
  let t := match progress with
           | Some p => Task.set_progress p t
           | None => t
           end in
  let t := Task.set_message (or_keep message t.(Task.message)) t in
  let t := Task.set_result (or_keep result t.(Task.result)) t in
  let t := Task.set_error_message (or_keep error_message t.(Task.error_message)) t in
  if stamps_started_at status progress then Task.set_started_at (Some now) t
  else if is_terminal status then Task.set_completed_at (Some now) t
  else t.

(** UPDATE wiki_generation_tasks SET ... WHERE task_id = ? *)
Definition update_task_status (raises : bool) (now : Z) (task_id : string)
    (status : TaskStatus) (progress : option Z) (message : option string)
    (result : option TaskResult) (error_message : option string)
    (d : DB) : bool * DB :=
  if raises then (false, d)
  else (true,
        mkDB (map (fun t => if has_task_id task_id t
                            then update_task_row now status progress message
                                                 result error_message t
                            else t)
                  d.(wiki_generation_tasks))
             d.(wiki_projects)).

(** status IN ('queued', 'processing') *)
Definition is_interrupted (t : Task.row) : bool :=
  match t.(Task.status) with
  | Queued | Processing => true
  | _ => false
  end.

Definition interruption_error : string := "服务器重启导致任务中断".
Definition interruption_message : string := "任务已被标记为失败，请重新生成".

(** The SET list of the sweep's UPDATE wiki_generation_tasks. *)
Definition mark_interrupted (now : Z) (t : Task.row) : Task.row :=
  Task.set_status Failed
    (Task.set_progress 0
      (Task.set_error_message (Some interruption_error)
        (Task.set_message (Some interruption_message)
          (Task.set_completed_at (Some now)
            (Task.set_updated_at now t))))).

(** The SET list shared by the sweep's UPDATE wiki_projects and by the
    'failed' branch of update_wiki_project_status. *)
Definition mark_project_failed (now : Z) (p : Project.row) : Project.row :=
  Project.set_status ProjectFailed
    (Project.set_last_failed_at (Some now)
      (Project.set_current_task_id None
        (Project.set_updated_at now p))).

(** UPDATE wiki_projects SET status = 'failed', ... WHERE project_key = ?
    AND status IN ('generating', 'queued') *)
Definition fail_generating_project (now : Z) (project_key : string)
    (ps : list Project.row) : list Project.row :=
  map (fun p => if has_project_key project_key p
                   && ProjectStatus_eqb p.(Project.status) Generating
                then mark_project_failed now p
                else p) ps.

(** The loop over interrupted_tasks: if project_key: UPDATE wiki_projects ... *)
Definition fail_linked_projects (now : Z) (interrupted_tasks : list Task.row)
    (ps : list Project.row) : list Project.row :=
  fold_left
    (fun ps t =>
       match t.(Task.project_key) with
       | Some k => if truthy (Some k) then fail_generating_project now k ps else ps
       | None => ps
       end)
    interrupted_tasks ps.

(** cleanup_interrupted_tasks: returns cursor.rowcount of the task UPDATE. *)
Definition cleanup_interrupted_tasks (raises : bool) (now : Z) (d : DB)
    : nat * DB :=
  if raises then (0%nat, d)
  else
    let interrupted_tasks := filter is_interrupted d.(wiki_generation_tasks) in
    match interrupted_tasks with
    | [] => (0%nat, d)
    | _ :: _ =>
        let tasks' := map (fun t => if is_interrupted t
                                    then mark_interrupted now t else t)
                          d.(wiki_generation_tasks) in
        let cleaned_count := List.length (filter is_interrupted
                                            d.(wiki_generation_tasks)) in
        (cleaned_count,
         mkDB tasks' (fail_linked_projects now interrupted_tasks d.(wiki_projects)))
    end.

(** CHECK(repo_type IN ('github', 'gitlab', 'bitbucket', 'gerrit')) *)
Definition valid_repo_type (repo_type : string) : bool :=
  existsb (String.eqb repo_type) ["github"; "gitlab"; "bitbucket"; "gerrit"].

(** The row that INSERT INTO wiki_projects (project_key, repo_url, repo_type,
    owner, repo_name, status) VALUES (..., 'not_generated') creates, the other
    columns taking their defaults. *)
Definition new_project (now : Z) (project_key repo_url repo_type owner
    repo_name : string) : Project.row :=
  Project.mk project_key repo_url repo_type owner repo_name NotGenerated
             None None None None 0 None None None
             "google" "gemini-2.0-flash-exp" "english" now now 0 None.

(** get_or_create_wiki_project: an sqlite error is logged and raised again. *)
Definition get_or_create_wiki_project (raises : option exn) (now : Z)
    (repo_url repo_type owner repo_name : string) (d : DB)
    : Outcome Project.row * DB :=
  let project_key := make_project_key repo_type owner repo_name in
  match raises with
  | Some e => (Raise e, d)
  | None =>
      match find (has_project_key project_key) d.(wiki_projects) with
      | Some project => (Ok project, d)
      | None =>
          if valid_repo_type repo_type then
            let project := new_project now project_key repo_url repo_type
                                       owner repo_name in
            (Ok project,
             mkDB d.(wiki_generation_tasks) (d.(wiki_projects) ++ [project]))
          else (Raise (Exception "CHECK constraint failed: wiki_projects"), d)
      end
  end.

(** The SET list of each of the four branches of update_wiki_project_status. *)
Definition project_transition (now : Z) (status : ProjectStatus)
    (task_id : option string) (last_success_date : option string)
    (p : Project.row) : Project.row :=
  match status with
  | Generating =>
      Project.set_status status
        (Project.set_current_task_id task_id
          (Project.set_updated_at now p))
  | Generated =>
      Project.set_status status
        (Project.set_current_task_id None
          (Project.set_last_generated_at (Some now)
            (Project.set_last_success_date last_success_date
              (Project.set_generation_count (p.(Project.generation_count) + 1)
                (Project.set_updated_at now p)))))
  | ProjectFailed =>
      Project.set_status status
        (Project.set_current_task_id None
          (Project.set_last_failed_at (Some now)
            (Project.set_updated_at now p)))
  | NotGenerated =>
      Project.set_status status
        (Project.set_current_task_id None
          (Project.set_updated_at now p))
  end.

(** UPDATE wiki_projects SET ... WHERE project_key = ? *)
Definition update_wiki_project_status (raises : bool) (now : Z)
    (project_key : string) (status : ProjectStatus)
    (task_id : option string) (last_success_date : option string)
    (d : DB) : bool * DB :=
  if raises then (false, d)
  else (true,
        mkDB d.(wiki_generation_tasks)
             (map (fun p => if has_project_key project_key p
                            then project_transition now status task_id
                                                    last_success_date p
                            else p)
                  d.(wiki_projects))).

(** if not message: message = f'Wiki generated successfully with {pages_count} pages' *)
Definition result_message (message : option string) (pages_count : nat) : string :=
  match message with
  | Some m => if String.eqb m "" then
                ("Wiki generated successfully with " ++ str_of_nat pages_count
                 ++ " pages")%string
              else m
  | None => ("Wiki generated successfully with " ++ str_of_nat pages_count
             ++ " pages")%string
  end.

(** UPDATE wiki_projects SET wiki_structure = ?, documents_count = ?,
    pages_count = ?, progress = 100, message = ?, updated_at = ... *)
Definition save_wiki_project_result (raises : bool) (now : Z)
    (project_key : string) (wiki_structure : WikiStructure)
    (documents_count : Z) (message : option string) (d : DB) : bool * DB :=
  if raises then (false, d)
  else
    let pages_count := List.length wiki_structure.(pages) in
    (true,
     mkDB d.(wiki_generation_tasks)
          (map (fun p => if has_project_key project_key p
                         then Project.set_wiki_structure (Some wiki_structure)
                                (Project.set_documents_count (Some documents_count)
                                  (Project.set_pages_count (Some (Z.of_nat pages_count))
                                    (Project.set_progress 100
                                      (Project.set_message
                                         (Some (result_message message pages_count))
                                        (Project.set_updated_at now p)))))
                         else p)
               d.(wiki_projects))).

(** save_markdown_pages rewrites table wiki_pages_rendered only; the two
    tables of [DB] are left as they are and the call reports whether sqlite
    raised. *)
Definition save_markdown_pages (raises : bool) (d : DB) : bool * DB :=
  (negb raises, d).

(** *** The queue queries and the retention sweep *)

(** ORDER BY created_at ASC: rows with equal created_at stay in table
    order. *)
Fixpoint insert_by_created_at (t : Task.row) (sorted : list Task.row)
    : list Task.row :=
  match sorted with
  | [] => [t]
  | u :: rest =>
      if t.(Task.created_at) <=? u.(Task.created_at) then t :: u :: rest
      else u :: insert_by_created_at t rest
  end.

Definition order_by_created_at (rows : list Task.row) : list Task.row :=
  fold_right insert_by_created_at [] rows.

(** LIMIT ?: a negative limit is no limit. *)
Definition sql_limit {A : Type} (limit : Z) (rows : list A) : list A :=
  if limit <? 0 then rows else firstn (Z.to_nat limit) rows.

(** status = 'queued' *)
Definition is_queued (t : Task.row) : bool :=
  TaskStatus_eqb t.(Task.status) Queued.

(** status = 'processing' *)
Definition is_processing (t : Task.row) : bool :=
  TaskStatus_eqb t.(Task.status) Processing.

(** get_queued_tasks(limit): SELECT * ... WHERE status = 'queued'
    ORDER BY created_at ASC LIMIT ? ; [] when sqlite raises. *)
Definition get_queued_tasks (raises : bool) (limit : Z) (d : DB)
    : list Task.row :=
  if raises then []
  else sql_limit limit
         (order_by_created_at (filter is_queued d.(wiki_generation_tasks))).

(** WHERE status IN ('completed', 'failed') AND completed_at IS NOT NULL
    AND datetime(completed_at) < datetime('now', '-N days'), timestamps
    counting seconds. *)
Definition is_expired (now days : Z) (t : Task.row) : bool :=
  is_terminal t.(Task.status)
  && match t.(Task.completed_at) with
     | Some completed_at => completed_at <? now - 86400 * days
     | None => false
     end.

(** cleanup_old_tasks(days): DELETE the expired rows and return
    cursor.rowcount.  For a negative [days] the modifier f'-{days}' || ' days'
    is '--N days', which sqlite rejects: datetime gives NULL and no row
    matches. *)
Definition cleanup_old_tasks (raises : bool) (now days : Z) (d : DB)
    : nat * DB :=
  if raises then (0%nat, d)
  else if days <? 0 then (0%nat, d)
  else
    (List.length (filter (is_expired now days) d.(wiki_generation_tasks)),
     mkDB (filter (fun t => negb (is_expired now days t))
                  d.(wiki_generation_tasks))
          d.(wiki_projects)).

(** The dict of get_queue_status; a user task's status is None for
    'not_found'. *)
Module QueueStatus.

Record user_task : Type := mkUserTask {
  task_id : string;
  status : option TaskStatus;
  position : Z
}.

Record t : Type := mk {
  processing_count : nat;
  queued_count : nat;
  is_busy : bool;
  user_tasks : list user_task;
  error : option string
}.

End QueueStatus.

(** SELECT COUNT( * ) ... WHERE status = 'queued' AND created_at < ? *)
Definition queued_before (created_at : Z) (d : DB) : nat :=
  List.length
    (filter (fun t => is_queued t && (t.(Task.created_at) <? created_at))
            d.(wiki_generation_tasks)).

(** The entry of one requested task id: position -1 while processing, the
    place in the queue while queued, 0 otherwise. *)
Definition user_task_status (processing_count : nat) (d : DB)
    (task_id : string) : QueueStatus.user_task :=
  match find (has_task_id task_id) d.(wiki_generation_tasks) with
  | Some user_task =>
      let position :=
        match user_task.(Task.status) with
        | Processing => -1
        | Queued =>
            Z.of_nat processing_count
            + Z.of_nat (queued_before user_task.(Task.created_at) d) + 1
        | _ => 0
        end in
      QueueStatus.mkUserTask task_id (Some user_task.(Task.status)) position
  | None => QueueStatus.mkUserTask task_id None 0
  end.

(** get_queue_status(user_task_ids); [raises] is the exception sqlite
    raises, if any. *)
Definition get_queue_status (raises : option exn)
    (user_task_ids : option (list string)) (d : DB) : QueueStatus.t :=
  match raises with
  | Some e => QueueStatus.mk 0 0 false [] (Some (str e))
  | None =>
      let processing_count :=
        List.length (filter is_processing d.(wiki_generation_tasks)) in
      let queued_count :=
        List.length (filter is_queued d.(wiki_generation_tasks)) in
      let user_tasks :=
        match user_task_ids with
        | Some ids => map (user_task_status processing_count d) ids
        | None => []
        end in
      QueueStatus.mk processing_count queued_count
        ((0 <? processing_count)%nat || (0 <? queued_count)%nat)
        user_tasks None
  end.

(** get_wiki_project_by_key(project_key): while the project is generating
    and names a task, progress and message are read from that task's row. *)
Definition get_wiki_project_by_key (raises : bool) (project_key : string)
    (d : DB) : option Project.row :=
  if raises then None
  else
    match find (has_project_key project_key) d.(wiki_projects) with
    | None => None
    | Some project =>
        if ProjectStatus_eqb project.(Project.status) Generating
           && truthy project.(Project.current_task_id)
        then
          match project.(Project.current_task_id) with
          | Some current_task_id =>
              match find (has_task_id current_task_id)
                         d.(wiki_generation_tasks) with
              | Some task =>
                  Some (Project.set_progress task.(Task.progress)
                          (Project.set_message task.(Task.message) project))
              | None => Some project
              end
          | None => Some project
          end
        else Some project
    end.

(** get_wiki_project_by_repo(repo_type, owner, repo_name) *)
Definition get_wiki_project_by_repo (raises : bool)
    (repo_type owner repo_name : string) (d : DB) : option Project.row :=
  get_wiki_project_by_key raises (make_project_key repo_type owner repo_name) d.

End GitLabDB.

(** ** The scheduler's view of the outside world *)

(** The places of create_task and _process_task that call the store.  The two
    store calls of the progress callback are named by the callback's
    arguments, which differ from one call of it to the next; every other place
    is reached at most once in a run.  So an assignment of outcomes to call
    sites describes every pattern of store failures. *)
Inductive CallSite : Type :=
| SubmitProject          (* create_task: get_or_create_wiki_project *)
| SubmitTask             (* create_task: create_wiki_generation_task *)
| SubmitGenerating       (* create_task: update_wiki_project_status 'generating' *)
| StageStart             (* progress 0 *)
| StageDownload          (* progress 5 *)
| StageExtract           (* progress 20 *)
| StageEmbed             (* progress 40 *)
| StageStructure         (* progress 70 *)
| ProgressTask (progress_pct : Z) (detail_msg : string)
                         (* callback: update_task_status *)
| ProgressProject (progress_pct : Z) (detail_msg : string)
                         (* callback: UPDATE wiki_projects SET progress, message *)
| StageSave              (* progress 95 *)
| PersistResult          (* save_wiki_project_result *)
| PersistMarkdown        (* save_markdown_pages *)
| TaskCompleted          (* status 'completed', progress 100 *)
| ProjectGenerated       (* update_wiki_project_status 'generated' *)
| TaskFailed             (* except: status 'failed', progress 0 *)
| ProjectFailure.        (* except: update_wiki_project_status 'failed' *)

(** What generate_wiki reads of the RAG object: len(rag.documents). *)
Record Rag : Type := mkRag {
  rag_documents : nat
}.

(** The collaborators of one run.  The stage functions are given with the
    arguments the scheduler passes to them. *)
Record Env : Type := mkEnv {
  (* sqlite raises at this call site *)
  store_raises : CallSite -> bool;
  (* the exception get_or_create_wiki_project raises again *)
  store_error : exn;
  (* CURRENT_TIMESTAMP at this call site *)
  current_timestamp : CallSite -> Z;
  (* str(uuid.uuid4()) *)
  uuid4 : string;
  (* os.getenv(name, '') *)
  getenv : string -> string;
  (* str(Path.home()) *)
  home : string;
  (* download_repo(repo_url, local_path, repo_type, access_token, force_refresh) *)
  download_repo : string -> string -> string -> option string -> bool
                  -> Outcome string;
  (* len(read_all_documents(path, excluded_dirs, excluded_files, included_dirs,
     included_files)); the filters are passed before the split at newlines *)
  read_all_documents : string -> option string -> option string
                       -> option string -> option string -> Outcome nat;
  (* RAG(provider, model) followed by rag.prepare_retriever(...) *)
  prepare_retriever : Task.row -> option string -> Outcome Rag;
  (* generate_wiki_structure(task, documents_count, file_tree, readme) *)
  generate_wiki_structure : Task.row -> nat -> Outcome (list Page);
  (* for page number i: the retrieval (whose own errors are caught and logged)
     followed by generate_page_content(task, page, relevant_code, file_paths) *)
  generate_page_content : Task.row -> nat -> Page -> Outcome string;
  (* get_cost_tracker(task_id).get_cost_message(), log_summary, clear *)
  get_cost_message : string -> Outcome string;
  (* datetime.now().strftime('%Y-%m-%d') *)
  today : string
}.

(** One write committed on wiki_generation_tasks (the INSERT of
    create_wiki_generation_task or an UPDATE of update_task_status): the status
    and the progress it wrote. *)
Record TaskWrite : Type := mkWrite {
  w_task_id : string;
  w_status : TaskStatus;
  w_progress : option Z
}.

(** The state a TaskQueueManager works on: the store, the manager's own
    fields active_tasks and running, and the record [written] of the task
    updates committed so far, oldest first. *)
Record World : Type := mkWorld {
  db : DB;
  written : list TaskWrite;
  active_tasks : list string;
  running : bool
}.

Definition set_db (d : DB) (w : World) : World :=
  mkWorld d w.(written) w.(active_tasks) w.(running).

(** Computations over the world that may raise. *)
Definition M (A : Type) : Type := World -> Outcome A * World.

Definition ret {A : Type} (a : A) : M A := fun w => (Ok a, w).

Definition raise {A : Type} (e : exn) : M A := fun w => (Raise e, w).

Definition bind {A B : Type} (c : M A) (k : A -> M B) : M B :=
  fun w => match c w with
           | (Ok a, w') => k a w'
           | (Raise e, w') => (Raise e, w')
           end.

(** try: c except e: h e *)
Definition try_except {A : Type} (c : M A) (h : exn -> M A) : M A :=
  fun w => match c w with
           | (Ok a, w') => (Ok a, w')
           | (Raise e, w') => h e w'
           end.

(** try: c finally: f *)
Definition try_finally {A : Type} (c : M A) (f : World -> World) : M A :=
  fun w => match c w with
           | (r, w') => (r, f w')
           end.

(** The value or exception of a collaborator's call. *)
Definition call {A : Type} (r : Outcome A) : M A := fun w => (r, w).

Declare Scope sched_scope.
Delimit Scope sched_scope with sched.

Notation "x <- c ;; k" := (bind c (fun x => k))
  (at level 61, c at next level, right associativity) : sched_scope.
Notation "c ;; k" := (bind c (fun _ => k))
  (at level 61, right associativity) : sched_scope.

Open Scope sched_scope.

(** ** api/wiki_generator.py: generate_wiki *)
Module WikiGenerator.

Section WithEnv.

Variable env : Env.

(** f"# {page['title']}\n\n生成失败: {str(e)}" *)
Definition error_placeholder (page : Page) (e : exn) : string :=
  ("# " ++ page.(page_title) ++ newline ++ newline ++ "生成失败: " ++ str e)%string.

(** progress_pct = 70 + int((25 * i) / len(pages_structure)).  The loop body
    runs with 0 <= i < len(pages_structure), where the float quotient lies in
    [0, 25) and int() of it is the floor of the exact quotient. *)
Definition page_progress (i n : nat) : Z :=
  70 + (25 * Z.of_nat i) / Z.of_nat n.

(** f'Generating page {i+1}/{len(pages_structure)}: {page_title}' *)
Definition page_message (i n : nat) (page : Page) : string :=
  ("Generating page " ++ str_of_nat (i + 1) ++ "/" ++ str_of_nat n ++ ": "
   ++ page.(page_title))%string.

(** The body of the try/except around one page. *)
Definition page_with_content (task : Task.row) (i : nat) (page : Page) : Page :=
  match env.(generate_page_content) task i page with
  | Ok content => set_content content page
  | Raise e => set_content (error_placeholder page e) page
  end.

(** for i, page in enumerate(pages_structure), from page number [i] on;
    [n] is len(pages_structure). *)
Fixpoint generate_pages (task : Task.row)
    (progress_callback : option (Z -> string -> string -> M unit))
    (n i : nat) (rest : list Page) : M (list Page) :=
  match rest with
  | [] => ret []
  | page :: rest' =>
      match progress_callback with
      | Some callback =>
          callback (page_progress i n) "pages" (page_message i n page)
      | None => ret tt
      end ;;
      let page' := page_with_content task i page in
      done <- generate_pages task progress_callback n (S i) rest' ;;
      ret (page' :: done)
  end.

(** generate_wiki(task, rag, progress_callback) -> (wiki_structure,
    documents_count) *)
Definition generate_wiki (task : Task.row) (rag : Rag)
    (progress_callback : option (Z -> string -> string -> M unit))
    : M (WikiStructure * nat) :=
  let repo_name := task.(Task.repo_name) in
  let documents_count := rag.(rag_documents) in
  pages_structure <- call (env.(generate_wiki_structure) task documents_count) ;;
  match progress_callback with
  | Some callback =>
      callback 70 "structure"
        ("Wiki structure generated with "
         ++ str_of_nat (List.length pages_structure) ++ " pages")%string
  | None => ret tt
  end ;;
  pages_structure <- generate_pages task progress_callback
                       (List.length pages_structure) 0 pages_structure ;;
  let wiki_structure :=
    mkWiki (repo_name ++ " Wiki")%string
           ("Documentation for " ++ repo_name)%string
           pages_structure in
  ret (wiki_structure, documents_count).

End WithEnv.

End WikiGenerator.

(** The dict get_task_status returns. *)
Module TaskView.

Record t : Type := mk {
  task_id : string;
  status : TaskStatus;
  progress : Z;
  message : option string;
  repo_url : string;
  repo_type : string;
  owner : string;
  repo_name : string;
  provider : string;
  model : string;
  language : string;
  result : option TaskResult;
  error_message : option string;
  created_at : Z;
  completed_at : option Z
}.

End TaskView.

(** ** api/task_queue.py: TaskQueueManager *)
Module TaskQueue.

(** get_task_status(task_id); [raises] is the outcome of the store read. *)
Definition get_task_status (raises : bool) (task_id : string) (d : DB)
    : option TaskView.t :=
  match GitLabDB.get_task raises task_id d with
  | Some task =>
      Some (TaskView.mk task.(Task.task_id) task.(Task.status)
              task.(Task.progress) task.(Task.message) task.(Task.repo_url)
              task.(Task.repo_type) task.(Task.owner) task.(Task.repo_name)
              task.(Task.provider) task.(Task.model) task.(Task.language)
              task.(Task.result) task.(Task.error_message)
              task.(Task.created_at) task.(Task.completed_at))
  | None => None
  end.

Section WithEnv.

Variable env : Env.

(** self.db.update_task_status(...) at a call site. *)
Definition db_update_task_status (site : CallSite) (task_id : string)
    (status : TaskStatus) (progress : option Z) (message : option string)
    (result : option TaskResult) (error_message : option string) : M bool :=
  fun w =>
    let '(ok, d) := GitLabDB.update_task_status (env.(store_raises) site)
                      (env.(current_timestamp) site) task_id status progress
                      message result error_message w.(db) in
    (Ok ok,
     mkWorld d
       (if ok then w.(written) ++ [mkWrite task_id status progress]
        else w.(written))
       w.(active_tasks) w.(running)).

(** self.db.update_wiki_project_status(...) at a call site. *)
Definition db_update_wiki_project_status (site : CallSite) (project_key : string)
    (status : ProjectStatus) (task_id : option string)
    (last_success_date : option string) : M bool :=
  fun w =>
    let '(ok, d) := GitLabDB.update_wiki_project_status (env.(store_raises) site)
                      (env.(current_timestamp) site) project_key status task_id
                      last_success_date w.(db) in
    (Ok ok, set_db d w).

(** self.db.save_wiki_project_result(...) *)
Definition db_save_wiki_project_result (project_key : string)
    (wiki_structure : WikiStructure) (documents_count : Z)
    (message : option string) : M bool :=
  fun w =>
    let '(ok, d) := GitLabDB.save_wiki_project_result
                      (env.(store_raises) PersistResult)
                      (env.(current_timestamp) PersistResult) project_key
                      wiki_structure documents_count message w.(db) in
    (Ok ok, set_db d w).

(** self.db.save_markdown_pages(...) *)
Definition db_save_markdown_pages : M bool :=
  fun w =>
    let '(ok, d) := GitLabDB.save_markdown_pages
                      (env.(store_raises) PersistMarkdown) w.(db) in
    (Ok ok, set_db d w).

(** self.db.get_or_create_wiki_project(...) *)
Definition db_get_or_create_wiki_project (repo_url repo_type owner
    repo_name : string) : M Project.row :=
  fun w =>
    let '(r, d) := GitLabDB.get_or_create_wiki_project
                     (if env.(store_raises) SubmitProject
                      then Some env.(store_error) else None)
                     (env.(current_timestamp) SubmitProject)
                     repo_url repo_type owner repo_name w.(db) in
    (r, set_db d w).

(** self.db.create_wiki_generation_task(...) *)
Definition db_create_wiki_generation_task (task_id : string) (q : Request.t)
    (project_key : option string) : M bool :=
  fun w =>
    let '(ok, d) := GitLabDB.create_wiki_generation_task
                      (env.(store_raises) SubmitTask)
                      (env.(current_timestamp) SubmitTask) task_id q
                      project_key w.(db) in
    (Ok ok,
     mkWorld d
       (if ok then w.(written) ++ [mkWrite task_id Queued (Some 0)]
        else w.(written))
       w.(active_tasks) w.(running)).

(** start(): sets self.running and starts the worker thread. *)
Definition start : M unit :=
  fun w => (Ok tt, mkWorld w.(db) w.(written) w.(active_tasks) true).

(** create_task(...) -> task_id *)
Definition create_task (q : Request.t) : M (option string) :=
  let project_key :=
    make_project_key q.(Request.repo_type) q.(Request.owner)
                     q.(Request.repo_name) in
  project <- db_get_or_create_wiki_project q.(Request.repo_url)
               q.(Request.repo_type) q.(Request.owner) q.(Request.repo_name) ;;
  if ProjectStatus_eqb project.(Project.status) Generating then
    ret project.(Project.current_task_id)
  else
    let task_id := env.(uuid4) in
    success <- db_create_wiki_generation_task task_id q (Some project_key) ;;
    if success then
      db_update_wiki_project_status SubmitGenerating project_key Generating
                                    (Some task_id) None ;;
      (fun w => if w.(running) then ret tt w else start w) ;;
      ret (Some task_id)
    else
      raise (Exception "Failed to create task in database").

(** The raw UPDATE wiki_projects SET progress = ?, message = ? WHERE
    project_key = ? of the progress callback, inside its own try/except. *)
Definition mirror_project_progress (progress_pct : Z) (detail_msg : string)
    (project_key : string) : M unit :=
  fun w =>
    if env.(store_raises) (ProgressProject progress_pct detail_msg)
    then (Ok tt, w)
    else
      (Ok tt,
       set_db (mkDB w.(db).(wiki_generation_tasks)
                 (map (fun p => if GitLabDB.has_project_key project_key p
                                then Project.set_progress progress_pct
                                       (Project.set_message (Some detail_msg) p)
                                else p)
                      w.(db).(wiki_projects)))
              w).

(** update_wiki_progress(progress_pct, stage, detail_msg), the callback that
    _process_task hands to generate_wiki. *)
Definition update_wiki_progress (task : Task.row) (progress_pct : Z)
    (stage detail_msg : string) : M unit :=
  db_update_task_status (ProgressTask progress_pct detail_msg)
    task.(Task.task_id) Processing (Some progress_pct) (Some detail_msg)
    None None ;;
  match task.(Task.project_key) with
  | Some project_key =>
      if truthy (Some project_key)
      then mirror_project_progress progress_pct detail_msg project_key
      else ret tt
  | None => ret tt
  end.

(** The access token handed to download_repo and prepare_retriever: the
    task's own, or GITLAB_TOKEN / GITHUB_TOKEN from the environment. *)
Definition resolve_access_token (task : Task.row) : option string :=
  if truthy task.(Task.access_token) then task.(Task.access_token)
  else if String.eqb task.(Task.repo_type) "gitlab"
       then Some (env.(getenv) "GITLAB_TOKEN")
  else if String.eqb task.(Task.repo_type) "github"
       then Some (env.(getenv) "GITHUB_TOKEN")
  else task.(Task.access_token).

(** One stage checkpoint: update_task_status(status='processing', progress,
    message). *)
Definition checkpoint (site : CallSite) (task_id : string) (progress : Z)
    (message : string) : M bool :=
  db_update_task_status site task_id Processing (Some progress) (Some message)
                        None None.

(** if project_key: self.db.update_wiki_project_status(project_key, status,
    last_success_date=...), as it ends the try block and both except
    branches. *)
Definition mark_project (site : CallSite) (task : Task.row)
    (status : ProjectStatus) (last_success_date : option string) : M unit :=
  match task.(Task.project_key) with
  | Some project_key =>
      if truthy (Some project_key)
      then db_update_wiki_project_status site project_key status None
                                         last_success_date ;;
           ret tt
      else ret tt
  | None => ret tt
  end.

(** The two except branches: mark the task, then the project, failed. *)
Definition on_exception (task : Task.row) (e : exn) : M unit :=
  match e with
  | TaskTimeoutError m =>
      db_update_task_status TaskFailed task.(Task.task_id) Failed (Some 0)
        (Some "Task execution timeout") None (Some m)
  | Exception _ =>
      db_update_task_status TaskFailed task.(Task.task_id) Failed (Some 0)
        (Some "Task failed") None (Some (str e))
  end ;;
  mark_project ProjectFailure task ProjectFailed None.

(** Stage 5 up to the task's final update: the result is saved on the project
    row and, when that succeeded, the pages are saved as Markdown. *)
Definition save_to_project (task : Task.row) (wiki_structure : WikiStructure)
    (documents_count : nat) (cost_message : string) : M unit :=
  match task.(Task.project_key) with
  | Some project_key =>
      if truthy (Some project_key) then
        success <- db_save_wiki_project_result project_key wiki_structure
                     (Z.of_nat documents_count) (Some cost_message) ;;
        if success then
          if existsb (fun page => negb (String.eqb page.(page_id) ""))
                     wiki_structure.(pages)
          then db_save_markdown_pages ;; ret tt
          else ret tt
        else ret tt
      else ret tt
  | None => ret tt
  end.

(** The try block of _process_task up to the end of stage 4; it yields
    repo_path, wiki_structure and documents_count. *)
Definition stages_1_to_4 (task : Task.row) : M (string * WikiStructure * nat) :=
  let task_id := task.(Task.task_id) in
  checkpoint StageStart task_id 0 "Starting wiki generation..." ;;
  (* stage 1 *)
  checkpoint StageDownload task_id 5 "Downloading repository..." ;;
  let access_token := resolve_access_token task in
  let repo_local_path :=
    (env.(home) ++ "/.adalflow/repos/" ++ task.(Task.owner) ++ "/"
     ++ task.(Task.repo_name))%string in
  repo_path <- call (env.(download_repo) task.(Task.repo_url) repo_local_path
                       task.(Task.repo_type) access_token
                       task.(Task.force_refresh)) ;;
  (* stage 2 *)
  checkpoint StageExtract task_id 20 "Extracting documents from repository..." ;;
  documents <- call (env.(read_all_documents) repo_path
                       task.(Task.excluded_dirs) task.(Task.excluded_files)
                       task.(Task.included_dirs) task.(Task.included_files)) ;;
  (* stage 3 *)
  checkpoint StageEmbed task_id 40
    ("Generating embeddings for " ++ str_of_nat documents ++ " documents...")%string ;;
  rag <- call (env.(prepare_retriever) task access_token) ;;
  (* stage 4 *)
  checkpoint StageStructure task_id 70 "Generating wiki structure..." ;;
  generated <- WikiGenerator.generate_wiki env task rag
                 (Some (update_wiki_progress task)) ;;
  let '(wiki_structure, documents_count) := generated in
  ret (repo_path, wiki_structure, documents_count).

(** cost_message: the cost tracker's message, or the default when the tracker
    raises. *)
Definition cost_message_of (task_id : string) : string :=
  match env.(get_cost_message) task_id with
  | Ok m => m
  | Raise _ => "Wiki generation completed successfully!"
  end.

(** Stage 5 of the try block. *)
Definition stage_5 (task : Task.row) (repo_path : string)
    (wiki_structure : WikiStructure) (documents_count : nat) : M unit :=
  let task_id := task.(Task.task_id) in
  checkpoint StageSave task_id 95 "Saving wiki results..." ;;
  let cost_message := cost_message_of task_id in
  save_to_project task wiki_structure documents_count cost_message ;;
  db_update_task_status TaskCompleted task_id Completed (Some 100)
    (Some cost_message)
    (Some (mkResult wiki_structure (Z.of_nat documents_count) repo_path))
    None ;;
  mark_project ProjectGenerated task Generated (Some env.(today)).

(** The try block of _process_task. *)
Definition run_pipeline (task : Task.row) : M unit :=
  generated <- stages_1_to_4 task ;;
  let '(repo_path, wiki_structure, documents_count) := generated in
  stage_5 task repo_path wiki_structure documents_count.

(** finally: del self.active_tasks[task_id] *)
Definition release (task_id : string) (w : World) : World :=
  mkWorld w.(db) w.(written)
          (filter (fun a => negb (String.eqb a task_id)) w.(active_tasks))
          w.(running).

(** _process_task(task) *)
Definition _process_task (task : Task.row) : M unit :=
  try_finally
    (try_except (run_pipeline task) (on_exception task))
    (release task.(Task.task_id)).

End WithEnv.

(** *** The worker loop and the lifecycle *)

(** self.active_tasks[task_id] = True, the dict being kept as the list of its
    keys. *)
Definition activate (task_id : string) (active : list string) : list string :=
  if existsb (String.eqb task_id) active then active else active ++ [task_id].

(** One pass of the while loop of _worker_loop, up to task_thread.start():
    when a slot is free the oldest queued task is claimed; the pass yields the
    task handed to the new thread, if any.  [raises] is the outcome of the
    store read of get_queued_tasks. *)
Definition claim_next (max_concurrent_tasks : Z) (raises : bool)
    : M (option Task.row) :=
  fun w =>
    let active_count := Z.of_nat (List.length w.(active_tasks)) in
    if active_count <? max_concurrent_tasks then
      match GitLabDB.get_queued_tasks raises 1 w.(db) with
      | task :: _ =>
          (Ok (Some task),
           mkWorld w.(db) w.(written)
                   (activate task.(Task.task_id) w.(active_tasks))
                   w.(running))
      | [] => (Ok None, w)
      end
    else (Ok None, w).

(** stop(): clears self.running (and joins the worker thread). *)
Definition stop : M unit :=
  fun w => (Ok tt, mkWorld w.(db) w.(written) w.(active_tasks) false).

(** init_task_queue(): the interrupted tasks are swept, then the manager is
    started.  cleanup_interrupted_tasks catches its own errors, so the try
    around it never takes its except branch. *)
Definition init_task_queue (raises : bool) (now : Z) : M unit :=
  fun w =>
    let '(cleaned_count, d) :=
      GitLabDB.cleanup_interrupted_tasks raises now w.(db) in
    start (set_db d w).

(** shutdown_task_queue(): the manager, if there is one, is stopped. *)
Definition shutdown_task_queue : M unit := stop.

End TaskQueue.

(** ** api/services/wiki_service.py: WikiService *)
Module WikiService.

(** WikiGenerationRequest (api/models/wiki_generation.py) *)
Record WikiGenerationRequest : Type := mkRequest {
  repo_url : string;
  repo_type : string;
  owner : string;
  repo_name : string;
  provider : option string;
  model : option string;
  language : string;
  is_comprehensive : bool;
  excluded_dirs : option string;
  excluded_files : option string;
  included_dirs : option string;
  included_files : option string;
  access_token : option string;
  force_refresh : bool
}.

(** The exceptions of create_wiki_task.  TypeError is what the call
    InvalidRepositoryError(...) raises (see [new_InvalidRepositoryError]);
    QueueError is an exception of create_task; WikiGenerationError is raised
    from its cause e with the message f"Failed to create wiki task:
    {str(e)}". *)
Inductive ServiceError : Type :=
| TypeError
| InvalidRepositoryError (message : string)
| QueueError (e : exn)
| WikiGenerationError (cause : ServiceError).

(** InvalidRepositoryError(message), api/exceptions.py: __init__ calls
    super().__init__(message, error_code="INVALID_REPO"), but
    RepositoryError.__init__(self, message, details=None) has no parameter
    error_code; the call raises TypeError and no InvalidRepositoryError is
    made.  The value is the exception that `raise InvalidRepositoryError(
    message)` raises. *)
Definition new_InvalidRepositoryError (message : string) : ServiceError :=
  TypeError.

(** validate_request(request): None when the request passes, else the
    exception raised. *)
Definition validate_request (request : WikiGenerationRequest)
    : option ServiceError :=
  if String.eqb request.(repo_url) "" then
    Some (new_InvalidRepositoryError "repo_url is required")
  else if negb (existsb (String.eqb request.(repo_type))
                        ["github"; "gitlab"; "bitbucket"; "gerrit"]) then
    Some (new_InvalidRepositoryError "Invalid repo_type")
  else if String.eqb request.(owner) "" || String.eqb request.(repo_name) "" then
    Some (new_InvalidRepositoryError "owner and repo_name are required")
  else None.

(** request.provider or configs.get('default_provider', ...) *)
Definition or_default (value : option string) (default : string) : string :=
  if truthy value then match value with Some v => v | None => default end
  else default.

(** The keyword arguments create_wiki_task passes to create_task;
    [default_provider] and [default_model] are the values of the
    configuration. *)
Definition task_request (default_provider default_model : string)
    (request : WikiGenerationRequest) : Request.t :=
  Request.mk request.(repo_url) request.(repo_type) request.(owner)
             request.(repo_name)
             (or_default request.(provider) default_provider)
             (or_default request.(model) default_model)
             request.(language) request.(is_comprehensive)
             request.(excluded_dirs) request.(excluded_files)
             request.(included_dirs) request.(included_files)
             request.(access_token) request.(force_refresh).

(** create_wiki_task(request) -> task_id.  `except InvalidRepositoryError:
    raise` lets an InvalidRepositoryError through as it is; `except Exception
    as e` logs e and raises WikiGenerationError from it.  The logger's output
    is not part of the world. *)
Definition create_wiki_task (env : Env) (default_provider default_model : string)
    (request : WikiGenerationRequest)
    : World -> (ServiceError + option string) * World :=
  fun w =>
    match validate_request request with
    | Some (InvalidRepositoryError message) =>
        (inl (InvalidRepositoryError message), w)
    | Some e => (inl (WikiGenerationError e), w)
    | None =>
        match TaskQueue.create_task env
                (task_request default_provider default_model request) w with
        | (Ok task_id, w') => (inr task_id, w')
        | (Raise e, w') => (inl (WikiGenerationError (QueueError e)), w')
        end
    end.

End WikiService.

(** ** Vocabulary of the properties and the scenario data *)

(** The subject of the scenarios: gitlab:acme/widgets. *)
Module Scenario.

Definition request : Request.t :=
  Request.mk "https://gitlab.example.com/acme/widgets" "gitlab" "acme" "widgets"
             "google" "gemini-2.5-flash" "en" true None None None None
             (Some "glpat-secret") false.

Definition key : string := "gitlab:acme/widgets".

Definition empty_db : DB := mkDB [] [].

(** The store after a first submission at time 1 with task id "t1":
    the task is queued. *)
Definition queued_db : DB :=
  snd (GitLabDB.create_wiki_generation_task false 1 "t1" request (Some key)
         (snd (GitLabDB.get_or_create_wiki_project None 1
                 "https://gitlab.example.com/acme/widgets" "gitlab" "acme"
                 "widgets" empty_db))).

(** The same store once the project is marked generating for "t1". *)
Definition generating_db : DB :=
  snd (GitLabDB.update_wiki_project_status false 2 key Generating (Some "t1")
         None queued_db).

(** The task row of "t1" as the worker reads it from the queue. *)
Definition task : Task.row :=
  Task.mk "t1" "https://gitlab.example.com/acme/widgets" "gitlab" "acme"
          "widgets" "google" "gemini-2.5-flash" "en" true None None None None
          (Some "glpat-secret") false (Some key) Queued 0
          (Some "Task created and queued") None None 1 1 None None.

(** A project that failed at time 5 after a success at time 3. *)
Definition failed_project : Project.row :=
  Project.mk key "https://gitlab.example.com/acme/widgets" "gitlab" "acme"
             "widgets" ProjectFailed None (Some 3) (Some 5) (Some "2024-01-01")
             1 None None None "google" "gemini-2.0-flash-exp" "english" 1 5 0
             None.

End Scenario.

(** The task rows of two stores agree except for the stored access_token. *)
Definition same_but_access_token (d1 d2 : DB) : Prop :=
  map (Task.set_access_token None) d1.(wiki_generation_tasks)
  = map (Task.set_access_token None) d2.(wiki_generation_tasks).

(** The task [t] is linked to the project [p]: its project_key is set and is
    the key of [p]. *)
Definition linked (t : Task.row) (p : Project.row) : bool :=
  match t.(Task.project_key) with
  | Some k => truthy (Some k) && GitLabDB.has_project_key k p
  | None => false
  end.

(** Some interrupted task of [ts] is linked to [p]. *)
Definition linked_to_interrupted (ts : list Task.row) (p : Project.row) : bool :=
  existsb (fun t => GitLabDB.is_interrupted t && linked t p) ts.

(** The columns of a project row that no status transition writes. *)
Definition same_outside_transition (p p' : Project.row) : Prop :=
  p'.(Project.project_key) = p.(Project.project_key) /\
  p'.(Project.repo_url) = p.(Project.repo_url) /\
  p'.(Project.repo_type) = p.(Project.repo_type) /\
  p'.(Project.owner) = p.(Project.owner) /\
  p'.(Project.repo_name) = p.(Project.repo_name) /\
  p'.(Project.wiki_structure) = p.(Project.wiki_structure) /\
  p'.(Project.documents_count) = p.(Project.documents_count) /\
  p'.(Project.pages_count) = p.(Project.pages_count) /\
  p'.(Project.provider) = p.(Project.provider) /\
  p'.(Project.model) = p.(Project.model) /\
  p'.(Project.language) = p.(Project.language) /\
  p'.(Project.created_at) = p.(Project.created_at) /\
  p'.(Project.progress) = p.(Project.progress) /\
  p'.(Project.message) = p.(Project.message).

(** The field-set each new status applies to a project row at time [now], as
    the four UPDATE statements of update_wiki_project_status write it. *)
Definition transition_field_set (now : Z) (status : ProjectStatus)
    (task_id last_success_date : option string) (p p' : Project.row) : Prop :=
  p'.(Project.status) = status /\
  p'.(Project.updated_at) = now /\
  same_outside_transition p p' /\
  match status with
  | Generating =>
      p'.(Project.current_task_id) = task_id /\
      p'.(Project.last_generated_at) = p.(Project.last_generated_at) /\
      p'.(Project.last_failed_at) = p.(Project.last_failed_at) /\
      p'.(Project.last_success_date) = p.(Project.last_success_date) /\
      p'.(Project.generation_count) = p.(Project.generation_count)
  | Generated =>
      p'.(Project.current_task_id) = None /\
      p'.(Project.last_generated_at) = Some now /\
      p'.(Project.last_failed_at) = p.(Project.last_failed_at) /\
      p'.(Project.last_success_date) = last_success_date /\
      p'.(Project.generation_count) = p.(Project.generation_count) + 1
  | ProjectFailed =>
      p'.(Project.current_task_id) = None /\
      p'.(Project.last_generated_at) = p.(Project.last_generated_at) /\
      p'.(Project.last_failed_at) = Some now /\
      p'.(Project.last_success_date) = p.(Project.last_success_date) /\
      p'.(Project.generation_count) = p.(Project.generation_count)
  | NotGenerated =>
      p'.(Project.current_task_id) = None /\
      p'.(Project.last_generated_at) = p.(Project.last_generated_at) /\
      p'.(Project.last_failed_at) = p.(Project.last_failed_at) /\
      p'.(Project.last_success_date) = p.(Project.last_success_date) /\
      p'.(Project.generation_count) = p.(Project.generation_count)
  end.

(** The store [Scenario.generating_db] with another access token on "t1". *)
Definition other_token_db : DB :=
  mkDB (map (Task.set_access_token (Some "glpat-other"))
            Scenario.generating_db.(wiki_generation_tasks))
       Scenario.generating_db.(wiki_projects).

Module ScenarioRun.

Import Scenario.

Definition overview : Page :=
  mkPage "overview" "Overview" "Project overview" "high" [] [] None None.

Definition architecture : Page :=
  mkPage "architecture" "Architecture" "System architecture" "high" [] [] None
         None.

(** A run in which the store never raises and every stage succeeds; the
    structure has the two pages above. *)
Definition env : Env :=
  mkEnv (fun _ => false) (Exception "database is locked") (fun _ => 7) "t1"
        (fun _ => "") "/root"
        (fun _ _ _ _ _ => Ok "/root/.adalflow/repos/acme/widgets")
        (fun _ _ _ _ _ => Ok 3%nat)
        (fun _ _ => Ok (mkRag 3))
        (fun _ _ => Ok [overview; architecture])
        (fun _ _ page => Ok ("## " ++ page.(page_title))%string)
        (fun _ => Raise (Exception "no cost tracker"))
        "2026-01-01".

(** The same run, except that content generation raises for page 1. *)
Definition env_page_1_fails : Env :=
  mkEnv (fun _ => false) (Exception "database is locked") (fun _ => 7) "t1"
        (fun _ => "") "/root"
        (fun _ _ _ _ _ => Ok "/root/.adalflow/repos/acme/widgets")
        (fun _ _ _ _ _ => Ok 3%nat)
        (fun _ _ => Ok (mkRag 3))
        (fun _ _ => Ok [overview; architecture])
        (fun _ i page => if Nat.eqb i 1 then Raise (Exception "model overloaded")
                         else Ok ("## " ++ page.(page_title))%string)
        (fun _ => Raise (Exception "no cost tracker"))
        "2026-01-01".

(** The same run as [env], except that save_wiki_project_result fails. *)
Definition env_persist_fails : Env :=
  mkEnv (fun site => match site with PersistResult => true | _ => false end)
        (Exception "database is locked") (fun _ => 7) "t1"
        (fun _ => "") "/root"
        (fun _ _ _ _ _ => Ok "/root/.adalflow/repos/acme/widgets")
        (fun _ _ _ _ _ => Ok 3%nat)
        (fun _ _ => Ok (mkRag 3))
        (fun _ _ => Ok [overview; architecture])
        (fun _ _ page => Ok ("## " ++ page.(page_title))%string)
        (fun _ => Raise (Exception "no cost tracker"))
        "2026-01-01".

(** The manager with nothing submitted yet. *)
Definition idle : World := mkWorld empty_db [] [] false.

(** The manager after the worker loop has claimed the queued task "t1". *)
Definition claimed : World := mkWorld generating_db [] ["t1"] true.

End ScenarioRun.



(** The project row of [key] is generating with current_task_id [task_id]. *)
Definition generating_for (key : string) (task_id : option string) (d : DB)
    : Prop :=
  exists p, find (GitLabDB.has_project_key key) d.(wiki_projects) = Some p /\
            p.(Project.status) = Generating /\
            p.(Project.current_task_id) = task_id.


Definition key_of (q : Request.t) : string :=
  make_project_key q.(Request.repo_type) q.(Request.owner) q.(Request.repo_name).

(** The task ids of the rows of wiki_generation_tasks, in table order. *)
Definition task_ids (d : DB) : list string :=
  map Task.task_id d.(wiki_generation_tasks).

(** The progress values that a sequence of task writes recorded. *)
Definition recorded_progress (ws : list TaskWrite) : list Z :=
  flat_map (fun x => match x.(w_progress) with
                     | Some p => [p]
                     | None => []
                     end) ws.

(** A checkpoint of [task_id]: status 'processing' and a progress between
    [lo] and [hi]. *)
Definition checkpoint_write (task_id : string) (lo hi : Z) (x : TaskWrite)
    : Prop :=
  x.(w_task_id) = task_id /\ x.(w_status) = Processing /\
  exists p, x.(w_progress) = Some p /\ lo <= p <= hi.

(** Checkpoints of [task_id] between [lo] and [hi] whose progress never
    decreases. *)
Definition steady (task_id : string) (lo hi : Z) (ws : list TaskWrite) : Prop :=
  Forall (checkpoint_write task_id lo hi) ws /\
  StronglySorted Z.le (recorded_progress ws).

(** The computation [c] only adds steady checkpoints of [task_id] to the
    record of writes, and keeps the rows of the task table in place. *)
Definition trail (task_id : string) (lo hi : Z) {A : Type} (c : M A) : Prop :=
  forall w, exists ws,
    (snd (c w)).(written) = w.(written) ++ ws /\
    steady task_id lo hi ws /\
    task_ids (snd (c w)).(db) = task_ids w.(db).

(** The computation [c] returns [a] and adds the task writes [ws] to the
    record, whatever the world. *)
Definition yields {A : Type} (c : M A) (a : A) (ws : list TaskWrite) : Prop :=
  forall w, fst (c w) = Ok a /\ (snd (c w)).(written) = w.(written) ++ ws.

(** The write of a checkpoint at [site], if the store commits it. *)
Definition checkpoint_log (env : Env) (site : CallSite) (task_id : string)
    (progress : Z) : list TaskWrite :=
  if env.(store_raises) site then []
  else [mkWrite task_id Processing (Some progress)].

(** The task writes of the page loop from page number [i] on. *)
Fixpoint page_loop_log (env : Env) (task_id : string) (n i : nat)
    (rest : list Page) : list TaskWrite :=
  match rest with
  | [] => []
  | page :: rest' =>
      checkpoint_log env
        (ProgressTask (WikiGenerator.page_progress i n)
                      (WikiGenerator.page_message i n page))
        task_id (WikiGenerator.page_progress i n)
      ++ page_loop_log env task_id n (S i) rest'
  end.

(** The pages of a structure after the page loop, from page number [i] on. *)
Fixpoint pages_with_content (env : Env) (task : Task.row) (i : nat)
    (pages : list Page) : list Page :=
  match pages with
  | [] => []
  | page :: rest =>
      WikiGenerator.page_with_content env task i page
      :: pages_with_content env task (S i) rest
  end.

(** Stages 1 to 3 and the structure generation of stage 4 succeed in [env]
    for [task], with these results. *)
Definition stages_succeed (env : Env) (task : Task.row) (repo_path : string)
    (rag : Rag) (pages_structure : list Page) : Prop :=
  exists documents,
    env.(download_repo) task.(Task.repo_url)
      (env.(home) ++ "/.adalflow/repos/" ++ task.(Task.owner) ++ "/"
       ++ task.(Task.repo_name))%string
      task.(Task.repo_type) (TaskQueue.resolve_access_token env task)
      task.(Task.force_refresh) = Ok repo_path /\
    env.(read_all_documents) repo_path task.(Task.excluded_dirs)
      task.(Task.excluded_files) task.(Task.included_dirs)
      task.(Task.included_files) = Ok documents /\
    env.(prepare_retriever) task (TaskQueue.resolve_access_token env task)
    = Ok rag /\
    env.(generate_wiki_structure) task rag.(rag_documents) = Ok pages_structure.

(** The task writes of stages 1 to 4 when the stages succeed. *)
Definition stages_log (env : Env) (task : Task.row)
    (pages_structure : list Page) : list TaskWrite :=
  let task_id := task.(Task.task_id) in
  let n := List.length pages_structure in
  checkpoint_log env StageStart task_id 0
  ++ checkpoint_log env StageDownload task_id 5
  ++ checkpoint_log env StageExtract task_id 20
  ++ checkpoint_log env StageEmbed task_id 40
  ++ checkpoint_log env StageStructure task_id 70
  ++ checkpoint_log env
       (ProgressTask 70 ("Wiki structure generated with " ++ str_of_nat n
                         ++ " pages")%string)
       task_id 70
  ++ page_loop_log env task_id n 0 pages_structure.

(** The result payload of a run whose stages succeed. *)
Definition result_of (env : Env) (task : Task.row) (repo_path : string)
    (rag : Rag) (pages_structure : list Page) : TaskResult :=
  mkResult
    (mkWiki (task.(Task.repo_name) ++ " Wiki")%string
            ("Documentation for " ++ task.(Task.repo_name))%string
            (pages_with_content env task 0 pages_structure))
    (Z.of_nat rag.(rag_documents)) repo_path.

(** The task's terminal writes: 'completed' with progress 100 and 'failed'
    with progress 0. *)
Definition completed_write (task_id : string) : TaskWrite :=
  mkWrite task_id Completed (Some 100).

Definition failed_write (task_id : string) : TaskWrite :=
  mkWrite task_id Failed (Some 0).

(** The task writes of stage 5. *)
Definition stage_5_log (env : Env) (task_id : string) : list TaskWrite :=
  checkpoint_log env StageSave task_id 95
  ++ (if env.(store_raises) TaskCompleted then [] else [completed_write task_id]).

(** The store never raises in this run. *)
Definition store_never_raises (env : Env) : Prop :=
  forall site, env.(store_raises) site = false.

(** The progress values of a run over [n] pages in which every stage
    succeeds and the store commits every write: the stage checkpoints, the
    callback after the structure, one callback per page, then 95 and 100. *)
Definition checkpoints_of_run (n : nat) : list Z :=
  [0; 5; 20; 40; 70; 70]
  ++ map (fun i => WikiGenerator.page_progress i n) (seq 0 n)
  ++ [95; 100].

(** ** Vocabulary of the further properties *)

(** The keys of the rows of wiki_projects, in table order. *)
Definition project_keys (d : DB) : list string :=
  map Project.project_key d.(wiki_projects).

(** UNIQUE(task_id) and PRIMARY KEY(project_key) hold. *)
Definition well_keyed (d : DB) : Prop :=
  NoDup (task_ids d) /\ NoDup (project_keys d).

(** The row that create_wiki_generation_task inserts. *)
Definition queued_row (now : Z) (task_id : string) (q : Request.t)
    (project_key : option string) : Task.row :=
  Task.mk task_id q.(Request.repo_url) q.(Request.repo_type)
          q.(Request.owner) q.(Request.repo_name) q.(Request.provider)
          q.(Request.model) q.(Request.language) q.(Request.is_comprehensive)
          q.(Request.excluded_dirs) q.(Request.excluded_files)
          q.(Request.included_dirs) q.(Request.included_files)
          q.(Request.access_token) q.(Request.force_refresh) project_key
          Queued 0 (Some "Task created and queued") None None now now None None.

(** Task rows in creation order. *)
Definition created_no_later (a b : Task.row) : Prop :=
  a.(Task.created_at) <= b.(Task.created_at).

(** A store with three tasks: "a" queued at 30, "b" queued at 10 and "c"
    processing since 5; "d" completed at 50. *)
Module QueueScenario.

Definition row (task_id : string) (status : TaskStatus) (created_at : Z)
    (completed_at : option Z) : Task.row :=
  Task.mk task_id "https://gitlab.example.com/acme/widgets" "gitlab" "acme"
          task_id "google" "gemini-2.5-flash" "en" true None None None None
          None false None status 0 None None None created_at created_at None
          completed_at.

Definition store : DB :=
  mkDB [row "a" Queued 30 None; row "b" Queued 10 None;
        row "c" Processing 5 None; row "d" Completed 20 (Some 50)] [].

End QueueScenario.

(** [d'] has the rows of [d] in place and differs from it at most in the
    row of task [task_id] and in the row of project [project_key]. *)
Definition touches_only (task_id : string) (project_key : option string)
    (d d' : DB) : Prop :=
  Forall2 (fun t t' => Task.task_id t' = Task.task_id t /\
                       (Task.task_id t <> task_id -> t' = t))
          d.(wiki_generation_tasks) d'.(wiki_generation_tasks) /\
  Forall2 (fun p p' => Project.project_key p' = Project.project_key p /\
                       (Some (Project.project_key p) <> project_key -> p' = p))
          d.(wiki_projects) d'.(wiki_projects).

(** The store changes as [touches_only] allows and the manager's own fields
    stay as they are. *)
Definition frame (task_id : string) (project_key : option string)
    (w w' : World) : Prop :=
  touches_only task_id project_key w.(db) w'.(db) /\
  w'.(active_tasks) = w.(active_tasks) /\
  w'.(running) = w.(running).

(** Every run of [c] relates the world before to the world after by [R]. *)
Definition preserves (R : World -> World -> Prop) {A : Type} (c : M A) : Prop :=
  forall w, R w (snd (c w)).

(** Stage 1, 2 or 3 or the structure generation raises [e], the stages before
    it having succeeded. *)
Definition stage_raises (env : Env) (task : Task.row) (e : exn) : Prop :=
  match env.(download_repo) task.(Task.repo_url)
          (env.(home) ++ "/.adalflow/repos/" ++ task.(Task.owner) ++ "/"
           ++ task.(Task.repo_name))%string
          task.(Task.repo_type) (TaskQueue.resolve_access_token env task)
          task.(Task.force_refresh) with
  | Raise e1 => e1 = e
  | Ok repo_path =>
      match env.(read_all_documents) repo_path task.(Task.excluded_dirs)
              task.(Task.excluded_files) task.(Task.included_dirs)
              task.(Task.included_files) with
      | Raise e2 => e2 = e
      | Ok _ =>
          match env.(prepare_retriever) task
                  (TaskQueue.resolve_access_token env task) with
          | Raise e3 => e3 = e
          | Ok rag =>
              env.(generate_wiki_structure) task rag.(rag_documents) = Raise e
          end
      end
  end.

(** What the scheduler and its callers do to the world, one operation at a
    time. *)
Inductive scheduler_step : World -> World -> Prop :=
| step_submit env q w :
    scheduler_step w (snd (TaskQueue.create_task env q w))
| step_claim max_concurrent_tasks raises w :
    scheduler_step w (snd (TaskQueue.claim_next max_concurrent_tasks raises w))
| step_process env task w :
    scheduler_step w (snd (TaskQueue._process_task env task w))
| step_init raises now w :
    scheduler_step w (snd (TaskQueue.init_task_queue raises now w))
| step_stop w :
    scheduler_step w (snd (TaskQueue.stop w))
| step_purge raises now days w :
    scheduler_step w
      (set_db (snd (GitLabDB.cleanup_old_tasks raises now days w.(db))) w).

(** The worlds the scheduler reaches from [w]. *)
Inductive reaches (w : World) : World -> Prop :=
| reaches_here : reaches w w
| reaches_step w1 w2 : reaches w w1 -> scheduler_step w1 w2 -> reaches w w2.

(** The same run as [ScenarioRun.env], except that the download fails. *)
Definition env_download_fails : Env :=
  mkEnv (fun _ => false) (Exception "database is locked") (fun _ => 7) "t1"
        (fun _ => "") "/root"
        (fun _ _ _ _ _ => Raise (Exception "repository not found"))
        (fun _ _ _ _ _ => Ok 3%nat)
        (fun _ _ => Ok (mkRag 3))
        (fun _ _ => Ok [ScenarioRun.overview; ScenarioRun.architecture])
        (fun _ _ page => Ok ("## " ++ page.(page_title))%string)
        (fun _ => Raise (Exception "no cost tracker"))
        "2026-01-01".

(** The same run as [ScenarioRun.env] with task id "t2" for a new task. *)
Definition env_second : Env :=
  mkEnv (fun _ => false) (Exception "database is locked") (fun _ => 9) "t2"
        (fun _ => "") "/root"
        (fun _ _ _ _ _ => Ok "/root/.adalflow/repos/acme/widgets")
        (fun _ _ _ _ _ => Ok 3%nat)
        (fun _ _ => Ok (mkRag 3))
        (fun _ _ => Ok [ScenarioRun.overview; ScenarioRun.architecture])
        (fun _ _ page => Ok ("## " ++ page.(page_title))%string)
        (fun _ => Raise (Exception "no cost tracker"))
        "2026-01-02".

(** A submission for the subject of [q] would start a new task in [d]: the
    subject's project row is not generating, or there is no row yet and the
    repo_type passes the CHECK of wiki_projects. *)
Definition startable (q : Request.t) (d : DB) : Prop :=
  match find (GitLabDB.has_project_key (key_of q)) d.(wiki_projects) with
  | Some project => project.(Project.status) <> Generating
  | None => GitLabDB.valid_repo_type q.(Request.repo_type) = true
  end.

(** The store commits the three writes of create_task. *)
Definition submit_commits (env : Env) : Prop :=
  env.(store_raises) SubmitProject = false /\
  env.(store_raises) SubmitTask = false /\
  env.(store_raises) SubmitGenerating = false.

(** The same run as [ScenarioRun.env], except that the INSERT of the task row
    fails. *)
Definition env_insert_fails : Env :=
  mkEnv (fun site => match site with SubmitTask => true | _ => false end)
        (Exception "database is locked") (fun _ => 7) "t1"
        (fun _ => "") "/root"
        (fun _ _ _ _ _ => Ok "/root/.adalflow/repos/acme/widgets")
        (fun _ _ _ _ _ => Ok 3%nat)
        (fun _ _ => Ok (mkRag 3))
        (fun _ _ => Ok [ScenarioRun.overview; ScenarioRun.architecture])
        (fun _ _ page => Ok ("## " ++ page.(page_title))%string)
        (fun _ => Raise (Exception "no cost tracker"))
        "2026-01-01".

(** The message that on_exception stores for an exception. *)
Definition failure_message (e : exn) : string :=
  match e with
  | TaskTimeoutError _ => "Task execution timeout"
  | Exception _ => "Task failed"
  end.

(** A task row without the bookkeeping a checkpoint writes: status, progress,
    message, updated_at and started_at. *)
Definition without_bookkeeping (t : Task.row) : Task.row :=
  Task.set_status Queued
    (Task.set_progress 0
      (Task.set_message None
        (Task.set_updated_at 0
          (Task.set_started_at None t)))).

(** A project row without progress and message. *)
Definition without_progress (p : Project.row) : Project.row :=
  Project.set_progress 0 (Project.set_message None p).

(** The two worlds have the same rows, except for the bookkeeping of the
    task rows and the progress and message of the project rows. *)
Definition progress_only (w w' : World) : Prop :=
  Forall2 (fun t t' => without_bookkeeping t' = without_bookkeeping t)
          w.(db).(wiki_generation_tasks) w'.(db).(wiki_generation_tasks) /\
  Forall2 (fun p p' => without_progress p' = without_progress p)
          w.(db).(wiki_projects) w'.(db).(wiki_projects).


(** The run of [env_download_fails] in which, moreover, the store loses the
    update of the project to 'failed'. *)
Definition env_failure_write_lost : Env :=
  mkEnv (fun site => match site with ProjectFailure => true | _ => false end)
        (Exception "database is locked") (fun _ => 7) "t1"
        (fun _ => "") "/root"
        (fun _ _ _ _ _ => Raise (Exception "repository not found"))
        (fun _ _ _ _ _ => Ok 3%nat)
        (fun _ _ => Ok (mkRag 3))
        (fun _ _ => Ok [ScenarioRun.overview; ScenarioRun.architecture])
        (fun _ _ page => Ok ("## " ++ page.(page_title))%string)
        (fun _ => Raise (Exception "no cost tracker"))
        "2026-01-01".

(** A terminal task row carries what its status promises: a completed row
    has progress 100, a result and completed_at; a failed row has progress 0,
    an error_message and completed_at. *)
Definition task_row_consistent (t : Task.row) : Prop :=
  match t.(Task.status) with
  | Completed =>
      t.(Task.progress) = 100 /\ t.(Task.result) <> None /\
      t.(Task.completed_at) <> None
  | Failed =>
      t.(Task.progress) = 0 /\ t.(Task.error_message) <> None /\
      t.(Task.completed_at) <> None
  | Queued | Processing => True
  end.

(** A project row names a current task exactly while it is generating. *)
Definition project_row_consistent (p : Project.row) : Prop :=
  p.(Project.status) = Generating <-> p.(Project.current_task_id) <> None.

(** The keys are unique and every row is consistent. *)
Definition consistent (d : DB) : Prop :=
  well_keyed d /\
  Forall task_row_consistent d.(wiki_generation_tasks) /\
  Forall project_row_consistent d.(wiki_projects).

(** Consistency of the store carries over from [w] to [w']. *)
Definition keeps (w w' : World) : Prop :=
  consistent w.(db) -> consistent w'.(db).

(** The arguments of an update of a task to a terminal status carry what the
    status promises. *)
Definition settles (status : TaskStatus) (progress : option Z)
    (result : option TaskResult) (error_message : option string) : Prop :=
  match status with
  | Completed => progress = Some 100 /\ result <> None
  | Failed => progress = Some 0 /\ error_message <> None
  | Queued | Processing => True
  end.

(** A request to the service for the repository of [Scenario.request], with
    no provider and no model. *)
Definition service_request : WikiService.WikiGenerationRequest :=
  WikiService.mkRequest "https://gitlab.example.com/acme/widgets" "gitlab"
    "acme" "widgets" None None "en" true None None None None
    (Some "glpat-secret") false.

(** The row save_wiki_project_result writes. *)
Definition saved_row (now : Z) (wiki_structure : WikiStructure)
    (documents_count : Z) (message : option string) (p : Project.row)
    : Project.row :=
  Project.set_wiki_structure (Some wiki_structure)
    (Project.set_documents_count (Some documents_count)
      (Project.set_pages_count
         (Some (Z.of_nat (List.length wiki_structure.(pages))))
        (Project.set_progress 100
          (Project.set_message
             (Some (GitLabDB.result_message message
                      (List.length wiki_structure.(pages))))
            (Project.set_updated_at now p))))).


(** [page'] is [page] but for its content. *)
Definition same_but_content (page page' : Page) : Prop :=
  page'.(page_id) = page.(page_id) /\
  page'.(page_title) = page.(page_title) /\
  page'.(page_description) = page.(page_description) /\
  page'.(importance) = page.(importance) /\
  page'.(filePaths) = page.(filePaths) /\
  page'.(relatedPages) = page.(relatedPages) /\
  page'.(parentSection) = page.(parentSection).

(** ** Properties of the store methods (api/gitlab_db.py) *)
Module GitLabDBFacts.

Import GitLabDB.

Lemma Forall2_map_same {A : Type} (R : A -> A -> Prop) (f : A -> A) (l : list A) :
  (forall x, R x (f x)) -> Forall2 R l (map f l).
Proof.
  intros Hf. induction l as [|x l IH]; simpl; constructor; auto.
Qed.

Lemma update_task_row_task_id now status progress message result error_message t :
  Task.task_id (update_task_row now status progress message result
                                error_message t) = Task.task_id t.
Proof.
  unfold update_task_row.
  destruct (stamps_started_at status progress), (is_terminal status), progress;
    reflexivity.
Qed.

Lemma update_task_row_started_at now status progress message result
    error_message t :
  Task.started_at (update_task_row now status progress message result
                                   error_message t)
  = if stamps_started_at status progress then Some now else Task.started_at t.
Proof.
  unfold update_task_row.
  destruct (stamps_started_at status progress), (is_terminal status), progress;
    reflexivity.
Qed.

Lemma update_task_row_completed_at now status progress message result
    error_message t :
  Task.completed_at (update_task_row now status progress message result
                                     error_message t)
  = if is_terminal status then Some now else Task.completed_at t.
Proof.
  unfold update_task_row.
  destruct status, progress as [p|]; simpl; try reflexivity.
  destruct (p =? 0); reflexivity.
Qed.

(** C3 (as stated, refuted): at time 10 the task "t1" is set to processing with
    progress 0 and at time 30 to failed; the same two updates repeated at
    times 20 and 40 replace both stored timestamps. *)
Lemma update_task_status_restamps :
  let first := fun d =>
    snd (update_task_status false 30 "t1" Failed (Some 0) None None None
          (snd (update_task_status false 10 "t1" Processing (Some 0) None None
                  None d))) in
  let again := fun d =>
    snd (update_task_status false 40 "t1" Failed (Some 0) None None None
          (snd (update_task_status false 20 "t1" Processing (Some 0) None None
                  None d))) in
  let d1 := first Scenario.queued_db in
  let d2 := again d1 in
  option_map Task.started_at (get_task false "t1" d1) = Some (Some 10) /\
  option_map Task.completed_at (get_task false "t1" d1) = Some (Some 30) /\
  option_map Task.started_at (get_task false "t1" d2) = Some (Some 20) /\
  option_map Task.completed_at (get_task false "t1" d2) = Some (Some 40) /\
  option_map Task.started_at (get_task false "t1" d2)
  <> option_map Task.started_at (get_task false "t1" d1) /\
  option_map Task.completed_at (get_task false "t1" d2)
  <> option_map Task.completed_at (get_task false "t1" d1).
Proof.
  vm_compute. repeat split; try reflexivity; discriminate.
Qed.

(** C3 (amended): every update that the store commits with status
    'processing' and progress 0 stamps started_at of the task's row with the
    current time, and every committed update with status 'completed' or
    'failed' stamps completed_at with the current time, whatever the row held
    before; an update that does not qualify leaves the stored timestamp as it
    was, and rows of other tasks are untouched. *)
Theorem update_task_status_stamps_every_time :
  forall now task_id status progress message result error_message d,
    fst (update_task_status false now task_id status progress message result
                            error_message d) = true /\
    Forall2
      (fun t t' =>
         if has_task_id task_id t then
           Task.started_at t'
           = (if stamps_started_at status progress then Some now
              else Task.started_at t) /\
           Task.completed_at t'
           = (if is_terminal status then Some now else Task.completed_at t)
         else t' = t)
      d.(wiki_generation_tasks)
      (snd (update_task_status false now task_id status progress message
                               result error_message d)).(wiki_generation_tasks).
Proof.
  intros. split; [reflexivity|]. simpl.
  apply Forall2_map_same. intros t.
  destruct (has_task_id task_id t); [|reflexivity].
  split.
  - apply update_task_row_started_at.
  - apply update_task_row_completed_at.
Qed.

Lemma project_transition_field_set now status task_id last_success_date p :
  transition_field_set now status task_id last_success_date p
    (project_transition now status task_id last_success_date p).
Proof.
  unfold transition_field_set, same_outside_transition.
  destruct status; simpl; repeat split; reflexivity.
Qed.

(** C4 (as stated, refuted): a project that failed at time 5, after a success
    at time 3 on 2024-01-01, is moved to 'generating' for task "t2" at time 9;
    current_task_id is set and the three timestamps are still there.  Nor is
    the subject validated: for a key that has no row the call changes
    nothing and still returns true. *)
Lemma generating_keeps_timestamps :
  let d := mkDB [] [Scenario.failed_project] in
  let r := update_wiki_project_status false 9 Scenario.key Generating
             (Some "t2") None d in
  fst r = true /\
  map Project.status (snd r).(wiki_projects) = [Generating] /\
  map Project.current_task_id (snd r).(wiki_projects) = [Some "t2"] /\
  map Project.last_generated_at (snd r).(wiki_projects) = [Some 3] /\
  map Project.last_failed_at (snd r).(wiki_projects) = [Some 5] /\
  map Project.last_success_date (snd r).(wiki_projects) = [Some "2024-01-01"] /\
  update_wiki_project_status false 9 "gitlab:acme/gadgets" Generating
    (Some "t2") None d = (true, d).
Proof.
  vm_compute. repeat split; reflexivity.
Qed.

(** C4 (amended): when the store commits, update_wiki_project_status returns
    true and applies to the row of project_key exactly the field-set of the new
    status: 'generating' sets current_task_id and leaves last_generated_at,
    last_failed_at and last_success_date as they were; 'generated' clears
    current_task_id, sets last_generated_at and last_success_date and adds one
    to generation_count; 'failed' clears current_task_id and sets
    last_failed_at; 'not_generated' clears current_task_id only.  Every other
    row, and the task table, is unchanged (so a key without a row changes
    nothing, and the call still returns true).  On a store failure it returns
    false and the store is unchanged. *)
Theorem update_wiki_project_status_field_sets :
  forall now project_key status task_id last_success_date d,
    (let r := update_wiki_project_status false now project_key status task_id
                last_success_date d in
     fst r = true /\
     (snd r).(wiki_generation_tasks) = d.(wiki_generation_tasks) /\
     Forall2
       (fun p p' =>
          if has_project_key project_key p
          then transition_field_set now status task_id last_success_date p p'
          else p' = p)
       d.(wiki_projects) (snd r).(wiki_projects)) /\
    update_wiki_project_status true now project_key status task_id
      last_success_date d = (false, d).
Proof.
  intros. split; [|reflexivity]. simpl.
  split; [reflexivity|]. split; [reflexivity|].
  apply Forall2_map_same. intros p.
  destruct (has_project_key project_key p); [|reflexivity].
  apply project_transition_field_set.
Qed.

(** The sweep's project loop, row by row: a project is marked failed exactly
    when it is generating and one of the tasks names it. *)
Lemma fail_linked_projects_map now ts ps :
  fail_linked_projects now ts ps
  = map (fun p => if ProjectStatus_eqb p.(Project.status) Generating
                     && existsb (fun t => linked t p) ts
                  then mark_project_failed now p else p) ps.
Proof.
  unfold fail_linked_projects.
  revert ps. induction ts as [|t ts IH]; intros ps; cbn [fold_left existsb].
  - rewrite <- (map_id ps) at 1. apply map_ext. intros p.
    rewrite andb_false_r. reflexivity.
  - rewrite IH. clear IH.
    assert (Hstep :
      (match Task.project_key t with
       | Some k => if truthy (Some k) then fail_generating_project now k ps
                   else ps
       | None => ps
       end)
      = map (fun p => if linked t p
                         && ProjectStatus_eqb p.(Project.status) Generating
                      then mark_project_failed now p else p) ps).
    { unfold linked. destruct (Task.project_key t) as [k|].
      - destruct (truthy (Some k)); [reflexivity|].
        rewrite <- (map_id ps) at 1. apply map_ext. reflexivity.
      - rewrite <- (map_id ps) at 1. apply map_ext. reflexivity. }
    rewrite Hstep, map_map. apply map_ext. intros p.
    destruct (linked t p);
      destruct (ProjectStatus_eqb (Project.status p) Generating) eqn:Hs;
      simpl; try rewrite Hs; reflexivity.
Qed.

Lemma existsb_filter {A : Type} (f g : A -> bool) (l : list A) :
  existsb g (filter f l) = existsb (fun x => f x && g x) l.
Proof.
  induction l as [|x l IH]; simpl; [reflexivity|].
  destruct (f x); simpl; rewrite IH; reflexivity.
Qed.

Lemma mark_interrupted_not_interrupted now t :
  is_interrupted (mark_interrupted now t) = false.
Proof. reflexivity. Qed.

Lemma filter_nil_none {A : Type} (f : A -> bool) (l : list A) :
  filter f l = [] -> forall x, In x l -> f x = false.
Proof.
  induction l as [|y l IH]; simpl; intros H x Hin; [contradiction|].
  destruct (f y) eqn:Hy; [discriminate|].
  destruct Hin as [->|Hin]; auto.
Qed.

Lemma existsb_none {A : Type} (f : A -> bool) (l : list A) :
  (forall x, In x l -> f x = false) -> existsb f l = false.
Proof.
  induction l as [|y l IH]; simpl; intros H; [reflexivity|].
  rewrite (H y (or_introl eq_refl)). simpl. apply IH. intros x Hx. auto.
Qed.

(** The sweep as one pass over each table. *)
Lemma cleanup_interrupted_tasks_maps now d :
  cleanup_interrupted_tasks false now d
  = (List.length (filter is_interrupted d.(wiki_generation_tasks)),
     mkDB (map (fun t => if is_interrupted t then mark_interrupted now t else t)
               d.(wiki_generation_tasks))
          (map (fun p => if ProjectStatus_eqb p.(Project.status) Generating
                            && linked_to_interrupted d.(wiki_generation_tasks) p
                         then mark_project_failed now p else p)
               d.(wiki_projects))).
Proof.
  unfold cleanup_interrupted_tasks.
  destruct (filter is_interrupted (wiki_generation_tasks d)) as [|t0 ts0] eqn:Hf.
  - pose proof (filter_nil_none _ _ Hf) as Hnone.
    destruct d as [ts ps]. simpl in *. f_equal. f_equal.
    + rewrite <- (map_id ts) at 1. apply map_ext_in.
      intros t Ht. rewrite (Hnone t Ht). reflexivity.
    + rewrite <- (map_id ps) at 1. apply map_ext.
      intros p. unfold linked_to_interrupted.
      rewrite existsb_none, andb_false_r; [reflexivity|].
      intros t Ht. rewrite (Hnone t Ht). reflexivity.
  - rewrite <- Hf. rewrite fail_linked_projects_map.
    f_equal. f_equal. apply map_ext. intros p.
    rewrite existsb_filter. reflexivity.
Qed.

(** C2: after one run of the sweep in which the store commits, every task that
    was queued or processing is failed with the fixed interruption error,
    progress 0 and completed_at set; every project that was generating and is
    named by such a task is failed with current_task_id cleared and
    last_failed_at set; the other rows are unchanged; the sweep returns the
    number of tasks it marked; and no queued or processing task is left. *)
Theorem cleanup_interrupted_tasks_postcondition :
  forall now d,
    let r := cleanup_interrupted_tasks false now d in
    Forall2
      (fun t t' =>
         if is_interrupted t then
           Task.task_id t' = Task.task_id t /\
           Task.status t' = Failed /\
           Task.error_message t' = Some interruption_error /\
           Task.progress t' = 0 /\
           Task.completed_at t' = Some now
         else t' = t)
      d.(wiki_generation_tasks) (snd r).(wiki_generation_tasks) /\
    Forall2
      (fun p p' =>
         if ProjectStatus_eqb p.(Project.status) Generating
            && linked_to_interrupted d.(wiki_generation_tasks) p
         then
           Project.project_key p' = Project.project_key p /\
           Project.status p' = ProjectFailed /\
           Project.current_task_id p' = None /\
           Project.last_failed_at p' = Some now
         else p' = p)
      d.(wiki_projects) (snd r).(wiki_projects) /\
    fst r = List.length (filter is_interrupted d.(wiki_generation_tasks)) /\
    Forall (fun t' => is_interrupted t' = false) (snd r).(wiki_generation_tasks).
Proof.
  intros now d r. subst r. rewrite cleanup_interrupted_tasks_maps. simpl.
  repeat apply conj.
  - apply Forall2_map_same. intros t.
    destruct (is_interrupted t); [|reflexivity]. repeat split.
  - apply Forall2_map_same. intros p.
    destruct (ProjectStatus_eqb (Project.status p) Generating
              && linked_to_interrupted (wiki_generation_tasks d) p);
      [|reflexivity].
    repeat split.
  - reflexivity.
  - apply Forall_forall. intros t' Hin. apply in_map_iff in Hin.
    destruct Hin as [t [<- _]].
    destruct (is_interrupted t) eqn:Ht; [reflexivity|exact Ht].
Qed.

End GitLabDBFacts.

(** ** Properties of the status query (api/task_queue.py, get_task_status) *)
Module StatusFacts.

Import GitLabDB TaskQueue.

Lemma find_task_absent task_id (ts : list Task.row) :
  ~ In task_id (map Task.task_id ts) -> find (has_task_id task_id) ts = None.
Proof.
  induction ts as [|t ts IH]; simpl; intros Hno; [reflexivity|].
  unfold has_task_id at 1.
  destruct (String.eqb (Task.task_id t) task_id) eqn:E.
  - apply String.eqb_eq in E. exfalso. apply Hno. left. exact E.
  - apply IH. intros Hin. apply Hno. right. exact Hin.
Qed.

(** C9: get_task_status returns None, and does not raise, for a task_id that
    has no row in wiki_generation_tasks, and also when the store read fails. *)
Theorem get_task_status_unknown_is_none :
  forall raises task_id d,
    raises = true \/ ~ In task_id (map Task.task_id d.(wiki_generation_tasks)) ->
    get_task_status raises task_id d = None.
Proof.
  intros raises task_id d [-> | Hno]; [reflexivity|].
  unfold get_task_status, get_task.
  destruct raises; [reflexivity|].
  rewrite (find_task_absent _ _ Hno). reflexivity.
Qed.

Lemma get_task_status_unknown_is_none_witness :
  (false = true \/
   ~ In "t9" (map Task.task_id Scenario.generating_db.(wiki_generation_tasks)))
  /\ get_task_status false "t9" Scenario.generating_db = None.
Proof.
  assert (H : false = true \/
              ~ In "t9" (map Task.task_id
                           Scenario.generating_db.(wiki_generation_tasks))).
  { right. simpl. intros [E | []]. discriminate E. }
  split; [exact H|].
  exact (get_task_status_unknown_is_none false "t9" Scenario.generating_db H).
Defined.

Lemma cons_eq_inv {A : Type} (x y : A) (l l' : list A) :
  x :: l = y :: l' -> x = y /\ l = l'.
Proof. intros H. injection H as Hx Hl. split; assumption. Qed.

Lemma find_same_but_access_token task_id (l1 l2 : list Task.row) :
  map (Task.set_access_token None) l1 = map (Task.set_access_token None) l2 ->
  option_map (Task.set_access_token None) (find (has_task_id task_id) l1)
  = option_map (Task.set_access_token None) (find (has_task_id task_id) l2).
Proof.
  revert l2. induction l1 as [|a l1 IH]; intros [|b l2] H; cbn [map] in H;
    try discriminate H; [reflexivity|].
  destruct (cons_eq_inv _ _ _ _ H) as [Hab Hrest]. simpl.
  assert (Hid : has_task_id task_id a = has_task_id task_id b).
  { unfold has_task_id.
    replace (Task.task_id a)
      with (Task.task_id (Task.set_access_token None a)) by reflexivity.
    rewrite Hab. reflexivity. }
  rewrite Hid. destruct (has_task_id task_id b).
  - simpl. rewrite Hab. reflexivity.
  - apply IH. exact Hrest.
Qed.

(** C10: the view of get_task_status has no access_token entry, and it does
    not depend on the stored token: for two stores whose task rows differ only
    in access_token, get_task_status returns the same view. *)
Theorem get_task_status_hides_access_token :
  forall raises task_id d1 d2,
    same_but_access_token d1 d2 ->
    get_task_status raises task_id d1 = get_task_status raises task_id d2.
Proof.
  intros raises task_id d1 d2 H. unfold get_task_status, get_task.
  destruct raises; [reflexivity|].
  pose proof (find_same_but_access_token task_id _ _ H) as Hf.
  destruct (find (has_task_id task_id) (wiki_generation_tasks d1)) as [a|],
           (find (has_task_id task_id) (wiki_generation_tasks d2)) as [b|];
    simpl in Hf; try discriminate Hf; [|reflexivity].
  assert (Hab : Task.set_access_token None a = Task.set_access_token None b)
    by congruence.
  clear Hf.
  pose (view := fun task : Task.row =>
          TaskView.mk task.(Task.task_id) task.(Task.status)
            task.(Task.progress) task.(Task.message) task.(Task.repo_url)
            task.(Task.repo_type) task.(Task.owner) task.(Task.repo_name)
            task.(Task.provider) task.(Task.model) task.(Task.language)
            task.(Task.result) task.(Task.error_message)
            task.(Task.created_at) task.(Task.completed_at)).
  change (Some (view a) = Some (view b)).
  replace (view a) with (view (Task.set_access_token None a)) by reflexivity.
  rewrite Hab. reflexivity.
Qed.

Lemma get_task_status_hides_access_token_witness :
  same_but_access_token Scenario.generating_db other_token_db
  /\ map Task.access_token Scenario.generating_db.(wiki_generation_tasks)
     <> map Task.access_token other_token_db.(wiki_generation_tasks)
  /\ get_task_status false "t1" Scenario.generating_db
     = get_task_status false "t1" other_token_db.
Proof.
  assert (H : same_but_access_token Scenario.generating_db other_token_db)
    by reflexivity.
  split; [exact H|]. split; [discriminate|].
  exact (get_task_status_hides_access_token false "t1" _ _ H).
Defined.

End StatusFacts.

(** ** Properties of submission and of the progress callback *)
Module SubmitFacts.

Import GitLabDB TaskQueue.

Lemma find_map_same_key key (f : Project.row -> Project.row) ps :
  (forall p, Project.project_key (f p) = Project.project_key p) ->
  find (has_project_key key) (map f ps)
  = option_map f (find (has_project_key key) ps).
Proof.
  intros Hf. induction ps as [|p ps IH]; simpl; [reflexivity|].
  unfold has_project_key at 1. rewrite Hf.
  fold (has_project_key key p).
  destruct (has_project_key key p); [reflexivity|exact IH].
Qed.

Lemma find_app_absent {A : Type} (f : A -> bool) l x :
  find f l = None -> find f (l ++ [x]) = if f x then Some x else None.
Proof.
  induction l as [|y l IH]; simpl; intros H; [reflexivity|].
  destruct (f y); [discriminate|]. apply IH. exact H.
Qed.

Lemma checkpoint_projects env site task_id progress message w :
  (snd (checkpoint env site task_id progress message w)).(db).(wiki_projects)
  = w.(db).(wiki_projects).
Proof.
  unfold checkpoint, db_update_task_status, update_task_status.
  destruct (store_raises env site); reflexivity.
Qed.








Lemma set_db_same w : set_db w.(db) w = w.
Proof. destruct w; reflexivity. Qed.

Lemma ProjectStatus_eqb_eq a b : ProjectStatus_eqb a b = true <-> a = b.
Proof. destruct a, b; simpl; split; intros H; try reflexivity; discriminate. Qed.

(** The dedup branch of create_task. *)
Lemma create_task_returns_current env q w project :
  store_raises env SubmitProject = false ->
  find (has_project_key (key_of q)) w.(db).(wiki_projects) = Some project ->
  Project.status project = Generating ->
  create_task env q w = (Ok (Project.current_task_id project), w).
Proof.
  intros Hok Hfind Hgen.
  unfold create_task, bind, db_get_or_create_wiki_project,
    get_or_create_wiki_project.
  rewrite Hok. fold (key_of q). rewrite Hfind, Hgen. cbn.
  rewrite set_db_same. reflexivity.
Qed.




Lemma has_project_key_refl key p :
  Project.project_key p = key -> has_project_key key p = true.
Proof. intros <-. unfold has_project_key. apply String.eqb_refl. Qed.

Lemma get_or_create_wiki_project_found raises now repo_url repo_type owner
    repo_name d project d' :
  get_or_create_wiki_project raises now repo_url repo_type owner repo_name d
  = (Ok project, d') ->
  find (has_project_key (make_project_key repo_type owner repo_name))
       d'.(wiki_projects) = Some project /\
  d'.(wiki_generation_tasks) = d.(wiki_generation_tasks).
Proof.
  unfold get_or_create_wiki_project. intros H.
  destruct raises; [discriminate H|].
  destruct (find (has_project_key (make_project_key repo_type owner repo_name))
                 (wiki_projects d)) as [p|] eqn:Hfind.
  - injection H as -> ->. auto.
  - destruct (valid_repo_type repo_type); [|discriminate H].
    injection H as <- <-. cbn. split; [|reflexivity].
    rewrite (find_app_absent _ _ _ Hfind).
    rewrite has_project_key_refl; reflexivity.
Qed.


End SubmitFacts.

(** ** Properties of the pipeline (_process_task and generate_wiki) *)
Module PipelineFacts.

Import GitLabDB WikiGenerator TaskQueue.

(** *** Steady sequences of checkpoints *)

Lemma recorded_progress_app ws1 ws2 :
  recorded_progress (ws1 ++ ws2) = recorded_progress ws1 ++ recorded_progress ws2.
Proof. unfold recorded_progress. apply flat_map_app. Qed.

Lemma checkpoint_write_weaken task_id lo hi lo' hi' x :
  lo' <= lo -> hi <= hi' ->
  checkpoint_write task_id lo hi x -> checkpoint_write task_id lo' hi' x.
Proof.
  intros Hlo Hhi (Hid & Hst & p & Hp & Hb).
  repeat split; auto. exists p. split; [exact Hp|lia].
Qed.

Lemma steady_nil task_id lo hi : steady task_id lo hi [].
Proof. split; constructor. Qed.

Lemma steady_one task_id lo hi p :
  lo <= p <= hi -> steady task_id lo hi [mkWrite task_id Processing (Some p)].
Proof.
  intros Hb. split.
  - constructor; [|constructor]. repeat split. exists p. auto.
  - simpl. repeat constructor.
Qed.

Lemma steady_weaken task_id lo hi lo' hi' ws :
  lo' <= lo -> hi <= hi' ->
  steady task_id lo hi ws -> steady task_id lo' hi' ws.
Proof.
  intros Hlo Hhi [Hall Hsorted]. split; [|exact Hsorted].
  eapply Forall_impl; [|exact Hall].
  intros x. apply checkpoint_write_weaken; assumption.
Qed.

Lemma recorded_progress_bounds task_id lo hi ws :
  Forall (checkpoint_write task_id lo hi) ws ->
  Forall (fun p => lo <= p <= hi) (recorded_progress ws).
Proof.
  induction 1 as [|x ws (_ & _ & p & Hp & Hb) _ IH]; simpl; [constructor|].
  rewrite Hp. simpl. constructor; assumption.
Qed.

Lemma StronglySorted_app_le (l1 l2 : list Z) (mid : Z) :
  StronglySorted Z.le l1 -> StronglySorted Z.le l2 ->
  Forall (fun p => p <= mid) l1 -> Forall (fun p => mid <= p) l2 ->
  StronglySorted Z.le (l1 ++ l2).
Proof.
  intros H1 H2 Hle1 Hle2. induction H1 as [|a l1 Hs IH Ha]; simpl; [exact H2|].
  inversion Hle1 as [|? ? Hamid Hrest]; subst.
  constructor; [apply IH; exact Hrest|].
  apply Forall_app. split; [exact Ha|].
  eapply Forall_impl; [|exact Hle2]. intros p Hp. simpl in Hp. lia.
Qed.

Lemma steady_app task_id lo mid hi ws1 ws2 :
  lo <= mid <= hi ->
  steady task_id lo mid ws1 -> steady task_id mid hi ws2 ->
  steady task_id lo hi (ws1 ++ ws2).
Proof.
  intros Hb [Hall1 Hs1] [Hall2 Hs2]. split.
  - apply Forall_app. split.
    + eapply Forall_impl; [|exact Hall1].
      intros x. apply checkpoint_write_weaken; lia.
    + eapply Forall_impl; [|exact Hall2].
      intros x. apply checkpoint_write_weaken; lia.
  - rewrite recorded_progress_app.
    apply (StronglySorted_app_le _ _ mid); try assumption.
    + eapply Forall_impl; [|exact (recorded_progress_bounds _ _ _ _ Hall1)].
      intros p Hp. simpl in Hp. lia.
    + eapply Forall_impl; [|exact (recorded_progress_bounds _ _ _ _ Hall2)].
      intros p Hp. simpl in Hp. lia.
Qed.

(** *** Rules for [trail] *)

Lemma trail_weaken task_id lo hi lo' hi' {A : Type} (c : M A) :
  lo' <= lo -> hi <= hi' -> trail task_id lo hi c -> trail task_id lo' hi' c.
Proof.
  intros Hlo Hhi Hc w. destruct (Hc w) as (ws & Hw & Hs & Hids).
  exists ws. split; [exact Hw|]. split; [|exact Hids].
  apply (steady_weaken task_id lo hi); assumption.
Qed.

Lemma trail_pure task_id lo hi {A : Type} (r : Outcome A) :
  trail task_id lo hi (call r).
Proof.
  intros w. exists []. cbn. rewrite app_nil_r.
  split; [reflexivity|]. split; [apply steady_nil|reflexivity].
Qed.

Lemma trail_ret task_id lo hi {A : Type} (a : A) : trail task_id lo hi (ret a).
Proof. exact (trail_pure task_id lo hi (Ok a)). Qed.

Lemma trail_bind task_id lo mid hi {A B : Type} (c : M A) (k : A -> M B) :
  lo <= mid <= hi ->
  trail task_id lo mid c -> (forall a, trail task_id mid hi (k a)) ->
  trail task_id lo hi (bind c k).
Proof.
  intros Hb Hc Hk w. unfold bind.
  destruct (Hc w) as (ws1 & Hw1 & Hs1 & Hids1).
  destruct (c w) as [[a|e] w1]; cbn [snd] in *.
  - destruct (Hk a w1) as (ws2 & Hw2 & Hs2 & Hids2).
    exists (ws1 ++ ws2). rewrite Hw2, Hw1, app_assoc, Hids2, Hids1.
    split; [reflexivity|]. split; [|reflexivity].
    apply (steady_app task_id lo mid hi); assumption.
  - exists ws1. split; [exact Hw1|]. split; [|exact Hids1].
    apply (steady_weaken task_id lo mid); [lia|lia|exact Hs1].
Qed.

Lemma map_update_task_ids task_id (f : Task.row -> Task.row) ts :
  (forall t, Task.task_id (f t) = Task.task_id t) ->
  map Task.task_id (map (fun t => if has_task_id task_id t then f t else t) ts)
  = map Task.task_id ts.
Proof.
  intros Hf. rewrite map_map. apply map_ext. intros t.
  destruct (has_task_id task_id t); [apply Hf|reflexivity].
Qed.

Lemma db_update_task_status_ids env site task_id status progress message
    result error_message w :
  task_ids (snd (db_update_task_status env site task_id status progress message
                   result error_message w)).(db)
  = task_ids w.(db).
Proof.
  unfold db_update_task_status, update_task_status, task_ids.
  destruct (store_raises env site); cbn; [reflexivity|].
  apply map_update_task_ids. intros t.
  apply GitLabDBFacts.update_task_row_task_id.
Qed.

Lemma trail_checkpoint env site task_id lo hi progress message :
  lo <= progress <= hi ->
  trail task_id lo hi (checkpoint env site task_id progress message).
Proof.
  intros Hb w. unfold checkpoint.
  pose proof (db_update_task_status_ids env site task_id Processing
                (Some progress) (Some message) None None w) as Hids.
  unfold db_update_task_status, update_task_status in *.
  destruct (store_raises env site); cbn in *.
  - exists []. rewrite app_nil_r.
    split; [reflexivity|]. split; [apply steady_nil|reflexivity].
  - eexists. split; [reflexivity|]. split; [|exact Hids].
    apply steady_one. exact Hb.
Qed.

Lemma trail_update_wiki_progress env task lo hi progress_pct stage detail_msg :
  lo <= progress_pct <= hi ->
  trail task.(Task.task_id) lo hi
        (update_wiki_progress env task progress_pct stage detail_msg).
Proof.
  intros Hb. unfold update_wiki_progress.
  apply (trail_bind _ lo hi hi); [lia| |].
  - apply (trail_checkpoint env _ _ lo hi progress_pct detail_msg Hb).
  - intros _. destruct (Task.project_key task) as [key|]; [|apply trail_ret].
    destruct (truthy (Some key)); [|apply trail_ret].
    intros w. exists []. unfold mirror_project_progress.
    destruct (store_raises env (ProgressProject progress_pct detail_msg));
      cbn; rewrite app_nil_r;
      (split; [reflexivity|]; split; [apply steady_nil|reflexivity]).
Qed.

(** *** The page loop and generate_wiki keep a steady trail *)

Lemma page_progress_first n : page_progress 0 n = 70.
Proof. unfold page_progress. cbn. reflexivity. Qed.

Lemma page_progress_mono i n : page_progress i n <= page_progress (S i) n.
Proof.
  unfold page_progress. destruct n as [|n].
  - simpl. rewrite !Z.div_0_r. lia.
  - apply Z.add_le_mono_l, Z.div_le_mono; lia.
Qed.

Lemma page_progress_bounds i n :
  (i < n)%nat -> 70 <= page_progress i n <= 94.
Proof.
  intros Hi. unfold page_progress.
  assert (0 <= 25 * Z.of_nat i / Z.of_nat n) by (apply Z.div_pos; lia).
  assert (25 * Z.of_nat i / Z.of_nat n < 25)
    by (apply Z.div_lt_upper_bound; lia).
  lia.
Qed.

Lemma page_progress_le_95 i n : (i <= n)%nat -> 70 <= page_progress i n <= 95.
Proof.
  intros Hi. destruct (Nat.eq_dec i n) as [->|Hne].
  - unfold page_progress. destruct n as [|n].
    + cbn. lia.
    + rewrite Z.div_mul by lia. lia.
  - pose proof (page_progress_bounds i n). lia.
Qed.

Lemma trail_generate_pages env task n rest : forall i,
  (i + List.length rest = n)%nat ->
  trail task.(Task.task_id) (page_progress i n) 95
        (generate_pages env task (Some (update_wiki_progress env task)) n i rest).
Proof.
  induction rest as [|page rest IH]; intros i Hlen; cbn [generate_pages].
  - apply trail_ret.
  - cbn [List.length] in Hlen.
    pose proof (page_progress_bounds i n ltac:(lia)) as Hb.
    pose proof (page_progress_mono i n) as Hm.
    pose proof (page_progress_le_95 (S i) n ltac:(lia)) as Hb'.
    apply (trail_bind _ _ (page_progress i n) 95); [lia| |].
    + apply trail_update_wiki_progress. lia.
    + intros _. apply (trail_bind _ _ 95 95); [lia| |].
      * apply (trail_weaken _ (page_progress (S i) n) 95); [lia|lia|].
        apply IH. lia.
      * intros done. apply trail_ret.
Qed.

Lemma trail_generate_wiki env task rag :
  trail task.(Task.task_id) 70 95
        (generate_wiki env task rag (Some (update_wiki_progress env task))).
Proof.
  unfold generate_wiki.
  apply (trail_bind _ _ 70 95); [lia|apply trail_pure|].
  intros pages_structure.
  apply (trail_bind _ _ 70 95); [lia| |].
  - apply trail_update_wiki_progress. lia.
  - intros _. apply (trail_bind _ _ 95 95); [lia| |].
    + pose proof (trail_generate_pages env task (List.length pages_structure)
                    pages_structure 0%nat eq_refl) as Hloop.
      rewrite page_progress_first in Hloop. exact Hloop.
    + intros done. apply trail_ret.
Qed.

Lemma trail_stages_1_to_4 env task :
  trail task.(Task.task_id) 0 95 (stages_1_to_4 env task).
Proof.
  unfold stages_1_to_4.
  apply (trail_bind _ _ 0 95); [lia|apply trail_checkpoint; lia|]. intros _.
  apply (trail_bind _ _ 5 95); [lia|apply trail_checkpoint; lia|]. intros _.
  apply (trail_bind _ _ 5 95); [lia|apply trail_pure|]. intros repo_path.
  apply (trail_bind _ _ 20 95); [lia|apply trail_checkpoint; lia|]. intros _.
  apply (trail_bind _ _ 20 95); [lia|apply trail_pure|]. intros documents.
  apply (trail_bind _ _ 40 95); [lia|apply trail_checkpoint; lia|]. intros _.
  apply (trail_bind _ _ 40 95); [lia|apply trail_pure|]. intros rag.
  apply (trail_bind _ _ 70 95); [lia|apply trail_checkpoint; lia|]. intros _.
  apply (trail_bind _ _ 95 95); [lia| |].
  - apply (trail_weaken _ 70 95); [lia|lia|]. apply trail_generate_wiki.
  - intros [wiki_structure documents_count]. apply trail_ret.
Qed.

(** *** What a run returns and writes *)

Lemma run_bind {A B : Type} (c : M A) (k : A -> M B) w a :
  fst (c w) = Ok a -> bind c k w = k a (snd (c w)).
Proof. unfold bind. destruct (c w) as [[a'|e] w']; cbn; congruence. Qed.

Lemma yields_ret {A : Type} (a : A) : yields (ret a) a [].
Proof. intros w. cbn. rewrite app_nil_r. auto. Qed.

Lemma yields_call {A : Type} (r : Outcome A) (a : A) :
  r = Ok a -> yields (call r) a [].
Proof. intros -> w. cbn. rewrite app_nil_r. auto. Qed.

Lemma yields_bind {A B : Type} (c : M A) (k : A -> M B) a b ws1 ws2 :
  yields c a ws1 -> yields (k a) b ws2 -> yields (bind c k) b (ws1 ++ ws2).
Proof.
  intros Hc Hk w. destruct (Hc w) as [Hr Hw].
  rewrite (run_bind _ _ _ _ Hr).
  destruct (Hk (snd (c w))) as [Hr' Hw'].
  rewrite Hr', Hw', Hw, app_assoc. auto.
Qed.

Lemma yields_db_update_task_status env site task_id status progress message
    result error_message :
  yields (db_update_task_status env site task_id status progress message result
                                error_message)
         (negb (store_raises env site))
         (if store_raises env site then []
          else [mkWrite task_id status progress]).
Proof.
  intros w. unfold db_update_task_status, update_task_status.
  destruct (store_raises env site); cbn; [rewrite app_nil_r|]; auto.
Qed.

Lemma yields_checkpoint env site task_id progress message :
  yields (checkpoint env site task_id progress message)
         (negb (store_raises env site))
         (checkpoint_log env site task_id progress).
Proof. apply yields_db_update_task_status. Qed.

Lemma yields_db_update_wiki_project_status env site project_key status task_id
    last_success_date :
  yields (db_update_wiki_project_status env site project_key status task_id
                                        last_success_date)
         (negb (store_raises env site)) [].
Proof.
  intros w. unfold db_update_wiki_project_status, update_wiki_project_status.
  destruct (store_raises env site); cbn; rewrite app_nil_r; auto.
Qed.

Lemma yields_mark_project env site task status last_success_date :
  yields (mark_project env site task status last_success_date) tt [].
Proof.
  unfold mark_project.
  destruct (Task.project_key task) as [key|]; [|apply yields_ret].
  destruct (truthy (Some key)); [|apply yields_ret].
  change (@nil TaskWrite) with (@nil TaskWrite ++ []).
  eapply yields_bind; [apply yields_db_update_wiki_project_status|].
  apply yields_ret.
Qed.

Lemma yields_save_to_project env task wiki_structure documents_count
    cost_message :
  yields (save_to_project env task wiki_structure documents_count cost_message)
         tt [].
Proof.
  unfold save_to_project.
  destruct (Task.project_key task) as [key|]; [|apply yields_ret].
  destruct (truthy (Some key)); [|apply yields_ret].
  intros w. unfold bind, db_save_wiki_project_result, save_wiki_project_result,
    db_save_markdown_pages, save_markdown_pages, ret.
  destruct (store_raises env PersistResult); cbn; [rewrite app_nil_r; auto|].
  destruct (existsb _ _); cbn; rewrite app_nil_r; auto.
Qed.

Lemma yields_update_wiki_progress env task progress_pct stage detail_msg :
  yields (update_wiki_progress env task progress_pct stage detail_msg) tt
         (checkpoint_log env (ProgressTask progress_pct detail_msg)
                         task.(Task.task_id) progress_pct).
Proof.
  unfold update_wiki_progress.
  rewrite <- (app_nil_r (checkpoint_log _ _ _ _)).
  eapply yields_bind; [apply yields_checkpoint|].
  destruct (Task.project_key task) as [key|]; [|apply yields_ret].
  destruct (truthy (Some key)); [|apply yields_ret].
  intros w. unfold mirror_project_progress.
  destruct (store_raises env (ProgressProject progress_pct detail_msg));
    cbn; rewrite app_nil_r; auto.
Qed.

Lemma yields_generate_pages env task n rest : forall i,
  yields (generate_pages env task (Some (update_wiki_progress env task)) n i rest)
         (pages_with_content env task i rest)
         (page_loop_log env task.(Task.task_id) n i rest).
Proof.
  induction rest as [|page rest IH]; intros i;
    cbn [generate_pages pages_with_content page_loop_log].
  - apply yields_ret.
  - eapply yields_bind; [apply yields_update_wiki_progress|].
    rewrite <- (app_nil_r (page_loop_log _ _ _ _ _)).
    eapply yields_bind; [apply IH|]. apply yields_ret.
Qed.

Lemma yields_generate_wiki env task rag pages_structure :
  generate_wiki_structure env task rag.(rag_documents) = Ok pages_structure ->
  yields (generate_wiki env task rag (Some (update_wiki_progress env task)))
         (mkWiki (task.(Task.repo_name) ++ " Wiki")%string
                 ("Documentation for " ++ task.(Task.repo_name))%string
                 (pages_with_content env task 0 pages_structure),
          rag.(rag_documents))
         (checkpoint_log env
            (ProgressTask 70 ("Wiki structure generated with "
                              ++ str_of_nat (List.length pages_structure)
                              ++ " pages")%string)
            task.(Task.task_id) 70
          ++ page_loop_log env task.(Task.task_id)
               (List.length pages_structure) 0 pages_structure).
Proof.
  intros Hstructure. unfold generate_wiki.
  rewrite <- (app_nil_l (checkpoint_log env (ProgressTask _ _) _ _ ++ _)).
  eapply yields_bind; [apply yields_call; exact Hstructure|].
  eapply yields_bind; [apply yields_update_wiki_progress|].
  rewrite <- (app_nil_r (page_loop_log _ _ _ _ _)).
  eapply yields_bind; [apply yields_generate_pages|].
  apply yields_ret.
Qed.

Lemma yields_stages_1_to_4 env task repo_path rag pages_structure :
  stages_succeed env task repo_path rag pages_structure ->
  yields (stages_1_to_4 env task)
         (repo_path,
          result_wiki_structure
            (result_of env task repo_path rag pages_structure),
          rag.(rag_documents))
         (stages_log env task pages_structure).
Proof.
  intros (documents & Hdownload & Hread & Hrag & Hstructure).
  unfold stages_1_to_4, stages_log.
  eapply yields_bind; [apply yields_checkpoint|].
  eapply yields_bind; [apply yields_checkpoint|].
  rewrite <- (app_nil_l (checkpoint_log env StageExtract _ _ ++ _)).
  eapply yields_bind; [apply yields_call; exact Hdownload|].
  eapply yields_bind; [apply yields_checkpoint|].
  rewrite <- (app_nil_l (checkpoint_log env StageEmbed _ _ ++ _)).
  eapply yields_bind; [apply yields_call; exact Hread|].
  eapply yields_bind; [apply yields_checkpoint|].
  rewrite <- (app_nil_l (checkpoint_log env StageStructure _ _ ++ _)).
  eapply yields_bind; [apply yields_call; exact Hrag|].
  eapply yields_bind; [apply yields_checkpoint|].
  rewrite <- (app_nil_r (checkpoint_log env (ProgressTask _ _) _ _ ++ _)).
  eapply yields_bind;
    [apply yields_generate_wiki; exact Hstructure|apply yields_ret].
Qed.

(** *** Stage 5 and the task's final row *)

Lemma yields_stage_5 env task repo_path wiki_structure documents_count :
  yields (stage_5 env task repo_path wiki_structure documents_count) tt
         (stage_5_log env task.(Task.task_id)).
Proof.
  unfold stage_5, stage_5_log.
  eapply yields_bind; [apply yields_checkpoint|].
  rewrite <- (app_nil_l (if store_raises env TaskCompleted then _ else _)).
  eapply yields_bind; [apply yields_save_to_project|].
  rewrite <- (app_nil_r (if store_raises env TaskCompleted then _ else _)).
  eapply yields_bind; [apply yields_db_update_task_status|].
  apply yields_mark_project.
Qed.

Lemma mark_project_tasks env site task status last_success_date w :
  (snd (mark_project env site task status last_success_date w))
    .(db).(wiki_generation_tasks)
  = w.(db).(wiki_generation_tasks).
Proof.
  unfold mark_project.
  destruct (Task.project_key task) as [key|]; [|reflexivity].
  destruct (truthy (Some key)); [|reflexivity].
  unfold bind, db_update_wiki_project_status, update_wiki_project_status, ret.
  destruct (store_raises env site); reflexivity.
Qed.

Lemma save_to_project_tasks env task wiki_structure documents_count
    cost_message w :
  (snd (save_to_project env task wiki_structure documents_count cost_message w))
    .(db).(wiki_generation_tasks)
  = w.(db).(wiki_generation_tasks).
Proof.
  unfold save_to_project.
  destruct (Task.project_key task) as [key|]; [|reflexivity].
  destruct (truthy (Some key)); [|reflexivity].
  unfold bind, db_save_wiki_project_result, save_wiki_project_result,
    db_save_markdown_pages, save_markdown_pages, ret.
  destruct (store_raises env PersistResult); cbn; [reflexivity|].
  destruct (existsb _ _); reflexivity.
Qed.

Lemma find_update_task task_id (f : Task.row -> Task.row) ts :
  (forall t, Task.task_id (f t) = Task.task_id t) ->
  find (has_task_id task_id)
       (map (fun t => if has_task_id task_id t then f t else t) ts)
  = option_map f (find (has_task_id task_id) ts).
Proof.
  intros Hf. induction ts as [|t ts IH]; cbn [map find]; [reflexivity|].
  destruct (has_task_id task_id t) eqn:Ht.
  - unfold has_task_id at 1. rewrite Hf. fold (has_task_id task_id t).
    rewrite Ht. reflexivity.
  - rewrite Ht. exact IH.
Qed.

Lemma find_task_present task_id (ts : list Task.row) :
  In task_id (map Task.task_id ts) ->
  exists t, find (has_task_id task_id) ts = Some t.
Proof.
  induction ts as [|t ts IH]; cbn [map find]; intros Hin; [contradiction|].
  destruct (has_task_id task_id t) eqn:Ht; [eauto|].
  destruct Hin as [E|Hin]; [|auto].
  unfold has_task_id in Ht. rewrite E, String.eqb_refl in Ht. discriminate.
Qed.

(** When the store commits the final update of stage 5, the task's row is
    completed with progress 100 and the result payload. *)
Lemma stage_5_completes env task repo_path wiki_structure documents_count w :
  store_raises env TaskCompleted = false ->
  In task.(Task.task_id) (task_ids w.(db)) ->
  exists t',
    get_task false task.(Task.task_id)
             (snd (stage_5 env task repo_path wiki_structure documents_count w))
               .(db) = Some t' /\
    Task.status t' = Completed /\
    Task.progress t' = 100 /\
    Task.result t'
    = Some (mkResult wiki_structure (Z.of_nat documents_count) repo_path).
Proof.
  intros Hok Hin. unfold stage_5.
  rewrite (run_bind _ _ _ _ (proj1 (yields_checkpoint env _ _ _ _ w))).
  set (w1 := snd (checkpoint env StageSave _ _ _ w)).
  assert (Hin1 : In (Task.task_id task) (task_ids (db w1))).
  { subst w1. unfold checkpoint. rewrite db_update_task_status_ids. exact Hin. }
  rewrite (run_bind _ _ _ _ (proj1 (yields_save_to_project env _ _ _ _ w1))).
  set (w2 := snd (save_to_project env _ _ _ _ w1)).
  assert (Hin2 : In (Task.task_id task) (task_ids (db w2))).
  { subst w2. unfold task_ids. rewrite save_to_project_tasks. exact Hin1. }
  rewrite (run_bind _ _ _ _
             (proj1 (yields_db_update_task_status env _ _ _ _ _ _ _ w2))).
  unfold get_task. rewrite mark_project_tasks.
  unfold db_update_task_status, update_task_status. rewrite Hok.
  cbn [snd db wiki_generation_tasks].
  rewrite find_update_task
    by (intros t; apply GitLabDBFacts.update_task_row_task_id).
  destruct (find_task_present _ _ Hin2) as [t Ht]. rewrite Ht.
  eexists. split; [reflexivity|]. repeat split.
Qed.

Lemma set_db_same_world w : set_db w.(db) w = w.
Proof. destruct w; reflexivity. Qed.

Lemma release_db task_id w : (release task_id w).(db) = w.(db).
Proof. reflexivity. Qed.

(** A run whose stages succeed is stage 5 after stages 1 to 4, followed by
    the release of the slot. *)
Lemma _process_task_success env task repo_path rag pages_structure w :
  stages_succeed env task repo_path rag pages_structure ->
  _process_task env task w
  = (Ok tt,
     release task.(Task.task_id)
       (snd (stage_5 env task repo_path
               (result_wiki_structure
                  (result_of env task repo_path rag pages_structure))
               rag.(rag_documents)
               (snd (stages_1_to_4 env task w))))).
Proof.
  intros Hstages.
  pose proof (yields_stages_1_to_4 _ _ _ _ _ Hstages w) as [Hr _].
  unfold _process_task, try_finally, try_except, run_pipeline.
  rewrite (run_bind _ _ _ _ Hr).
  pose proof (yields_stage_5 env task repo_path
                (result_wiki_structure
                   (result_of env task repo_path rag pages_structure))
                rag.(rag_documents) (snd (stages_1_to_4 env task w)))
    as [Hr5 _].
  destruct (stage_5 _ _ _ _ _ _) as [r5 w5]. cbn in Hr5. subst r5.
  reflexivity.
Qed.

Lemma checkpoint_log_processing env site task_id progress :
  Forall (fun x => w_status x = Processing)
         (checkpoint_log env site task_id progress).
Proof.
  unfold checkpoint_log. destruct (store_raises env site); repeat constructor.
Qed.

Lemma page_loop_log_processing env task_id n rest : forall i,
  Forall (fun x => w_status x = Processing) (page_loop_log env task_id n i rest).
Proof.
  induction rest as [|page rest IH]; intros i; cbn [page_loop_log];
    [constructor|].
  apply Forall_app. split; [apply checkpoint_log_processing|apply IH].
Qed.

Lemma stages_log_processing env task pages_structure :
  Forall (fun x => w_status x = Processing) (stages_log env task pages_structure).
Proof.
  unfold stages_log.
  repeat (apply Forall_app; split; [apply checkpoint_log_processing|]).
  apply page_loop_log_processing.
Qed.

Lemma _process_task_success_written env task repo_path rag pages_structure w :
  stages_succeed env task repo_path rag pages_structure ->
  (snd (_process_task env task w)).(written)
  = w.(written) ++ stages_log env task pages_structure
    ++ stage_5_log env task.(Task.task_id).
Proof.
  intros Hstages. rewrite (_process_task_success _ _ _ _ _ _ Hstages).
  cbn [snd release written].
  rewrite (proj2 (yields_stage_5 _ _ _ _ _ _)).
  rewrite (proj2 (yields_stages_1_to_4 _ _ _ _ _ Hstages _)).
  rewrite app_assoc. reflexivity.
Qed.

Lemma _process_task_success_row env task repo_path rag pages_structure w :
  stages_succeed env task repo_path rag pages_structure ->
  store_raises env TaskCompleted = false ->
  In task.(Task.task_id) (task_ids w.(db)) ->
  exists t',
    get_task false task.(Task.task_id) (snd (_process_task env task w)).(db)
    = Some t' /\
    Task.status t' = Completed /\
    Task.progress t' = 100 /\
    Task.result t' = Some (result_of env task repo_path rag pages_structure).
Proof.
  intros Hstages Hok Hin. rewrite (_process_task_success _ _ _ _ _ _ Hstages).
  cbn [snd]. rewrite release_db.
  apply stage_5_completes; [exact Hok|].
  destruct (trail_stages_1_to_4 env task w) as (ws & _ & _ & Hids).
  rewrite Hids. exact Hin.
Qed.

(** C5: in every run of _process_task in which stages 1 to 4 succeed and
    save_wiki_project_result fails, the failure is only reported to the caller
    as False (the store is left as it was), the run ends normally, the task's
    row is updated to 'completed' with progress 100 and the result payload,
    and no write of the run sets the task to 'failed' -- provided the store
    commits the task's own final update and the task's row exists. *)
Theorem persist_failure_keeps_task_completed :
  forall env task repo_path rag pages_structure w,
    stages_succeed env task repo_path rag pages_structure ->
    store_raises env PersistResult = true ->
    store_raises env TaskCompleted = false ->
    In task.(Task.task_id) (task_ids w.(db)) ->
    let r := _process_task env task w in
    (forall project_key wiki_structure documents_count message w0,
        db_save_wiki_project_result env project_key wiki_structure
          documents_count message w0 = (Ok false, w0)) /\
    fst r = Ok tt /\
    (exists t',
        get_task false task.(Task.task_id) (snd r).(db) = Some t' /\
        Task.status t' = Completed /\
        Task.progress t' = 100 /\
        Task.result t'
        = Some (result_of env task repo_path rag pages_structure)) /\
    (exists ws,
        (snd r).(written) = w.(written) ++ ws /\
        Forall (fun x => w_status x <> Failed) ws).
Proof.
  intros env task repo_path rag pages_structure w Hstages Hpersist Hok Hin r.
  subst r. repeat apply conj.
  - intros. unfold db_save_wiki_project_result, save_wiki_project_result.
    rewrite Hpersist. cbn. rewrite set_db_same_world. reflexivity.
  - rewrite (_process_task_success _ _ _ _ _ _ Hstages). reflexivity.
  - apply (_process_task_success_row _ _ _ _ _ _ Hstages Hok Hin).
  - rewrite (_process_task_success_written _ _ _ _ _ _ Hstages).
    eexists. split; [reflexivity|].
    apply Forall_app. split.
    + eapply Forall_impl; [|apply stages_log_processing].
      intros x Hx. cbn in Hx. rewrite Hx. discriminate.
    + unfold stage_5_log. rewrite Hok. apply Forall_app. split.
      * eapply Forall_impl; [|apply checkpoint_log_processing].
        intros x Hx. cbn in Hx. rewrite Hx. discriminate.
      * repeat constructor. discriminate.
Qed.

Lemma scenario_stages_succeed env :
  env.(download_repo) = ScenarioRun.env.(download_repo) ->
  env.(read_all_documents) = ScenarioRun.env.(read_all_documents) ->
  env.(prepare_retriever) = ScenarioRun.env.(prepare_retriever) ->
  env.(generate_wiki_structure) = ScenarioRun.env.(generate_wiki_structure) ->
  stages_succeed env Scenario.task "/root/.adalflow/repos/acme/widgets"
                 (mkRag 3) [ScenarioRun.overview; ScenarioRun.architecture].
Proof.
  intros H1 H2 H3 H4. exists 3%nat. rewrite H1, H2, H3, H4.
  repeat split; reflexivity.
Qed.

Lemma persist_failure_keeps_task_completed_witness :
  fst (_process_task ScenarioRun.env_persist_fails Scenario.task
                     ScenarioRun.claimed) = Ok tt /\
  exists t',
    get_task false "t1"
      (snd (_process_task ScenarioRun.env_persist_fails Scenario.task
                          ScenarioRun.claimed)).(db) = Some t' /\
    Task.status t' = Completed /\
    Task.progress t' = 100 /\
    Task.result t'
    = Some (result_of ScenarioRun.env_persist_fails Scenario.task
              "/root/.adalflow/repos/acme/widgets" (mkRag 3)
              [ScenarioRun.overview; ScenarioRun.architecture]).
Proof.
  pose proof (persist_failure_keeps_task_completed
                ScenarioRun.env_persist_fails Scenario.task
                "/root/.adalflow/repos/acme/widgets" (mkRag 3)
                [ScenarioRun.overview; ScenarioRun.architecture]
                ScenarioRun.claimed
                (scenario_stages_succeed _ eq_refl eq_refl eq_refl eq_refl)
                eq_refl eq_refl (or_introl eq_refl)) as H.
  cbv zeta in H. destruct H as (_ & Hr & Hrow & _).
  split; [exact Hr|exact Hrow].
Defined.

(** *** The pages of the result *)

Lemma pages_with_content_length env task pages : forall i,
  List.length (pages_with_content env task i pages) = List.length pages.
Proof.
  induction pages as [|page rest IH]; intros i; cbn; [reflexivity|].
  rewrite IH. reflexivity.
Qed.

Lemma pages_with_content_nth env task pages : forall i j,
  nth_error (pages_with_content env task i pages) j
  = option_map (page_with_content env task (i + j)) (nth_error pages j).
Proof.
  induction pages as [|page rest IH]; intros i [|j]; cbn;
    try reflexivity.
  - rewrite Nat.add_0_r. reflexivity.
  - rewrite IH. rewrite Nat.add_succ_r. reflexivity.
Qed.

(** set_content writes the content and nothing else. *)
Lemma set_content_content c page :
  (set_content c page).(content) = Some c /\
  same_but_content page (set_content c page).
Proof. unfold same_but_content. repeat split. Qed.

(** C6: in every run of _process_task in which stages 1 to 3 and the structure
    generation succeed over N pages and content generation raises for exactly
    one page [k], the exception is caught: the run returns normally, the
    task's row ends 'completed', and its result holds all N pages, each the
    page of the structure with only its content filled in: the content of
    page [k] is the inline error placeholder "# title", an empty line and
    "生成失败: " followed by str(e), and the content of every other page is
    what generate_page_content returned for it -- provided the store commits
    the task's final update and the task's row exists. *)
Theorem single_page_failure_is_isolated :
  forall env task repo_path rag pages_structure w k page_k e,
    stages_succeed env task repo_path rag pages_structure ->
    nth_error pages_structure k = Some page_k ->
    generate_page_content env task k page_k = Raise e ->
    (forall i page, i <> k -> nth_error pages_structure i = Some page ->
                    exists c, generate_page_content env task i page = Ok c) ->
    store_raises env TaskCompleted = false ->
    In task.(Task.task_id) (task_ids w.(db)) ->
    let r := _process_task env task w in
    fst r = Ok tt /\
    exists t' result,
      get_task false task.(Task.task_id) (snd r).(db) = Some t' /\
      Task.status t' = Completed /\
      Task.result t' = Some result /\
      List.length result.(result_wiki_structure).(pages)
      = List.length pages_structure /\
      (exists page_k',
          nth_error result.(result_wiki_structure).(pages) k = Some page_k' /\
          page_k'.(content)
          = Some ("# " ++ page_k.(page_title) ++ newline ++ newline
                  ++ "生成失败: " ++ str e)%string /\
          same_but_content page_k page_k') /\
      (forall i page, i <> k -> nth_error pages_structure i = Some page ->
          exists c page',
            generate_page_content env task i page = Ok c /\
            nth_error result.(result_wiki_structure).(pages) i = Some page' /\
            page'.(content) = Some c /\
            same_but_content page page').
Proof.
  intros env task repo_path rag pages_structure w k page_k e
         Hstages Hk Hraise Hothers Hok Hin r.
  subst r. split.
  - rewrite (_process_task_success _ _ _ _ _ _ Hstages). reflexivity.
  - destruct (_process_task_success_row _ _ _ _ _ _ Hstages Hok Hin)
      as (t' & Hget & Hstatus & _ & Hresult).
    exists t', (result_of env task repo_path rag pages_structure).
    split; [exact Hget|]. split; [exact Hstatus|]. split; [exact Hresult|].
    cbn [result_of result_wiki_structure pages].
    split; [apply pages_with_content_length|]. split.
    + eexists. split.
      * rewrite pages_with_content_nth, Hk. cbn [option_map]. reflexivity.
      * rewrite Nat.add_0_l. unfold page_with_content. rewrite Hraise.
        exact (set_content_content (error_placeholder page_k e) page_k).
    + intros i page Hik Hi. destruct (Hothers i page Hik Hi) as [c Hc].
      exists c. eexists. split; [exact Hc|]. split.
      * rewrite pages_with_content_nth, Hi. cbn [option_map]. reflexivity.
      * rewrite Nat.add_0_l. unfold page_with_content. rewrite Hc.
        exact (set_content_content c page).
Qed.

Lemma single_page_failure_is_isolated_witness :
  exists t' result page_0 page_1,
    get_task false "t1"
      (snd (_process_task ScenarioRun.env_page_1_fails Scenario.task
                          ScenarioRun.claimed)).(db) = Some t' /\
    Task.status t' = Completed /\
    Task.result t' = Some result /\
    result.(result_wiki_structure).(pages) = [page_0; page_1] /\
    page_0.(content) = Some "## Overview" /\
    page_1.(content)
    = Some ("# Architecture" ++ newline ++ newline
            ++ "生成失败: model overloaded")%string.
Proof.
  assert (Hothers :
    forall i page, i <> 1%nat ->
      nth_error [ScenarioRun.overview; ScenarioRun.architecture] i = Some page ->
      exists c, generate_page_content ScenarioRun.env_page_1_fails
                  Scenario.task i page = Ok c).
  { intros i page Hi _. cbn. destruct (Nat.eqb_spec i 1); [contradiction|].
    eexists. reflexivity. }
  pose proof (single_page_failure_is_isolated
                ScenarioRun.env_page_1_fails Scenario.task
                "/root/.adalflow/repos/acme/widgets" (mkRag 3)
                [ScenarioRun.overview; ScenarioRun.architecture]
                ScenarioRun.claimed 1%nat ScenarioRun.architecture
                (Exception "model overloaded")
                (scenario_stages_succeed _ eq_refl eq_refl eq_refl eq_refl)
                eq_refl eq_refl Hothers eq_refl (or_introl eq_refl)) as H.
  cbv zeta in H.
  destruct H as (_ & t' & result & Hget & Hst & Hres & Hlen & Hk & Hrest).
  destruct Hk as (page_1 & Hnth1 & Hcontent1 & _).
  destruct (Hrest 0%nat ScenarioRun.overview) as (c & page_0 & Hc & Hnth0 & Hcontent0 & _);
    [discriminate|reflexivity|].
  cbn in Hc. injection Hc as <-.
  exists t', result, page_0, page_1.
  split; [exact Hget|]. split; [exact Hst|]. split; [exact Hres|].
  split; [|split; [exact Hcontent0|exact Hcontent1]].
  destruct (pages (result_wiki_structure result)) as [|p0 [|p1 [|p2 rest]]];
    try discriminate Hlen.
  cbn in Hnth0, Hnth1. congruence.
Defined.

(** *** The sequence of progress values of a run *)

Lemma steady_checkpoint_log env site task_id lo hi progress :
  lo <= progress <= hi ->
  steady task_id lo hi (checkpoint_log env site task_id progress).
Proof.
  intros Hb. unfold checkpoint_log.
  destruct (store_raises env site); [apply steady_nil|apply steady_one, Hb].
Qed.

Lemma yields_on_exception env task e :
  yields (on_exception env task e) tt
         (if store_raises env TaskFailed then []
          else [failed_write task.(Task.task_id)]).
Proof.
  unfold on_exception.
  rewrite <- (app_nil_r (if store_raises env TaskFailed then _ else _)).
  eapply yields_bind; [|apply yields_mark_project].
  destruct e; apply yields_db_update_task_status.
Qed.

(** The writes of any run: steady checkpoints, then at most one terminal
    write. *)
Lemma _process_task_written env task w :
  exists pre fin,
    (snd (_process_task env task w)).(written) = w.(written) ++ pre ++ fin /\
    steady task.(Task.task_id) 0 95 pre /\
    (fin = [] \/ fin = [completed_write task.(Task.task_id)]
     \/ fin = [failed_write task.(Task.task_id)]).
Proof.
  unfold _process_task, try_finally, try_except, run_pipeline, bind.
  destruct (trail_stages_1_to_4 env task w) as (ws & Hw & Hs & _).
  destruct (stages_1_to_4 env task w) as [[[[repo_path wiki] docs]|e] w4];
    cbn [snd] in Hw.
  - destruct (yields_stage_5 env task repo_path wiki docs w4) as [Hr5 Hw5].
    destruct (stage_5 env task repo_path wiki docs w4) as [r5 w5].
    cbn [fst snd] in *. subst r5. cbn [snd release written].
    exists (ws ++ checkpoint_log env StageSave (Task.task_id task) 95),
           (if store_raises env TaskCompleted then []
            else [completed_write (Task.task_id task)]).
    split.
    + rewrite Hw5, Hw. unfold stage_5_log. rewrite !app_assoc. reflexivity.
    + split.
      * apply (steady_app _ 0 95 95); [lia|exact Hs|].
        apply steady_checkpoint_log. lia.
      * destruct (store_raises env TaskCompleted); auto.
  - destruct (yields_on_exception env task e w4) as [_ Hwe].
    destruct (on_exception env task e w4) as [re we].
    cbn [snd release written] in *.
    exists ws, (if store_raises env TaskFailed then []
                else [failed_write (Task.task_id task)]).
    split; [rewrite Hwe, Hw, app_assoc; reflexivity|].
    split; [exact Hs|].
    destruct (store_raises env TaskFailed); auto.
Qed.

Lemma steady_then_completed task_id pre :
  steady task_id 0 95 pre ->
  StronglySorted Z.le
    (0 :: recorded_progress (pre ++ [completed_write task_id])).
Proof.
  intros [Hall Hsorted].
  pose proof (recorded_progress_bounds _ _ _ _ Hall) as Hb.
  rewrite recorded_progress_app. cbn [recorded_progress flat_map completed_write
                                      w_progress app].
  constructor.
  - apply (StronglySorted_app_le _ _ 95); try assumption.
    + repeat constructor.
    + eapply Forall_impl; [|exact Hb]. intros p Hp. cbn in Hp. lia.
    + repeat constructor. lia.
  - apply Forall_app. split.
    + eapply Forall_impl; [|exact Hb]. intros p Hp. cbn in Hp. lia.
    + repeat constructor. lia.
Qed.

Lemma steady_alone task_id pre :
  steady task_id 0 95 pre -> StronglySorted Z.le (0 :: recorded_progress pre).
Proof.
  intros [Hall Hsorted].
  pose proof (recorded_progress_bounds _ _ _ _ Hall) as Hb.
  constructor; [exact Hsorted|].
  eapply Forall_impl; [|exact Hb]. intros p Hp. cbn in Hp. lia.
Qed.

Lemma checkpoint_log_committed env site task_id progress :
  store_never_raises env ->
  checkpoint_log env site task_id progress
  = [mkWrite task_id Processing (Some progress)].
Proof. intros Hok. unfold checkpoint_log. rewrite Hok. reflexivity. Qed.

Lemma recorded_progress_page_loop env task_id n rest : forall i,
  store_never_raises env ->
  recorded_progress (page_loop_log env task_id n i rest)
  = map (fun j => page_progress j n) (seq i (List.length rest)).
Proof.
  induction rest as [|page rest IH]; intros i Hok; cbn [page_loop_log];
    [reflexivity|].
  rewrite (checkpoint_log_committed _ _ _ _ Hok).
  rewrite recorded_progress_app, (IH (S i) Hok). reflexivity.
Qed.

Lemma create_task_written env q w :
  (snd (create_task env q w)).(written) = w.(written) \/
  (snd (create_task env q w)).(written)
  = w.(written) ++ [mkWrite env.(uuid4) Queued (Some 0)].
Proof.
  unfold create_task, bind, db_get_or_create_wiki_project.
  destruct (get_or_create_wiki_project _ _ _ _ _ _ (db w))
    as [[project|e] d]; [|left; reflexivity].
  destruct (ProjectStatus_eqb (Project.status project) Generating);
    [left; reflexivity|].
  unfold db_create_wiki_generation_task, create_wiki_generation_task,
    db_update_wiki_project_status, update_wiki_project_status, start, ret,
    raise.
  cbn [set_db db written active_tasks running].
  destruct (store_raises env SubmitTask || existsb _ _);
    [left; reflexivity|].
  destruct (store_raises env SubmitGenerating); cbn;
    destruct (running w); cbn; right; reflexivity.
Qed.

(** C8: every progress value that is written for a task lies in [0,100], and
    the values written over the task's lifetime never decrease until the
    terminal write.  create_task records progress 0; any run of _process_task
    writes checkpoints with status 'processing' and progress between 0 and 95
    in non-decreasing order, then at most one terminal write, 'completed' with
    100 or 'failed' with 0; and a run over N pages in which every stage
    succeeds and the store commits every write records exactly 0, 5, 20, 40,
    70, 70, then 70 + floor(25 i / N) for the pages i = 0 .. N-1, then 95 and
    100, each at least the one before. *)
Theorem progress_is_bounded_and_monotone :
  (forall env q w,
      (snd (create_task env q w)).(written) = w.(written) \/
      (snd (create_task env q w)).(written)
      = w.(written) ++ [mkWrite env.(uuid4) Queued (Some 0)]) /\
  (forall env task w,
      exists pre fin,
        (snd (_process_task env task w)).(written) = w.(written) ++ pre ++ fin /\
        Forall (checkpoint_write task.(Task.task_id) 0 95) pre /\
        (fin = [] \/ fin = [completed_write task.(Task.task_id)]
         \/ fin = [failed_write task.(Task.task_id)]) /\
        Forall (fun p => 0 <= p <= 100) (recorded_progress (pre ++ fin)) /\
        StronglySorted Z.le (0 :: recorded_progress pre) /\
        (fin <> [failed_write task.(Task.task_id)] ->
         StronglySorted Z.le (0 :: recorded_progress (pre ++ fin)))) /\
  (forall env task repo_path rag pages_structure w,
      stages_succeed env task repo_path rag pages_structure ->
      store_never_raises env ->
      exists ws,
        (snd (_process_task env task w)).(written) = w.(written) ++ ws /\
        recorded_progress ws
        = checkpoints_of_run (List.length pages_structure) /\
        StronglySorted Z.le (checkpoints_of_run (List.length pages_structure))).
Proof.
  split; [exact create_task_written|]. split.
  - intros env task w.
    destruct (_process_task_written env task w)
      as (pre & fin & Hw & Hs & Hfin).
    exists pre, fin. split; [exact Hw|]. split; [exact (proj1 Hs)|].
    split; [exact Hfin|].
    pose proof (recorded_progress_bounds _ _ _ _ (proj1 Hs)) as Hb.
    split; [|split].
    + rewrite recorded_progress_app. apply Forall_app. split.
      * eapply Forall_impl; [|exact Hb]. intros p Hp. cbn in Hp. lia.
      * destruct Hfin as [->|[->| ->]]; cbn; repeat constructor; lia.
    + apply (steady_alone _ _ Hs).
    + intros Hnot. destruct Hfin as [->|[->| ->]].
      * rewrite app_nil_r. apply (steady_alone _ _ Hs).
      * apply steady_then_completed. exact Hs.
      * contradiction.
  - intros env task repo_path rag pages_structure w Hstages Hok.
    assert (Hvalues :
      recorded_progress (stages_log env task pages_structure
                         ++ stage_5_log env (Task.task_id task))
      = checkpoints_of_run (List.length pages_structure)).
    { unfold stages_log, stage_5_log, checkpoints_of_run.
      rewrite !(checkpoint_log_committed _ _ _ _ Hok), (Hok TaskCompleted).
      rewrite !recorded_progress_app.
      rewrite (recorded_progress_page_loop _ _ _ _ _ Hok).
      cbn [recorded_progress flat_map w_progress completed_write app].
      reflexivity. }
    exists (stages_log env task pages_structure
            ++ stage_5_log env (Task.task_id task)).
    split; [apply (_process_task_success_written _ _ _ _ _ _ Hstages)|].
    split; [exact Hvalues|].
    rewrite <- Hvalues.
    destruct (_process_task_written env task w)
      as (pre & fin & Hw & Hs & Hfin).
    rewrite (_process_task_success_written _ _ _ _ _ _ Hstages) in Hw.
    apply app_inv_head in Hw.
    assert (Hfin' : fin = [completed_write (Task.task_id task)]).
    { unfold stage_5_log in Hw.
      rewrite (checkpoint_log_committed _ _ _ _ Hok), (Hok TaskCompleted) in Hw.
      rewrite !app_assoc in Hw.
      destruct Hfin as [->|[->| ->]].
      - rewrite app_nil_r in Hw. rewrite <- Hw in Hs.
        destruct Hs as [Hall _]. apply Forall_app in Hall.
        destruct Hall as [_ Hlast]. inversion Hlast as [|? ? (_ & Hst & _) _].
        discriminate Hst.
      - reflexivity.
      - apply app_inj_tail in Hw. destruct Hw as [_ Hw]. discriminate Hw. }
    subst fin. rewrite Hw.
    pose proof (steady_then_completed _ _ Hs) as Hsorted.
    inversion Hsorted; assumption.
Qed.

Lemma progress_is_bounded_and_monotone_witness :
  exists ws,
    (snd (_process_task ScenarioRun.env Scenario.task ScenarioRun.claimed))
      .(written) = ws /\
    recorded_progress ws = [0; 5; 20; 40; 70; 70; 70; 82; 95; 100].
Proof.
  pose proof (proj2 (proj2 progress_is_bounded_and_monotone)
                ScenarioRun.env Scenario.task
                "/root/.adalflow/repos/acme/widgets" (mkRag 3)
                [ScenarioRun.overview; ScenarioRun.architecture]
                ScenarioRun.claimed
                (scenario_stages_succeed _ eq_refl eq_refl eq_refl eq_refl)
                (fun _ => eq_refl)) as (ws & Hw & Hvalues & _).
  exists ws. split; [exact Hw|]. rewrite Hvalues. reflexivity.
Defined.

End PipelineFacts.

(** ** Further properties of the store methods *)
Module StoreFacts.

Import GitLabDB.

Lemma filter_none {A : Type} (f : A -> bool) (l : list A) :
  Forall (fun x => f x = false) l -> filter f l = [].
Proof.
  induction 1 as [|x l Hx _ IH]; simpl; [reflexivity|].
  rewrite Hx. exact IH.
Qed.

Lemma swept_tasks_not_interrupted now (ts : list Task.row) :
  Forall (fun t => is_interrupted t = false)
         (map (fun t => if is_interrupted t then mark_interrupted now t else t)
              ts).
Proof.
  apply Forall_forall. intros t' Hin. apply in_map_iff in Hin.
  destruct Hin as [t [<- _]].
  destruct (is_interrupted t) eqn:Ht; [reflexivity|exact Ht].
Qed.

(** X1: a second run of the interrupted-task sweep right after a first one
    marks no task: it returns 0 and leaves the store as the first run left
    it. *)
Theorem cleanup_interrupted_tasks_twice :
  forall now now' d,
    cleanup_interrupted_tasks false now'
      (snd (cleanup_interrupted_tasks false now d))
    = (0%nat, snd (cleanup_interrupted_tasks false now d)).
Proof.
  intros now now' d.
  rewrite (GitLabDBFacts.cleanup_interrupted_tasks_maps now d). cbn [snd].
  unfold cleanup_interrupted_tasks. cbn [wiki_generation_tasks].
  rewrite (filter_none _ _ (swept_tasks_not_interrupted now _)).
  reflexivity.
Qed.

Lemma find_task_app_absent task_id (ts : list Task.row) t :
  ~ In task_id (map Task.task_id ts) ->
  find (has_task_id task_id) (ts ++ [t])
  = if has_task_id task_id t then Some t else None.
Proof.
  intros Hno. apply SubmitFacts.find_app_absent.
  apply StatusFacts.find_task_absent. exact Hno.
Qed.

Lemma find_task_app_other task_id (ts : list Task.row) t :
  has_task_id task_id t = false ->
  find (has_task_id task_id) (ts ++ [t]) = find (has_task_id task_id) ts.
Proof.
  intros Hother. induction ts as [|u ts IH]; simpl.
  - rewrite Hother. reflexivity.
  - destruct (has_task_id task_id u); [reflexivity|exact IH].
Qed.

Lemma existsb_task_id_false task_id (ts : list Task.row) :
  ~ In task_id (map Task.task_id ts) -> existsb (has_task_id task_id) ts = false.
Proof.
  induction ts as [|t ts IH]; simpl; intros Hno; [reflexivity|].
  unfold has_task_id at 1.
  destruct (String.eqb (Task.task_id t) task_id) eqn:E.
  - apply String.eqb_eq in E. exfalso. apply Hno. left. exact E.
  - apply IH. intros Hin. apply Hno. right. exact Hin.
Qed.

Lemma existsb_task_id_true task_id (ts : list Task.row) :
  In task_id (map Task.task_id ts) -> existsb (has_task_id task_id) ts = true.
Proof.
  induction ts as [|t ts IH]; simpl; intros Hin; [contradiction|].
  destruct Hin as [E|Hin].
  - unfold has_task_id at 1. rewrite E, String.eqb_refl. reflexivity.
  - rewrite (IH Hin). apply orb_true_r.
Qed.

(** X2: a task created under a task_id that no row has yet is found again by
    get_task as the queued row with progress 0 built from the request, and
    the lookup of every other task_id is as before; the project table is
    untouched. *)
Theorem create_then_get_task :
  forall now task_id q project_key d,
    ~ In task_id (task_ids d) ->
    let r := create_wiki_generation_task false now task_id q project_key d in
    fst r = true /\
    get_task false task_id (snd r)
    = Some (queued_row now task_id q project_key) /\
    (forall other, other <> task_id ->
                   get_task false other (snd r) = get_task false other d) /\
    (snd r).(wiki_projects) = d.(wiki_projects).
Proof.
  intros now task_id q project_key d Hfresh r. subst r.
  unfold create_wiki_generation_task.
  rewrite (existsb_task_id_false _ _ Hfresh). cbn [orb fst snd].
  split; [reflexivity|]. split; [|split; [|reflexivity]].
  - unfold get_task. cbn [wiki_generation_tasks].
    rewrite (find_task_app_absent _ _ _ Hfresh).
    unfold has_task_id. cbn [Task.task_id]. rewrite String.eqb_refl.
    reflexivity.
  - intros other Hother. unfold get_task. cbn [wiki_generation_tasks].
    apply find_task_app_other. unfold has_task_id. cbn [Task.task_id].
    apply String.eqb_neq. congruence.
Qed.

Lemma create_then_get_task_witness :
  ~ In "t2" (task_ids Scenario.generating_db) /\
  get_task false "t2"
    (snd (create_wiki_generation_task false 8 "t2" Scenario.request
            (Some Scenario.key) Scenario.generating_db))
  = Some (queued_row 8 "t2" Scenario.request (Some Scenario.key)).
Proof.
  assert (H : ~ In "t2" (task_ids Scenario.generating_db)).
  { cbn. intros [E|[]]. discriminate E. }
  split; [exact H|].
  exact (proj1 (proj2 (create_then_get_task 8 "t2" Scenario.request
                         (Some Scenario.key) Scenario.generating_db H))).
Defined.

(** X3: of two creates under the same new task_id, the first wins.  The
    first one inserts its row; the second, whatever its request, project_key
    and time, returns False and changes nothing: get_task still returns the
    row built from the first request, the table has gained exactly that one
    row, and the task ids are still unique if they were. *)
Theorem create_duplicate_task_refused :
  forall now1 now2 raises2 task_id q1 q2 project_key1 project_key2 d,
    ~ In task_id (task_ids d) ->
    let d1 := snd (create_wiki_generation_task false now1 task_id q1
                     project_key1 d) in
    let r2 := create_wiki_generation_task raises2 now2 task_id q2
                project_key2 d1 in
    fst r2 = false /\
    snd r2 = d1 /\
    get_task false task_id (snd r2)
    = Some (queued_row now1 task_id q1 project_key1) /\
    (snd r2).(wiki_generation_tasks)
    = d.(wiki_generation_tasks) ++ [queued_row now1 task_id q1 project_key1] /\
    (NoDup (task_ids d) -> NoDup (task_ids (snd r2))).
Proof.
  intros now1 now2 raises2 task_id q1 q2 project_key1 project_key2 d Hfresh
         d1 r2.
  assert (Hd1 : d1 = mkDB (d.(wiki_generation_tasks)
                           ++ [queued_row now1 task_id q1 project_key1])
                          d.(wiki_projects)).
  { subst d1. unfold create_wiki_generation_task.
    rewrite (existsb_task_id_false _ _ Hfresh). reflexivity. }
  assert (Hin1 : In task_id (task_ids d1)).
  { rewrite Hd1. unfold task_ids. cbn [wiki_generation_tasks].
    rewrite map_app. apply in_or_app. right. left. reflexivity. }
  assert (Hr2 : r2 = (false, d1)).
  { subst r2. unfold create_wiki_generation_task.
    rewrite (existsb_task_id_true _ _ Hin1), orb_true_r. reflexivity. }
  rewrite Hr2. cbn [fst snd]. split; [reflexivity|]. split; [reflexivity|].
  rewrite Hd1. cbn [wiki_generation_tasks]. split; [|split; [reflexivity|]].
  - unfold get_task. cbn [wiki_generation_tasks].
    rewrite (find_task_app_absent _ _ _ Hfresh).
    unfold has_task_id. cbn [queued_row Task.task_id find].
    rewrite String.eqb_refl. reflexivity.
  - intros Hnodup. unfold task_ids in *. cbn [wiki_generation_tasks].
    rewrite map_app. cbn [map queued_row Task.task_id].
    apply NoDup_rev in Hnodup.
    rewrite <- (rev_involutive (map Task.task_id (wiki_generation_tasks d)
                                ++ [task_id])).
    apply NoDup_rev. rewrite rev_app_distr. cbn [rev app].
    constructor; [|exact Hnodup].
    rewrite <- in_rev. exact Hfresh.
Qed.

Lemma create_duplicate_task_refused_witness :
  ~ In "t2" (task_ids Scenario.generating_db) /\
  create_wiki_generation_task false 9 "t2" Scenario.request None
    (snd (create_wiki_generation_task false 8 "t2" Scenario.request
            (Some Scenario.key) Scenario.generating_db))
  = (false,
     snd (create_wiki_generation_task false 8 "t2" Scenario.request
            (Some Scenario.key) Scenario.generating_db)).
Proof.
  assert (H : ~ In "t2" (task_ids Scenario.generating_db)).
  { cbn. intros [E|[]]. discriminate E. }
  split; [exact H|].
  pose proof (create_duplicate_task_refused 8 9 false "t2" Scenario.request
                Scenario.request (Some Scenario.key) None
                Scenario.generating_db H) as Hthm.
  cbv zeta in Hthm. destruct Hthm as (Hfst & Hsnd & _).
  apply injective_projections; [exact Hfst|exact Hsnd].
Defined.

(** X4: get_or_create_wiki_project is idempotent: once it has returned a row,
    a further call for the same subject returns that same row and changes
    nothing.  A subject seen for the first time gets one new row, appended with
    status 'not_generated', no current task and generation_count 0; a known
    subject gets its stored row and the store is unchanged. *)
Theorem get_or_create_wiki_project_idempotent :
  forall now now' repo_url repo_url' repo_type owner repo_name d project d',
    get_or_create_wiki_project None now repo_url repo_type owner repo_name d
    = (Ok project, d') ->
    get_or_create_wiki_project None now' repo_url' repo_type owner repo_name d'
    = (Ok project, d') /\
    match find (has_project_key (make_project_key repo_type owner repo_name))
               d.(wiki_projects) with
    | Some stored => project = stored /\ d' = d
    | None =>
        d'.(wiki_projects) = d.(wiki_projects) ++ [project] /\
        d'.(wiki_generation_tasks) = d.(wiki_generation_tasks) /\
        Project.status project = NotGenerated /\
        Project.current_task_id project = None /\
        Project.generation_count project = 0
    end.
Proof.
  intros now now' repo_url repo_url' repo_type owner repo_name d project d' H.
  split.
  - apply SubmitFacts.get_or_create_wiki_project_found in H.
    destruct H as [Hfind _].
    unfold get_or_create_wiki_project. rewrite Hfind. reflexivity.
  - unfold get_or_create_wiki_project in H.
    destruct (find _ (wiki_projects d)) as [stored|].
    + injection H as <- <-. auto.
    + destruct (valid_repo_type repo_type); [|discriminate H].
      injection H as <- <-. cbn. auto.
Qed.

Lemma get_or_create_wiki_project_idempotent_witness :
  let r := get_or_create_wiki_project None 1 "https://gitlab.example.com/acme/widgets"
             "gitlab" "acme" "widgets" Scenario.empty_db in
  exists project,
    fst r = Ok project /\
    get_or_create_wiki_project None 2 "" "gitlab" "acme" "widgets" (snd r)
    = (Ok project, snd r).
Proof.
  intros r. eexists. split; [reflexivity|].
  exact (proj1 (get_or_create_wiki_project_idempotent 1 2
                  "https://gitlab.example.com/acme/widgets" "" "gitlab" "acme"
                  "widgets" Scenario.empty_db _ _ eq_refl)).
Defined.

Lemma map_unchanged {A : Type} (f : A -> A) (l : list A) :
  (forall x, In x l -> f x = x) -> map f l = l.
Proof.
  intros H. rewrite <- (map_id l) at 2. apply map_ext_in. exact H.
Qed.

Lemma has_task_id_in task_id (ts : list Task.row) t :
  In t ts -> has_task_id task_id t = true -> In task_id (map Task.task_id ts).
Proof.
  intros Hin Hid. apply String.eqb_eq in Hid. rewrite <- Hid.
  apply in_map. exact Hin.
Qed.

(** X5: update_task_status for a task_id that has no row changes nothing and
    still returns True: the UPDATE matches no row and is not an error. *)
Theorem update_unknown_task_is_silent :
  forall now task_id status progress message result error_message d,
    ~ In task_id (task_ids d) ->
    update_task_status false now task_id status progress message result
                       error_message d = (true, d).
Proof.
  intros now task_id status progress message result error_message d Hno.
  unfold update_task_status. destruct d as [ts ps]. cbn. f_equal. f_equal.
  apply map_unchanged. intros t Hin.
  destruct (has_task_id task_id t) eqn:Hid; [|reflexivity].
  exfalso. apply Hno. exact (has_task_id_in _ _ _ Hin Hid).
Qed.

Lemma update_unknown_task_is_silent_witness :
  ~ In "t9" (task_ids Scenario.generating_db) /\
  update_task_status false 9 "t9" Completed (Some 100) None None None
    Scenario.generating_db = (true, Scenario.generating_db).
Proof.
  assert (H : ~ In "t9" (task_ids Scenario.generating_db)).
  { cbn. intros [E|[]]. discriminate E. }
  split; [exact H|].
  exact (update_unknown_task_is_silent 9 "t9" Completed (Some 100) None None
           None Scenario.generating_db H).
Defined.

Lemma find_update_other task_id other (f : Task.row -> Task.row) ts :
  other <> task_id ->
  (forall t, Task.task_id (f t) = Task.task_id t) ->
  find (has_task_id other)
       (map (fun t => if has_task_id task_id t then f t else t) ts)
  = find (has_task_id other) ts.
Proof.
  intros Hne Hf. induction ts as [|t ts IH]; cbn [map find]; [reflexivity|].
  destruct (has_task_id task_id t) eqn:Ht.
  - assert (Ho : has_task_id other t = false).
    { unfold has_task_id in *. apply String.eqb_eq in Ht.
      apply String.eqb_neq. congruence. }
    unfold has_task_id at 1. rewrite Hf. fold (has_task_id other t).
    rewrite Ho. exact IH.
  - destruct (has_task_id other t); [reflexivity|exact IH].
Qed.

(** X6: what update_task_status writes is what get_task_status reads: after a
    committed update of an existing task the view shows the new status, the
    progress, message, result and error_message that were passed (the old ones
    where None was passed) and completed_at stamped for a terminal status,
    while task_id, repo_url, repo_type, owner, repo_name, provider, model,
    language and created_at are as before; the view of every other task is
    unchanged. *)
Theorem update_then_get_task_status :
  forall now task_id status progress message result error_message d before,
    TaskQueue.get_task_status false task_id d = Some before ->
    let d' := snd (update_task_status false now task_id status progress message
                                      result error_message d) in
    (exists after,
        TaskQueue.get_task_status false task_id d' = Some after /\
        TaskView.status after = status /\
        TaskView.progress after
        = match progress with Some p => p | None => TaskView.progress before end /\
        TaskView.message after = or_keep message (TaskView.message before) /\
        TaskView.result after = or_keep result (TaskView.result before) /\
        TaskView.error_message after
        = or_keep error_message (TaskView.error_message before) /\
        TaskView.completed_at after
        = (if is_terminal status then Some now
           else TaskView.completed_at before) /\
        TaskView.task_id after = TaskView.task_id before /\
        TaskView.repo_url after = TaskView.repo_url before /\
        TaskView.repo_type after = TaskView.repo_type before /\
        TaskView.owner after = TaskView.owner before /\
        TaskView.repo_name after = TaskView.repo_name before /\
        TaskView.provider after = TaskView.provider before /\
        TaskView.model after = TaskView.model before /\
        TaskView.language after = TaskView.language before /\
        TaskView.created_at after = TaskView.created_at before) /\
    (forall other, other <> task_id ->
        TaskQueue.get_task_status false other d'
        = TaskQueue.get_task_status false other d).
Proof.
  intros now task_id status progress message result error_message d before
         Hbefore d'.
  subst d'. unfold TaskQueue.get_task_status, get_task, update_task_status in *.
  cbn [snd wiki_generation_tasks]. split.
  - rewrite PipelineFacts.find_update_task
      by (intros t; apply GitLabDBFacts.update_task_row_task_id).
    destruct (find (has_task_id task_id) (wiki_generation_tasks d)) as [t|];
      [|discriminate Hbefore].
    injection Hbefore as <-. cbn [option_map]. eexists. split; [reflexivity|].
    cbn [TaskView.status TaskView.progress TaskView.message TaskView.result
         TaskView.error_message TaskView.completed_at TaskView.task_id
         TaskView.repo_url TaskView.repo_type TaskView.owner
         TaskView.repo_name TaskView.provider TaskView.model
         TaskView.language TaskView.created_at].
    rewrite GitLabDBFacts.update_task_row_completed_at,
      GitLabDBFacts.update_task_row_task_id.
    unfold update_task_row.
    destruct (stamps_started_at status progress), (is_terminal status),
      progress; repeat split.
  - intros other Hother.
    rewrite find_update_other;
      [reflexivity|exact Hother|
       intros t; apply GitLabDBFacts.update_task_row_task_id].
Qed.

Lemma update_then_get_task_status_witness :
  exists before after,
    TaskQueue.get_task_status false "t1" Scenario.generating_db = Some before /\
    TaskQueue.get_task_status false "t1"
      (snd (update_task_status false 9 "t1" Processing (Some 40) None None None
              Scenario.generating_db)) = Some after /\
    TaskView.progress after = 40 /\
    TaskView.message after = TaskView.message before.
Proof.
  eexists.
  destruct (update_then_get_task_status 9 "t1" Processing (Some 40) None None
              None Scenario.generating_db _ eq_refl)
    as [(after & Hget & _ & Hprogress & Hmessage & _) _].
  exists after. split; [reflexivity|]. split; [exact Hget|].
  split; [exact Hprogress|exact Hmessage].
Defined.

End StoreFacts.

(** ** Properties of the queue queries and of the retention sweep *)
Module QueueFacts.

Import GitLabDB.

Lemma insert_by_created_at_in t u sorted :
  In u (insert_by_created_at t sorted) <-> u = t \/ In u sorted.
Proof.
  induction sorted as [|v rest IH]; cbn [insert_by_created_at].
  - cbn. intuition congruence.
  - destruct (Task.created_at t <=? Task.created_at v); cbn [In].
    + intuition congruence.
    + rewrite IH. intuition congruence.
Qed.

Lemma order_by_created_at_in u rows :
  In u (order_by_created_at rows) <-> In u rows.
Proof.
  induction rows as [|t rows IH]; cbn [order_by_created_at fold_right];
    [reflexivity|].
  fold (order_by_created_at rows).
  rewrite insert_by_created_at_in, IH. cbn. intuition congruence.
Qed.

Lemma insert_by_created_at_length t sorted :
  List.length (insert_by_created_at t sorted) = S (List.length sorted).
Proof.
  induction sorted as [|v rest IH]; cbn [insert_by_created_at];
    [reflexivity|].
  destruct (Task.created_at t <=? Task.created_at v); cbn [List.length];
    [reflexivity|].
  rewrite IH. reflexivity.
Qed.

Lemma order_by_created_at_length rows :
  List.length (order_by_created_at rows) = List.length rows.
Proof.
  induction rows as [|t rows IH]; cbn [order_by_created_at fold_right];
    [reflexivity|].
  fold (order_by_created_at rows).
  rewrite insert_by_created_at_length, IH. reflexivity.
Qed.

Lemma insert_by_created_at_sorted t sorted :
  StronglySorted created_no_later sorted ->
  StronglySorted created_no_later (insert_by_created_at t sorted).
Proof.
  induction 1 as [|v rest Hrest IH Hv]; cbn [insert_by_created_at].
  - repeat constructor.
  - destruct (Task.created_at t <=? Task.created_at v) eqn:E.
    + apply Z.leb_le in E. constructor; [constructor; assumption|].
      constructor; [exact E|].
      eapply Forall_impl; [|exact Hv].
      intros u Hu. unfold created_no_later in *. lia.
    + apply Z.leb_gt in E. constructor; [exact IH|].
      apply Forall_forall. intros u Hu.
      apply insert_by_created_at_in in Hu. destruct Hu as [->|Hu].
      * unfold created_no_later. lia.
      * rewrite Forall_forall in Hv. apply Hv. exact Hu.
Qed.

Lemma order_by_created_at_sorted rows :
  StronglySorted created_no_later (order_by_created_at rows).
Proof.
  induction rows as [|t rows IH]; cbn [order_by_created_at fold_right].
  - constructor.
  - apply insert_by_created_at_sorted. exact IH.
Qed.

Lemma in_firstn {A : Type} n (l : list A) x : In x (firstn n l) -> In x l.
Proof.
  intros H. rewrite <- (firstn_skipn n l). apply in_or_app. left. exact H.
Qed.

Lemma in_skipn {A : Type} n (l : list A) x : In x (skipn n l) -> In x l.
Proof.
  intros H. rewrite <- (firstn_skipn n l). apply in_or_app. right. exact H.
Qed.

Lemma StronglySorted_firstn {A : Type} (R : A -> A -> Prop) n (l : list A) :
  StronglySorted R l -> StronglySorted R (firstn n l).
Proof.
  intros H. revert n. induction H as [|a l Hl IH Ha]; intros [|n]; cbn;
    try constructor.
  - apply IH.
  - rewrite Forall_forall in *. intros x Hx. apply Ha.
    exact (in_firstn _ _ _ Hx).
Qed.

Lemma StronglySorted_split {A : Type} (R : A -> A -> Prop) n (l : list A) :
  StronglySorted R l ->
  forall a b, In a (firstn n l) -> In b (skipn n l) -> R a b.
Proof.
  intros H. revert n. induction H as [|x l Hl IH Hx]; intros [|n] a b Ha Hb;
    cbn in *; try contradiction.
  destruct Ha as [<-|Ha].
  - rewrite Forall_forall in Hx. apply Hx. exact (in_skipn _ _ _ Hb).
  - exact (IH n a b Ha Hb).
Qed.

Lemma in_firstn_or_skipn {A : Type} n (l : list A) x :
  In x l -> In x (firstn n l) \/ In x (skipn n l).
Proof.
  intros H. rewrite <- (firstn_skipn n l) in H. apply in_app_or. exact H.
Qed.

Lemma is_queued_status t : is_queued t = true <-> Task.status t = Queued.
Proof.
  unfold is_queued. destruct (Task.status t); cbn; split; intros H;
    try reflexivity; discriminate.
Qed.

(** X7: get_queued_tasks hands out the queue first-in first-out: every row it
    returns is a queued row of the table, the rows come in non-decreasing
    order of created_at, there are min(limit, number of queued rows) of them
    (all of them for a negative limit), and no queued row that was left out
    was created before a returned one.  When the store read fails the result
    is the empty list. *)
Theorem get_queued_tasks_fifo :
  forall limit d,
    let queue := get_queued_tasks false limit d in
    let queued := filter is_queued d.(wiki_generation_tasks) in
    Forall (fun t => In t d.(wiki_generation_tasks) /\
                     Task.status t = Queued) queue /\
    StronglySorted created_no_later queue /\
    List.length queue
    = (if limit <? 0 then List.length queued
       else Nat.min (Z.to_nat limit) (List.length queued)) /\
    (forall t u, In t queue -> In u queued -> ~ In u queue ->
                 created_no_later t u) /\
    get_queued_tasks true limit d = [].
Proof.
  intros limit d queue queued. subst queue queued.
  unfold get_queued_tasks, sql_limit.
  set (sorted := order_by_created_at
                   (filter is_queued (wiki_generation_tasks d))).
  assert (Hin : forall t, In t sorted ->
                          In t (wiki_generation_tasks d) /\
                          Task.status t = Queued).
  { intros t Ht. apply order_by_created_at_in, filter_In in Ht.
    destruct Ht as [Ht Hq]. split; [exact Ht|]. apply is_queued_status, Hq. }
  assert (Hsorted : StronglySorted created_no_later sorted)
    by apply order_by_created_at_sorted.
  assert (Hlen : List.length sorted
                 = List.length (filter is_queued (wiki_generation_tasks d)))
    by apply order_by_created_at_length.
  repeat apply conj; [| | | |reflexivity].
  - apply Forall_forall. intros t Ht. apply Hin.
    destruct (limit <? 0); [exact Ht|exact (in_firstn _ _ _ Ht)].
  - destruct (limit <? 0); [exact Hsorted|].
    apply StronglySorted_firstn. exact Hsorted.
  - destruct (limit <? 0); [exact Hlen|].
    rewrite length_firstn, Hlen. reflexivity.
  - intros t u Ht Hu Hnot.
    apply order_by_created_at_in in Hu. fold sorted in Hu.
    destruct (limit <? 0); [contradiction|].
    destruct (in_firstn_or_skipn (Z.to_nat limit) _ _ Hu) as [Hu'|Hu'];
      [contradiction|].
    exact (StronglySorted_split _ _ _ Hsorted t u Ht Hu').
Qed.

Lemma filter_and_shorter {A : Type} (f g : A -> bool) (l : list A) x :
  In x l -> f x = true -> g x = false ->
  (List.length (filter (fun y => f y && g y) l) < List.length (filter f l))%nat.
Proof.
  induction l as [|y l IH]; cbn [In filter]; intros Hin Hf Hg; [contradiction|].
  assert (Hle : forall l',
             (List.length (filter (fun y => f y && g y) l')
              <= List.length (filter f l'))%nat).
  { induction l' as [|z l' IH']; cbn; [lia|].
    destruct (f z), (g z); cbn; lia. }
  destruct Hin as [->|Hin].
  - rewrite Hf, Hg. cbn. specialize (Hle l). lia.
  - specialize (IH Hin Hf Hg). destruct (f y), (g y); cbn; lia.
Qed.

Lemma filter_and_mono {A : Type} (f g h : A -> bool) (l : list A) :
  (forall y, f y = true -> g y = true -> h y = true) ->
  (List.length (filter (fun y => f y && g y) l)
   <= List.length (filter (fun y => f y && h y) l))%nat.
Proof.
  intros Himp. induction l as [|y l IH]; cbn; [lia|].
  destruct (f y) eqn:Hf, (g y) eqn:Hg; cbn.
  - rewrite (Himp y Hf Hg). cbn. lia.
  - destruct (h y); cbn; lia.
  - exact IH.
  - exact IH.
Qed.

Lemma length_filter_pos {A : Type} (f : A -> bool) (l : list A) :
  (0 <? List.length (filter f l))%nat = existsb f l.
Proof.
  induction l as [|y l IH]; cbn; [reflexivity|].
  destruct (f y); cbn; [reflexivity|exact IH].
Qed.

(** X8: the entry of get_queue_status for a requested task id tells where the
    task stands: status 'not_found' and position 0 when no row has the id;
    position -1 while the task is processing; position 0 once it is completed
    or failed; and for a queued task a position from processing_count + 1 up
    to processing_count + queued_count.  The entries come one per requested
    id, in the order asked, and is_busy holds exactly when some task is queued
    or processing. *)
Theorem get_queue_status_positions :
  forall ids d,
    let q := get_queue_status None (Some ids) d in
    map QueueStatus.task_id q.(QueueStatus.user_tasks) = ids /\
    Forall
      (fun entry =>
         match get_task false entry.(QueueStatus.task_id) d with
         | None =>
             entry.(QueueStatus.status) = None /\
             entry.(QueueStatus.position) = 0
         | Some t =>
             entry.(QueueStatus.status) = Some t.(Task.status) /\
             match t.(Task.status) with
             | Processing => entry.(QueueStatus.position) = -1
             | Queued =>
                 Z.of_nat q.(QueueStatus.processing_count) + 1
                 <= entry.(QueueStatus.position)
                 <= Z.of_nat q.(QueueStatus.processing_count)
                    + Z.of_nat q.(QueueStatus.queued_count)
             | Completed | Failed => entry.(QueueStatus.position) = 0
             end
         end)
      q.(QueueStatus.user_tasks) /\
    q.(QueueStatus.is_busy) = existsb is_interrupted d.(wiki_generation_tasks) /\
    q.(QueueStatus.error) = None.
Proof.
  intros ids d q. subst q. unfold get_queue_status.
  cbn [QueueStatus.user_tasks QueueStatus.processing_count
       QueueStatus.queued_count QueueStatus.is_busy QueueStatus.error].
  repeat apply conj; [| | |reflexivity].
  - rewrite map_map. cbn. rewrite <- (map_id ids) at 2. apply map_ext.
    intros task_id. unfold user_task_status.
    destruct (find _ _); reflexivity.
  - apply Forall_forall. intros entry Hin. apply in_map_iff in Hin.
    destruct Hin as (task_id & <- & _).
    unfold user_task_status, get_task.
    destruct (find (has_task_id task_id) (wiki_generation_tasks d))
      as [t|] eqn:Hfind; cbn [QueueStatus.task_id]; rewrite Hfind;
      cbn [QueueStatus.status QueueStatus.position]; [|auto].
    split; [reflexivity|].
    destruct (Task.status t) eqn:Hstatus; try reflexivity.
    apply find_some in Hfind. destruct Hfind as [Hin _].
    assert (Hq : is_queued t = true) by (apply is_queued_status, Hstatus).
    pose proof (filter_and_shorter is_queued
                  (fun u => Task.created_at u <? Task.created_at t)
                  (wiki_generation_tasks d) t Hin Hq (Z.ltb_irrefl _)) as Hlt.
    cbn beta in Hlt. unfold queued_before. lia.
  - rewrite !length_filter_pos. clear ids.
    induction (wiki_generation_tasks d) as [|t ts IH]; cbn; [reflexivity|].
    rewrite <- IH. unfold is_processing, is_queued, is_interrupted.
    destruct (Task.status t); cbn;
      repeat rewrite ?orb_true_r, ?orb_false_r, ?orb_true_l; reflexivity.
Qed.

(** X9: queue positions respect the order of creation: of two queued tasks,
    the one created earlier has the smaller position. *)
Theorem queue_positions_follow_creation :
  forall processing_count d id1 id2 t1 t2,
    get_task false id1 d = Some t1 ->
    get_task false id2 d = Some t2 ->
    Task.status t1 = Queued ->
    Task.status t2 = Queued ->
    Task.created_at t1 < Task.created_at t2 ->
    (user_task_status processing_count d id1).(QueueStatus.position)
    < (user_task_status processing_count d id2).(QueueStatus.position).
Proof.
  intros processing_count d id1 id2 t1 t2 H1 H2 Hq1 Hq2 Hlt.
  unfold get_task in H1, H2. unfold user_task_status.
  rewrite H1, H2, Hq1, Hq2. cbn [QueueStatus.position].
  apply find_some in H1. destruct H1 as [Hin1 _].
  assert (Hqueued : is_queued t1 = true) by (apply is_queued_status, Hq1).
  (* t1 is counted before t2 but not before itself *)
  assert (Hstep :
    (List.length (filter (fun u => is_queued u
                                   && (Task.created_at u <? Task.created_at t1)%Z)
                         (wiki_generation_tasks d))
     < List.length (filter (fun u => is_queued u
                                     && (Task.created_at u <? Task.created_at t2)%Z)
                           (wiki_generation_tasks d)))%nat).
  { pose proof (filter_and_shorter
                  (fun u => is_queued u
                            && (Task.created_at u <? Task.created_at t2))
                  (fun u => Task.created_at u <? Task.created_at t1)
                  (wiki_generation_tasks d) t1 Hin1) as Hshort.
    cbn beta in Hshort. rewrite Hqueued in Hshort.
    assert (Hb : (Task.created_at t1 <? Task.created_at t2) = true)
      by (apply Z.ltb_lt; exact Hlt).
    rewrite Hb in Hshort. specialize (Hshort eq_refl (Z.ltb_irrefl _)).
    eapply Nat.le_lt_trans; [|exact Hshort].
    clear - Hlt.
    induction (wiki_generation_tasks d) as [|u us IH]; cbn; [lia|].
    destruct (is_queued u); cbn; [|exact IH].
    destruct (Task.created_at u <? Task.created_at t1) eqn:E1,
             (Task.created_at u <? Task.created_at t2) eqn:E2; cbn;
      try apply Z.ltb_lt in E1; try apply Z.ltb_ge in E2; lia. }
  unfold queued_before. lia.
Qed.

Lemma queue_positions_follow_creation_witness :
  (user_task_status 1 QueueScenario.store "b").(QueueStatus.position) = 2 /\
  (user_task_status 1 QueueScenario.store "a").(QueueStatus.position) = 3 /\
  (user_task_status 1 QueueScenario.store "b").(QueueStatus.position)
  < (user_task_status 1 QueueScenario.store "a").(QueueStatus.position).
Proof.
  split; [reflexivity|]. split; [reflexivity|].
  exact (queue_positions_follow_creation 1 QueueScenario.store "b" "a" _ _
           eq_refl eq_refl eq_refl eq_refl eq_refl).
Defined.

Lemma find_task_unique (ts : list Task.row) t :
  NoDup (map Task.task_id ts) -> In t ts ->
  find (has_task_id (Task.task_id t)) ts = Some t.
Proof.
  induction ts as [|u ts IH]; cbn [map In find]; intros Hnodup Hin;
    [contradiction|].
  inversion Hnodup as [|? ? Hnotin Hrest]; subst.
  destruct Hin as [->|Hin].
  - unfold has_task_id. rewrite String.eqb_refl. reflexivity.
  - destruct (has_task_id (Task.task_id t) u) eqn:E.
    + exfalso. apply Hnotin. apply String.eqb_eq in E. rewrite E.
      apply in_map. exact Hin.
    + apply IH; assumption.
Qed.

Lemma order_by_created_at_head t rest rows :
  order_by_created_at rows = t :: rest ->
  In t rows /\ forall u, In u rows -> created_no_later t u.
Proof.
  intros Hsorted.
  pose proof (order_by_created_at_sorted rows) as Hs. rewrite Hsorted in Hs.
  apply StronglySorted_inv in Hs. destruct Hs as [_ Hall].
  split.
  - apply order_by_created_at_in. rewrite Hsorted. left. reflexivity.
  - intros u Hu. apply order_by_created_at_in in Hu. rewrite Hsorted in Hu.
    destruct Hu as [<-|Hu]; [unfold created_no_later; lia|].
    rewrite Forall_forall in Hall. apply Hall. exact Hu.
Qed.

(** The task that get_queued_tasks(1) returns is a queued row that no queued
    row precedes. *)
Lemma next_queued_task_is_oldest d task rest :
  get_queued_tasks false 1 d = task :: rest ->
  In task d.(wiki_generation_tasks) /\
  Task.status task = Queued /\
  forall u, In u d.(wiki_generation_tasks) -> Task.status u = Queued ->
            created_no_later task u.
Proof.
  unfold get_queued_tasks, sql_limit. cbn [Z.ltb Z.compare Z.to_nat Pos.to_nat
                                          Pos.iter_op Nat.add].
  intros Hq.
  destruct (order_by_created_at (filter is_queued (wiki_generation_tasks d)))
    as [|t sorted] eqn:Hsorted; cbn in Hq; [discriminate Hq|].
  injection Hq as -> _.
  destruct (order_by_created_at_head _ _ _ Hsorted) as [Hin Hleast].
  apply filter_In in Hin. destruct Hin as [Hin Hqueued].
  split; [exact Hin|]. split; [apply is_queued_status, Hqueued|].
  intros u Hu Hstatus. apply Hleast. apply filter_In.
  split; [exact Hu|]. apply is_queued_status, Hstatus.
Qed.

(** X10: the task that get_queued_tasks(1) hands to the worker next is the one
    get_queue_status reports first in line: its position is processing_count
    + 1, that is 1 when no task is processing.  (Task ids are unique in the
    table.) *)
Theorem next_queued_task_is_first_in_line :
  forall d task rest,
    NoDup (task_ids d) ->
    get_queued_tasks false 1 d = task :: rest ->
    let q := get_queue_status None (Some [task.(Task.task_id)]) d in
    q.(QueueStatus.user_tasks)
    = [QueueStatus.mkUserTask task.(Task.task_id) (Some Queued)
         (Z.of_nat q.(QueueStatus.processing_count) + 1)].
Proof.
  intros d task rest Hnodup Hq q. subst q.
  destruct (next_queued_task_is_oldest _ _ _ Hq) as (Hin & Hstatus & Hleast).
  unfold get_queue_status.
  cbn [QueueStatus.user_tasks QueueStatus.processing_count map].
  unfold user_task_status.
  rewrite (find_task_unique _ _ Hnodup Hin), Hstatus.
  assert (Hnone : queued_before (Task.created_at task) d = 0%nat).
  { unfold queued_before. rewrite StoreFacts.filter_none; [reflexivity|].
    apply Forall_forall. intros u Hu.
    destruct (is_queued u) eqn:Hqu; [|reflexivity]. cbn.
    apply Z.ltb_ge. apply (Hleast u Hu). apply is_queued_status, Hqu. }
  rewrite Hnone. cbn [Z.of_nat]. rewrite Z.add_0_r. reflexivity.
Qed.

Lemma next_queued_task_is_first_in_line_witness :
  NoDup (task_ids QueueScenario.store) /\
  map Task.task_id (get_queued_tasks false 1 QueueScenario.store) = ["b"] /\
  (get_queue_status None (Some ["b"]) QueueScenario.store)
    .(QueueStatus.user_tasks)
  = [QueueStatus.mkUserTask "b" (Some Queued) 2].
Proof.
  assert (Hnodup : NoDup (task_ids QueueScenario.store)).
  { cbn. repeat constructor; cbn; intuition discriminate. }
  split; [exact Hnodup|]. split; [reflexivity|].
  exact (next_queued_task_is_first_in_line QueueScenario.store _ _ Hnodup
           eq_refl).
Defined.

(** X11: right after the interrupted-task sweep the queue is idle:
    get_queue_status counts no processing and no queued task, is_busy is
    false, every requested task has position 0, and get_queued_tasks finds
    nothing to hand to a worker. *)
Theorem queue_is_idle_after_sweep :
  forall now ids limit d,
    let d' := snd (cleanup_interrupted_tasks false now d) in
    let q := get_queue_status None (Some ids) d' in
    q.(QueueStatus.processing_count) = 0%nat /\
    q.(QueueStatus.queued_count) = 0%nat /\
    q.(QueueStatus.is_busy) = false /\
    Forall (fun entry => entry.(QueueStatus.position) = 0)
           q.(QueueStatus.user_tasks) /\
    get_queued_tasks false limit d' = [].
Proof.
  intros now ids limit d d' q. subst q d'.
  rewrite (GitLabDBFacts.cleanup_interrupted_tasks_maps now d). cbn [snd].
  pose proof (StoreFacts.swept_tasks_not_interrupted now
                (wiki_generation_tasks d)) as Hswept.
  set (ts := map (fun t => if is_interrupted t then mark_interrupted now t
                           else t) (wiki_generation_tasks d)) in *.
  assert (Hp : filter is_processing ts = []).
  { apply StoreFacts.filter_none. eapply Forall_impl; [|exact Hswept].
    intros t. unfold is_interrupted, is_processing.
    destruct (Task.status t); cbn; congruence. }
  assert (Hq : filter is_queued ts = []).
  { apply StoreFacts.filter_none. eapply Forall_impl; [|exact Hswept].
    intros t. unfold is_interrupted, is_queued.
    destruct (Task.status t); cbn; congruence. }
  unfold get_queue_status, get_queued_tasks, sql_limit.
  cbn [QueueStatus.user_tasks QueueStatus.processing_count
       QueueStatus.queued_count QueueStatus.is_busy wiki_generation_tasks].
  rewrite Hp, Hq. cbn [List.length order_by_created_at fold_right].
  repeat apply conj; try reflexivity.
  - apply Forall_forall. intros entry Hin. apply in_map_iff in Hin.
    destruct Hin as (task_id & <- & _). unfold user_task_status.
    cbn [wiki_generation_tasks].
    destruct (find (has_task_id task_id) ts) as [t|] eqn:Hfind; [|reflexivity].
    apply find_some in Hfind. destruct Hfind as [Hin _].
    rewrite Forall_forall in Hswept. specialize (Hswept t Hin).
    unfold is_interrupted in Hswept. cbn [QueueStatus.position].
    destruct (Task.status t); try discriminate Hswept; reflexivity.
  - destruct (limit <? 0); [reflexivity|apply firstn_nil].
Qed.

(** X12: cleanup_old_tasks(days), for days >= 0, deletes exactly the terminal
    rows completed more than [days] days before now: a queued or processing
    task is never deleted, a kept row is unchanged, every deleted row was
    completed or failed with completed_at older than the cutoff, every
    completed or failed row with completed_at older than the cutoff is
    deleted, the returned count is the number of rows deleted, the project
    table is untouched, and a second run at the same time deletes nothing. *)
Theorem cleanup_old_tasks_keeps_recent :
  forall now days d,
    0 <= days ->
    let r := cleanup_old_tasks false now days d in
    (forall t, In t d.(wiki_generation_tasks) -> is_interrupted t = true ->
               In t (snd r).(wiki_generation_tasks)) /\
    (forall t, In t (snd r).(wiki_generation_tasks) ->
               In t d.(wiki_generation_tasks)) /\
    (forall t, In t d.(wiki_generation_tasks) ->
               ~ In t (snd r).(wiki_generation_tasks) ->
               is_terminal t.(Task.status) = true /\
               exists completed_at,
                 t.(Task.completed_at) = Some completed_at /\
                 completed_at < now - 86400 * days) /\
    (forall t completed_at,
        t.(Task.status) = Completed \/ t.(Task.status) = Failed ->
        t.(Task.completed_at) = Some completed_at ->
        completed_at < now - 86400 * days ->
        ~ In t (snd r).(wiki_generation_tasks)) /\
    (fst r + List.length (snd r).(wiki_generation_tasks)
     = List.length d.(wiki_generation_tasks))%nat /\
    (snd r).(wiki_projects) = d.(wiki_projects) /\
    cleanup_old_tasks false now days (snd r) = (0%nat, snd r).
Proof.
  intros now days d Hdays r. subst r. unfold cleanup_old_tasks.
  assert (Hd : (days <? 0) = false) by (apply Z.ltb_ge; exact Hdays).
  rewrite Hd. cbn [fst snd wiki_generation_tasks wiki_projects].
  repeat apply conj.
  - intros t Hin Hint. apply filter_In. split; [exact Hin|].
    unfold is_expired, is_interrupted in *.
    destruct (Task.status t); cbn; try discriminate Hint; reflexivity.
  - intros t Hin. apply filter_In in Hin. exact (proj1 Hin).
  - intros t Hin Hgone.
    destruct (is_expired now days t) eqn:E.
    + unfold is_expired in E. apply andb_prop in E. destruct E as [Ht Hc].
      split; [exact Ht|].
      destruct (Task.completed_at t) as [c|]; [|discriminate Hc].
      exists c. split; [reflexivity|]. apply Z.ltb_lt. exact Hc.
    + exfalso. apply Hgone. apply filter_In. rewrite E. auto.
  - intros t completed_at Hstatus Hcompleted Hold Hin.
    apply filter_In in Hin. destruct Hin as [_ Hkept].
    assert (E : is_expired now days t = true).
    { unfold is_expired. rewrite Hcompleted.
      apply andb_true_intro. split.
      - destruct Hstatus as [-> | ->]; reflexivity.
      - apply Z.ltb_lt. exact Hold. }
    rewrite E in Hkept. discriminate Hkept.
  - induction (wiki_generation_tasks d) as [|t ts IH]; cbn; [reflexivity|].
    destruct (is_expired now days t); cbn; lia.
  - reflexivity.
  - rewrite StoreFacts.filter_none.
    + f_equal. f_equal.
      induction (wiki_generation_tasks d) as [|t ts IH]; cbn; [reflexivity|].
      destruct (is_expired now days t) eqn:E; cbn; [exact IH|].
      rewrite E. cbn. f_equal. exact IH.
    + apply Forall_forall. intros t Hin. apply filter_In in Hin.
      destruct Hin as [_ Hkeep]. destruct (is_expired now days t);
        [discriminate Hkeep|reflexivity].
Qed.

Lemma cleanup_old_tasks_keeps_recent_witness :
  0 <= 7 /\
  map Task.task_id
    (snd (cleanup_old_tasks false (50 + 86400 * 7 + 1) 7 QueueScenario.store))
      .(wiki_generation_tasks) = ["a"; "b"; "c"] /\
  (fst (cleanup_old_tasks false (50 + 86400 * 7 + 1) 7 QueueScenario.store)
   + 3 = 4)%nat.
Proof.
  assert (H : 0 <= 7) by lia.
  split; [exact H|]. split; [reflexivity|].
  pose proof (cleanup_old_tasks_keeps_recent (50 + 86400 * 7 + 1) 7
                QueueScenario.store H) as Hthm.
  cbv zeta in Hthm. destruct Hthm as (_ & _ & _ & _ & Hcount & _).
  exact Hcount.
Defined.

End QueueFacts.

(** ** What a run of the scheduler leaves alone *)
Module FrameFacts.

Import GitLabDB WikiGenerator TaskQueue.

Lemma Forall2_same {A : Type} (R : A -> A -> Prop) (l : list A) :
  (forall x, R x x) -> Forall2 R l l.
Proof. intros H. induction l; constructor; auto. Qed.

Lemma Forall2_compose {A : Type} (R : A -> A -> Prop) (l1 l2 l3 : list A) :
  (forall x y z, R x y -> R y z -> R x z) ->
  Forall2 R l1 l2 -> Forall2 R l2 l3 -> Forall2 R l1 l3.
Proof.
  intros Htrans H12. revert l3.
  induction H12 as [|x y l1 l2 Hxy _ IH]; intros l3 H23;
    inversion H23; subst; constructor; eauto.
Qed.

Lemma touches_only_refl task_id project_key d :
  touches_only task_id project_key d d.
Proof. split; apply Forall2_same; auto. Qed.

Lemma touches_only_trans task_id project_key d1 d2 d3 :
  touches_only task_id project_key d1 d2 ->
  touches_only task_id project_key d2 d3 ->
  touches_only task_id project_key d1 d3.
Proof.
  intros [Ht12 Hp12] [Ht23 Hp23]. split.
  - eapply Forall2_compose; [|exact Ht12|exact Ht23].
    intros x y z [Hid1 Hsame1] [Hid2 Hsame2]. split; [congruence|].
    intros Hne. rewrite Hsame2; [apply Hsame1; exact Hne|congruence].
  - eapply Forall2_compose; [|exact Hp12|exact Hp23].
    intros x y z [Hid1 Hsame1] [Hid2 Hsame2]. split; [congruence|].
    intros Hne. rewrite Hsame2; [apply Hsame1; exact Hne|congruence].
Qed.

Lemma frame_refl task_id project_key w : frame task_id project_key w w.
Proof. split; [apply touches_only_refl|auto]. Qed.

Lemma frame_trans task_id project_key w1 w2 w3 :
  frame task_id project_key w1 w2 -> frame task_id project_key w2 w3 ->
  frame task_id project_key w1 w3.
Proof.
  intros (H12 & Ha12 & Hr12) (H23 & Ha23 & Hr23). split.
  - eapply touches_only_trans; eassumption.
  - split; congruence.
Qed.

Lemma touches_only_task_ids task_id project_key d d' :
  touches_only task_id project_key d d' -> task_ids d' = task_ids d.
Proof.
  intros [Ht _]. unfold task_ids.
  induction Ht as [|t t' ts ts' [Hid _] _ IH]; cbn; [reflexivity|].
  rewrite Hid, IH. reflexivity.
Qed.

Lemma touches_only_project_keys task_id project_key d d' :
  touches_only task_id project_key d d' -> project_keys d' = project_keys d.
Proof.
  intros [_ Hp]. unfold project_keys.
  induction Hp as [|p p' ps ps' [Hid _] _ IH]; cbn; [reflexivity|].
  rewrite Hid, IH. reflexivity.
Qed.

(** Rules for [preserves]. *)
Lemma preserves_ret R {A : Type} (a : A) :
  (forall w, R w w) -> preserves R (ret a).
Proof. intros Hrefl w. apply Hrefl. Qed.

Lemma preserves_call R {A : Type} (r : Outcome A) :
  (forall w, R w w) -> preserves R (call r).
Proof. intros Hrefl w. apply Hrefl. Qed.

Lemma preserves_bind R {A B : Type} (c : M A) (k : A -> M B) :
  (forall w1 w2 w3, R w1 w2 -> R w2 w3 -> R w1 w3) ->
  preserves R c -> (forall a, preserves R (k a)) -> preserves R (bind c k).
Proof.
  intros Htrans Hc Hk w. unfold bind. specialize (Hc w).
  destruct (c w) as [[a|e] w1]; cbn [snd] in *; [|exact Hc].
  eapply Htrans; [exact Hc|apply Hk].
Qed.

Lemma preserves_try_except R {A : Type} (c : M A) (h : exn -> M A) :
  (forall w1 w2 w3, R w1 w2 -> R w2 w3 -> R w1 w3) ->
  preserves R c -> (forall e, preserves R (h e)) ->
  preserves R (try_except c h).
Proof.
  intros Htrans Hc Hh w. unfold try_except. specialize (Hc w).
  destruct (c w) as [[a|e] w1]; cbn [snd] in *; [exact Hc|].
  eapply Htrans; [exact Hc|apply Hh].
Qed.

Lemma tasks_updated_in_place task_id (f : Task.row -> Task.row) ts :
  (forall t, Task.task_id (f t) = Task.task_id t) ->
  Forall2 (fun t t' => Task.task_id t' = Task.task_id t /\
                       (Task.task_id t <> task_id -> t' = t))
          ts (map (fun t => if has_task_id task_id t then f t else t) ts).
Proof.
  intros Hf. apply GitLabDBFacts.Forall2_map_same. intros t.
  destruct (has_task_id task_id t) eqn:E.
  - split; [apply Hf|]. intros Hne. apply String.eqb_eq in E. contradiction.
  - auto.
Qed.

Lemma projects_updated_in_place key (f : Project.row -> Project.row) ps :
  (forall p, Project.project_key (f p) = Project.project_key p) ->
  Forall2 (fun p p' => Project.project_key p' = Project.project_key p /\
                       (Some (Project.project_key p) <> Some key -> p' = p))
          ps (map (fun p => if has_project_key key p then f p else p) ps).
Proof.
  intros Hf. apply GitLabDBFacts.Forall2_map_same. intros p.
  destruct (has_project_key key p) eqn:E.
  - split; [apply Hf|]. intros Hne. apply String.eqb_eq in E.
    exfalso. apply Hne. congruence.
  - auto.
Qed.

Lemma frame_db_update_task_status env site task_id project_key status progress
    message result error_message :
  preserves (frame task_id project_key)
    (db_update_task_status env site task_id status progress message result
                           error_message).
Proof.
  intros w. unfold db_update_task_status, update_task_status.
  destruct (store_raises env site); cbn [snd];
    (split; [|auto]); [apply touches_only_refl|].
  split; cbn.
  - apply tasks_updated_in_place. intros t.
    apply GitLabDBFacts.update_task_row_task_id.
  - apply Forall2_same. auto.
Qed.

Lemma project_transition_key now status task_id last_success_date p :
  Project.project_key (project_transition now status task_id last_success_date p)
  = Project.project_key p.
Proof. destruct status; reflexivity. Qed.

Lemma frame_db_update_wiki_project_status env site task_id key status current
    last_success_date :
  preserves (frame task_id (Some key))
    (db_update_wiki_project_status env site key status current
                                   last_success_date).
Proof.
  intros w. unfold db_update_wiki_project_status, update_wiki_project_status.
  destruct (store_raises env site); cbn [snd];
    (split; [|auto]); [apply touches_only_refl|].
  split; cbn.
  - apply Forall2_same. auto.
  - apply projects_updated_in_place. intros p. apply project_transition_key.
Qed.

Lemma frame_mark_project env site task status last_success_date :
  preserves (frame task.(Task.task_id) task.(Task.project_key))
    (mark_project env site task status last_success_date).
Proof.
  unfold mark_project.
  destruct (Task.project_key task) as [key|];
    [|apply preserves_ret, frame_refl].
  destruct (truthy (Some key)); [|apply preserves_ret, frame_refl].
  apply preserves_bind; [apply frame_trans| |].
  - apply frame_db_update_wiki_project_status.
  - intros _. apply preserves_ret, frame_refl.
Qed.

Lemma frame_save_to_project env task wiki_structure documents_count
    cost_message :
  preserves (frame task.(Task.task_id) task.(Task.project_key))
    (save_to_project env task wiki_structure documents_count cost_message).
Proof.
  unfold save_to_project.
  destruct (Task.project_key task) as [key|];
    [|apply preserves_ret, frame_refl].
  destruct (truthy (Some key)); [|apply preserves_ret, frame_refl].
  intros w. unfold bind, db_save_wiki_project_result,
    save_wiki_project_result, db_save_markdown_pages, save_markdown_pages, ret.
  destruct (store_raises env PersistResult); cbn;
    [split; [apply touches_only_refl|auto]|].
  assert (Hframe :
    frame (Task.task_id task) (Some key) w
      (set_db
         (mkDB (wiki_generation_tasks (db w))
            (map (fun p =>
                    if has_project_key key p
                    then Project.set_wiki_structure (Some wiki_structure)
                           (Project.set_documents_count
                              (Some (Z.of_nat documents_count))
                              (Project.set_pages_count
                                 (Some (Z.of_nat
                                          (List.length (pages wiki_structure))))
                                 (Project.set_progress 100
                                    (Project.set_message
                                       (Some (result_message (Some cost_message)
                                                (List.length
                                                   (pages wiki_structure))))
                                       (Project.set_updated_at
                                          (current_timestamp env PersistResult)
                                          p)))))
                    else p)
               (wiki_projects (db w)))) w)).
  { split; [|auto]. split; cbn.
    - apply Forall2_same. auto.
    - apply projects_updated_in_place. reflexivity. }
  destruct (existsb _ (pages wiki_structure)); cbn; exact Hframe.
Qed.

Lemma frame_update_wiki_progress env task progress_pct stage detail_msg :
  preserves (frame task.(Task.task_id) task.(Task.project_key))
    (update_wiki_progress env task progress_pct stage detail_msg).
Proof.
  unfold update_wiki_progress.
  apply preserves_bind; [apply frame_trans| |].
  - apply frame_db_update_task_status.
  - intros _. destruct (Task.project_key task) as [key|];
      [|apply preserves_ret, frame_refl].
    destruct (truthy (Some key)); [|apply preserves_ret, frame_refl].
    intros w. unfold mirror_project_progress.
    destruct (store_raises env (ProgressProject progress_pct detail_msg));
      cbn [snd]; [apply frame_refl|].
    split; [|auto]. split; cbn.
    + apply Forall2_same. auto.
    + apply projects_updated_in_place. reflexivity.
Qed.

Lemma frame_generate_pages env task n rest : forall i,
  preserves (frame task.(Task.task_id) task.(Task.project_key))
    (generate_pages env task (Some (update_wiki_progress env task)) n i rest).
Proof.
  induction rest as [|page rest IH]; intros i; cbn [generate_pages].
  - apply preserves_ret, frame_refl.
  - apply preserves_bind; [apply frame_trans| |].
    + apply frame_update_wiki_progress.
    + intros _. apply preserves_bind; [apply frame_trans|apply IH|].
      intros done. apply preserves_ret, frame_refl.
Qed.

Lemma frame_generate_wiki env task rag :
  preserves (frame task.(Task.task_id) task.(Task.project_key))
    (generate_wiki env task rag (Some (update_wiki_progress env task))).
Proof.
  unfold generate_wiki.
  apply preserves_bind; [apply frame_trans|apply preserves_call, frame_refl|].
  intros pages_structure.
  apply preserves_bind; [apply frame_trans|apply frame_update_wiki_progress|].
  intros _.
  apply preserves_bind; [apply frame_trans|apply frame_generate_pages|].
  intros done. apply preserves_ret, frame_refl.
Qed.

Lemma frame_checkpoint env site task_id project_key progress message :
  preserves (frame task_id project_key)
    (checkpoint env site task_id progress message).
Proof. apply frame_db_update_task_status. Qed.

Lemma frame_stages_1_to_4 env task :
  preserves (frame task.(Task.task_id) task.(Task.project_key))
    (stages_1_to_4 env task).
Proof.
  unfold stages_1_to_4.
  apply preserves_bind; [apply frame_trans|apply frame_checkpoint|]. intros _.
  apply preserves_bind; [apply frame_trans|apply frame_checkpoint|]. intros _.
  apply preserves_bind; [apply frame_trans|apply preserves_call, frame_refl|].
  intros repo_path.
  apply preserves_bind; [apply frame_trans|apply frame_checkpoint|]. intros _.
  apply preserves_bind; [apply frame_trans|apply preserves_call, frame_refl|].
  intros documents.
  apply preserves_bind; [apply frame_trans|apply frame_checkpoint|]. intros _.
  apply preserves_bind; [apply frame_trans|apply preserves_call, frame_refl|].
  intros rag.
  apply preserves_bind; [apply frame_trans|apply frame_checkpoint|]. intros _.
  apply preserves_bind; [apply frame_trans|apply frame_generate_wiki|].
  intros [wiki_structure documents_count]. apply preserves_ret, frame_refl.
Qed.

Lemma frame_stage_5 env task repo_path wiki_structure documents_count :
  preserves (frame task.(Task.task_id) task.(Task.project_key))
    (stage_5 env task repo_path wiki_structure documents_count).
Proof.
  unfold stage_5.
  apply preserves_bind; [apply frame_trans|apply frame_checkpoint|].
  intros _.
  apply preserves_bind; [apply frame_trans|apply frame_save_to_project|].
  intros _.
  apply preserves_bind; [apply frame_trans|apply frame_db_update_task_status|].
  intros _. apply frame_mark_project.
Qed.

Lemma frame_on_exception env task e :
  preserves (frame task.(Task.task_id) task.(Task.project_key))
    (on_exception env task e).
Proof.
  unfold on_exception.
  apply preserves_bind; [apply frame_trans| |].
  - destruct e; apply frame_db_update_task_status.
  - intros _. apply frame_mark_project.
Qed.

Lemma frame_run_pipeline env task :
  preserves (frame task.(Task.task_id) task.(Task.project_key))
    (try_except (run_pipeline env task) (on_exception env task)).
Proof.
  apply preserves_try_except; [apply frame_trans| |apply frame_on_exception].
  unfold run_pipeline.
  apply preserves_bind; [apply frame_trans|apply frame_stages_1_to_4|].
  intros [[repo_path wiki_structure] documents_count]. apply frame_stage_5.
Qed.

Lemma _process_task_returns env task w :
  fst (_process_task env task w) = Ok tt.
Proof.
  unfold _process_task, try_finally, try_except, run_pipeline, bind.
  destruct (stages_1_to_4 env task w) as [[[[repo_path wiki] docs]|e] w4].
  - pose proof (proj1 (PipelineFacts.yields_stage_5 env task repo_path wiki
                         docs w4)) as H5.
    destruct (stage_5 env task repo_path wiki docs w4) as [r5 w5].
    cbn in H5. subst r5. reflexivity.
  - pose proof (proj1 (PipelineFacts.yields_on_exception env task e w4)) as He.
    destruct (on_exception env task e w4) as [re we].
    cbn in He. subst re. reflexivity.
Qed.

Lemma _process_task_world env task w :
  snd (_process_task env task w)
  = release task.(Task.task_id)
      (snd (try_except (run_pipeline env task) (on_exception env task) w)).
Proof.
  unfold _process_task, try_finally.
  destruct (try_except _ _ w) as [r w']. reflexivity.
Qed.

(** X13: no exception leaves _process_task and the slot is always released:
    whatever the stages and the store do, the call returns normally, the
    task's id is gone from active_tasks, every other active task is still
    there, and running is as it was. *)
Theorem _process_task_always_releases :
  forall env task w,
    let r := _process_task env task w in
    fst r = Ok tt /\
    (snd r).(active_tasks)
    = filter (fun a => negb (String.eqb a task.(Task.task_id))) w.(active_tasks) /\
    ~ In task.(Task.task_id) (snd r).(active_tasks) /\
    (forall other, other <> task.(Task.task_id) ->
                   In other w.(active_tasks) -> In other (snd r).(active_tasks)) /\
    (snd r).(running) = w.(running).
Proof.
  intros env task w r. subst r.
  split; [apply _process_task_returns|].
  rewrite _process_task_world.
  destruct (frame_run_pipeline env task w) as (_ & Hactive & Hrunning).
  cbn [release active_tasks running]. rewrite Hactive.
  repeat apply conj.
  - reflexivity.
  - intros Hin. apply filter_In in Hin. destruct Hin as [_ Hne].
    rewrite String.eqb_refl in Hne. discriminate Hne.
  - intros other Hne Hin. apply filter_In. split; [exact Hin|].
    apply negb_true_iff, String.eqb_neq. exact Hne.
  - exact Hrunning.
Qed.

(** X14: a run of _process_task touches only its own rows: no row is added to
    or removed from either table, every row of another task is exactly as
    before, and so is every project row except the one the task names in
    project_key. *)
Theorem _process_task_touches_only_its_rows :
  forall env task w,
    touches_only task.(Task.task_id) task.(Task.project_key)
                 w.(db) (snd (_process_task env task w)).(db).
Proof.
  intros env task w. rewrite _process_task_world.
  destruct (frame_run_pipeline env task w) as (Htouch & _ & _).
  exact Htouch.
Qed.

End FrameFacts.

(** ** Accepted and refused submissions *)
Module AcceptFacts.

Import GitLabDB TaskQueue.

Lemma ProjectStatus_eqb_neq a b : a <> b -> ProjectStatus_eqb a b = false.
Proof.
  intros Hne. destruct (ProjectStatus_eqb a b) eqn:E; [|reflexivity].
  apply SubmitFacts.ProjectStatus_eqb_eq in E. contradiction.
Qed.

(** The first step of create_task on a startable subject. *)
Lemma get_or_create_startable env q w :
  store_raises env SubmitProject = false ->
  startable q w.(db) ->
  exists project d,
    get_or_create_wiki_project None (current_timestamp env SubmitProject)
      q.(Request.repo_url) q.(Request.repo_type) q.(Request.owner)
      q.(Request.repo_name) w.(db) = (Ok project, d) /\
    ProjectStatus_eqb project.(Project.status) Generating = false /\
    find (has_project_key (key_of q)) d.(wiki_projects) = Some project /\
    d.(wiki_generation_tasks) = w.(db).(wiki_generation_tasks) /\
    (d.(wiki_projects) = w.(db).(wiki_projects) \/
     d.(wiki_projects) = w.(db).(wiki_projects) ++ [project]).
Proof.
  intros Hok Hstart. unfold startable in Hstart.
  unfold get_or_create_wiki_project. fold (key_of q).
  destruct (find (has_project_key (key_of q)) (wiki_projects (db w)))
    as [project|] eqn:Hfind.
  - exists project, (db w). repeat split; auto.
    apply ProjectStatus_eqb_neq. exact Hstart.
  - rewrite Hstart. eexists. eexists. split; [reflexivity|].
    cbn. split; [reflexivity|]. split; [|auto].
    rewrite (SubmitFacts.find_app_absent _ _ _ Hfind).
    rewrite SubmitFacts.has_project_key_refl; reflexivity.
Qed.

(** What create_task does for a startable subject. *)
Lemma create_task_startable :
  forall env q w,
    submit_commits env ->
    ~ In env.(uuid4) (task_ids w.(db)) ->
    startable q w.(db) ->
    let r := create_task env q w in
    fst r = Ok (Some env.(uuid4)) /\
    (snd r).(db).(wiki_generation_tasks)
    = w.(db).(wiki_generation_tasks)
      ++ [queued_row (current_timestamp env SubmitTask) env.(uuid4) q
                     (Some (key_of q))] /\
    generating_for (key_of q) (Some env.(uuid4)) (snd r).(db) /\
    (snd r).(written) = w.(written) ++ [mkWrite env.(uuid4) Queued (Some 0)] /\
    (snd r).(running) = true /\
    (snd r).(active_tasks) = w.(active_tasks).
Proof.
  intros env q w (Hok1 & Hok2 & Hok3) Hfresh Hstart r. subst r.
  destruct (get_or_create_startable env q w Hok1 Hstart)
    as (project & d & Hget & Hnot & Hfind & Htasks & _).
  unfold create_task, bind, db_get_or_create_wiki_project.
  rewrite Hok1, Hget, Hnot.
  unfold db_create_wiki_generation_task, create_wiki_generation_task,
    db_update_wiki_project_status, update_wiki_project_status, start, ret.
  cbn [set_db db written active_tasks running].
  rewrite Hok2, Hok3, Htasks.
  rewrite (StoreFacts.existsb_task_id_false _ _ Hfresh). cbn [orb].
  fold (key_of q).
  assert (Hgen :
    generating_for (key_of q) (Some (uuid4 env))
      (mkDB (wiki_generation_tasks (db w)
             ++ [queued_row (current_timestamp env SubmitTask) (uuid4 env) q
                            (Some (key_of q))])
            (map (fun p => if has_project_key (key_of q) p
                           then project_transition
                                  (current_timestamp env SubmitGenerating)
                                  Generating (Some (uuid4 env)) None p
                           else p)
                 (wiki_projects d)))).
  { unfold generating_for. cbn [wiki_projects].
    rewrite SubmitFacts.find_map_same_key, Hfind
      by (intros p0; destruct (has_project_key (key_of q) p0); reflexivity).
    cbn [option_map]. rewrite (proj2 (find_some _ _ Hfind)).
    eexists. split; [reflexivity|]. cbn. auto. }
  destruct (running w); cbn; repeat split; exact Hgen.
Qed.

(** A row appended under a task_id that no row had is the one get_task
    finds. *)
Lemma get_task_appended d d' row :
  ~ In (Task.task_id row) (task_ids d) ->
  d'.(wiki_generation_tasks) = d.(wiki_generation_tasks) ++ [row] ->
  get_task false (Task.task_id row) d' = Some row.
Proof.
  intros Hfresh Htasks. unfold get_task. rewrite Htasks.
  rewrite (StoreFacts.find_task_app_absent _ _ _ Hfresh).
  cbn [find]. unfold has_task_id. rewrite String.eqb_refl. reflexivity.
Qed.

(** X15: a submission for a subject that is not generating is accepted when
    the store commits and the new uuid is not in use: create_task returns the
    new task_id, appends one queued row with progress 0 built from the
    request and linked to the project, leaves the project generating with
    current_task_id the new id, records the write, and leaves the worker
    running. *)
Theorem create_task_accepts :
  forall env q w,
    submit_commits env ->
    ~ In env.(uuid4) (task_ids w.(db)) ->
    startable q w.(db) ->
    let r := create_task env q w in
    fst r = Ok (Some env.(uuid4)) /\
    (snd r).(db).(wiki_generation_tasks)
    = w.(db).(wiki_generation_tasks)
      ++ [queued_row (current_timestamp env SubmitTask) env.(uuid4) q
                     (Some (key_of q))] /\
    get_task false env.(uuid4) (snd r).(db)
    = Some (queued_row (current_timestamp env SubmitTask) env.(uuid4) q
                       (Some (key_of q))) /\
    generating_for (key_of q) (Some env.(uuid4)) (snd r).(db) /\
    (snd r).(written) = w.(written) ++ [mkWrite env.(uuid4) Queued (Some 0)] /\
    (snd r).(running) = true /\
    (snd r).(active_tasks) = w.(active_tasks).
Proof.
  intros env q w Hcommits Hfresh Hstart r.
  pose proof (create_task_startable env q w Hcommits Hfresh Hstart) as H.
  cbv zeta in H. fold r in H.
  destruct H as (Hr & Htasks & Hgen & Hwritten & Hrunning & Hactive).
  split; [exact Hr|]. split; [exact Htasks|].
  split; [|repeat split; assumption].
  exact (get_task_appended (db w) (db (snd r))
           (queued_row (current_timestamp env SubmitTask) (uuid4 env) q
                       (Some (key_of q)))
           Hfresh Htasks).
Qed.

Lemma create_task_accepts_witness :
  submit_commits ScenarioRun.env /\
  ~ In "t1" (task_ids ScenarioRun.idle.(db)) /\
  startable Scenario.request ScenarioRun.idle.(db) /\
  fst (create_task ScenarioRun.env Scenario.request ScenarioRun.idle)
  = Ok (Some "t1") /\
  (snd (create_task ScenarioRun.env Scenario.request ScenarioRun.idle))
    .(running) = true.
Proof.
  assert (H1 : submit_commits ScenarioRun.env) by (repeat split).
  assert (H2 : ~ In "t1" (task_ids ScenarioRun.idle.(db))) by (intros []).
  assert (H3 : startable Scenario.request ScenarioRun.idle.(db)) by reflexivity.
  split; [exact H1|]. split; [exact H2|]. split; [exact H3|].
  pose proof (create_task_accepts ScenarioRun.env Scenario.request
                ScenarioRun.idle H1 H2 H3) as H.
  cbv zeta in H. destruct H as (Hr & _ & _ & _ & _ & Hrun & _).
  split; [exact Hr|exact Hrun].
Defined.

(** X16: when the task row cannot be inserted (sqlite raises, or the uuid is
    already a task_id) create_task raises "Failed to create task in
    database": no task row is added, nothing is recorded, the worker is not
    started, and the subject's project is not marked generating -- though a
    project row created by this very call, with status 'not_generated',
    stays. *)
Theorem create_task_refused_insert :
  forall env q w,
    env.(store_raises) SubmitProject = false ->
    startable q w.(db) ->
    env.(store_raises) SubmitTask = true \/ In env.(uuid4) (task_ids w.(db)) ->
    let r := create_task env q w in
    fst r = Raise (Exception "Failed to create task in database") /\
    (snd r).(db).(wiki_generation_tasks) = w.(db).(wiki_generation_tasks) /\
    (snd r).(written) = w.(written) /\
    (snd r).(running) = w.(running) /\
    (snd r).(active_tasks) = w.(active_tasks) /\
    ((snd r).(db).(wiki_projects) = w.(db).(wiki_projects) \/
     (snd r).(db).(wiki_projects)
     = w.(db).(wiki_projects)
       ++ [new_project (current_timestamp env SubmitProject) (key_of q)
             q.(Request.repo_url) q.(Request.repo_type) q.(Request.owner)
             q.(Request.repo_name)]) /\
    (forall p, find (has_project_key (key_of q)) (snd r).(db).(wiki_projects)
               = Some p -> p.(Project.status) <> Generating).
Proof.
  intros env q w Hok Hstart Hfail r. subst r.
  destruct (get_or_create_startable env q w Hok Hstart)
    as (project & d & Hget & Hnot & Hfind & Htasks & Hprojects).
  assert (Hnew : wiki_projects d = wiki_projects (db w) \/
                 wiki_projects d
                 = wiki_projects (db w)
                   ++ [new_project (current_timestamp env SubmitProject)
                         (key_of q) (Request.repo_url q) (Request.repo_type q)
                         (Request.owner q) (Request.repo_name q)]).
  { clear Hprojects. unfold get_or_create_wiki_project in Hget.
    fold (key_of q) in Hget.
    destruct (find (has_project_key (key_of q)) (wiki_projects (db w))).
    - injection Hget as _ <-. left. reflexivity.
    - destruct (valid_repo_type (Request.repo_type q)); [|discriminate Hget].
      injection Hget as _ <-. right. reflexivity. }
  unfold create_task, bind, db_get_or_create_wiki_project.
  rewrite Hok, Hget, Hnot.
  unfold db_create_wiki_generation_task, create_wiki_generation_task, raise.
  cbn [set_db db written active_tasks running].
  assert (Hrefused :
    store_raises env SubmitTask
    || existsb (has_task_id (uuid4 env)) (wiki_generation_tasks d) = true).
  { destruct Hfail as [->|Hin]; [reflexivity|].
    rewrite Htasks, (StoreFacts.existsb_task_id_true _ _ Hin).
    apply orb_true_r. }
  rewrite Hrefused. cbn. repeat split; try assumption.
  intros p Hp. rewrite Hfind in Hp. injection Hp as <-.
  intros Hgen. rewrite Hgen in Hnot. discriminate Hnot.
Qed.

Lemma create_task_refused_insert_witness :
  startable Scenario.request ScenarioRun.idle.(db) /\
  fst (create_task env_insert_fails Scenario.request ScenarioRun.idle)
  = Raise (Exception "Failed to create task in database") /\
  map Project.status
    (snd (create_task env_insert_fails Scenario.request ScenarioRun.idle))
      .(db).(wiki_projects) = [NotGenerated].
Proof.
  assert (H : startable Scenario.request ScenarioRun.idle.(db)) by reflexivity.
  split; [exact H|]. split; [|reflexivity].
  exact (proj1 (create_task_refused_insert env_insert_fails Scenario.request
                  ScenarioRun.idle eq_refl H (or_introl eq_refl))).
Defined.

End AcceptFacts.

(** ** How a run ends: the task's row and the project's row *)
Module RunFacts.

Import GitLabDB WikiGenerator TaskQueue.

Lemma find_project_present key (ps : list Project.row) :
  In key (map Project.project_key ps) ->
  exists p, find (has_project_key key) ps = Some p.
Proof.
  induction ps as [|p ps IH]; cbn [map find]; intros Hin; [contradiction|].
  destruct (has_project_key key p) eqn:Hp; [eauto|].
  destruct Hin as [E|Hin]; [|auto].
  unfold has_project_key in Hp. rewrite E, String.eqb_refl in Hp.
  discriminate.
Qed.

Lemma find_project_in key (ps : list Project.row) p :
  find (has_project_key key) ps = Some p ->
  In key (map Project.project_key ps).
Proof.
  intros Hfind. apply find_some in Hfind. destruct Hfind as [Hin Hkey].
  apply String.eqb_eq in Hkey. rewrite <- Hkey. apply in_map. exact Hin.
Qed.

(** The effect of mark_project on the project's row. *)
Lemma mark_project_sets env site task status last_success_date key w p :
  Task.project_key task = Some key ->
  truthy (Some key) = true ->
  store_raises env site = false ->
  find (has_project_key key) w.(db).(wiki_projects) = Some p ->
  find (has_project_key key)
       (snd (mark_project env site task status last_success_date w))
         .(db).(wiki_projects)
  = Some (project_transition (current_timestamp env site) status None
                             last_success_date p).
Proof.
  intros Hkey Htruthy Hok Hfind. unfold mark_project.
  rewrite Hkey, Htruthy.
  unfold bind, db_update_wiki_project_status, update_wiki_project_status, ret.
  rewrite Hok. cbn [snd fst set_db db wiki_projects].
  rewrite SubmitFacts.find_map_same_key, Hfind
    by (intros p0; destruct (has_project_key key p0);
        [apply FrameFacts.project_transition_key|reflexivity]).
  cbn [option_map]. rewrite (proj2 (find_some _ _ Hfind)). reflexivity.
Qed.

Lemma stages_raise env task e w :
  stage_raises env task e -> fst (stages_1_to_4 env task w) = Raise e.
Proof.
  unfold stage_raises. intros Hraise. unfold stages_1_to_4.
  rewrite (PipelineFacts.run_bind _ _ _ _
             (proj1 (PipelineFacts.yields_checkpoint env _ _ _ _ _))).
  rewrite (PipelineFacts.run_bind _ _ _ _
             (proj1 (PipelineFacts.yields_checkpoint env _ _ _ _ _))).
  destruct (download_repo env _ _ _ _ _) as [repo_path|e1];
    [|subst e1; reflexivity].
  rewrite (PipelineFacts.run_bind _ _ _ _
             (proj1 (PipelineFacts.yields_call _ _ eq_refl _))).
  rewrite (PipelineFacts.run_bind _ _ _ _
             (proj1 (PipelineFacts.yields_checkpoint env _ _ _ _ _))).
  destruct (read_all_documents env _ _ _ _ _) as [documents|e2];
    [|subst e2; reflexivity].
  rewrite (PipelineFacts.run_bind _ _ _ _
             (proj1 (PipelineFacts.yields_call _ _ eq_refl _))).
  rewrite (PipelineFacts.run_bind _ _ _ _
             (proj1 (PipelineFacts.yields_checkpoint env _ _ _ _ _))).
  destruct (prepare_retriever env _ _) as [rag|e3]; [|subst e3; reflexivity].
  rewrite (PipelineFacts.run_bind _ _ _ _
             (proj1 (PipelineFacts.yields_call _ _ eq_refl _))).
  rewrite (PipelineFacts.run_bind _ _ _ _
             (proj1 (PipelineFacts.yields_checkpoint env _ _ _ _ _))).
  unfold generate_wiki, bind at 1, bind at 1, call. rewrite Hraise.
  reflexivity.
Qed.

(** A run in which a stage raises is the except branch after the stages,
    followed by the release of the slot. *)
Lemma _process_task_abort env task e w :
  stage_raises env task e ->
  snd (_process_task env task w)
  = release task.(Task.task_id)
      (snd (on_exception env task e (snd (stages_1_to_4 env task w)))).
Proof.
  intros Hraise. pose proof (stages_raise env task e w Hraise) as Hr.
  unfold _process_task, try_finally, try_except, run_pipeline, bind.
  destruct (stages_1_to_4 env task w) as [[x|e'] w4]; cbn in Hr;
    [discriminate Hr|].
  injection Hr as ->. cbn [snd].
  destruct (on_exception env task e w4) as [re we]. reflexivity.
Qed.

(** Stages 1 to 4 write bookkeeping only. *)
Lemma progress_only_refl w : progress_only w w.
Proof. split; apply FrameFacts.Forall2_same; reflexivity. Qed.

Lemma progress_only_trans w1 w2 w3 :
  progress_only w1 w2 -> progress_only w2 w3 -> progress_only w1 w3.
Proof.
  intros [Ht12 Hp12] [Ht23 Hp23]. split.
  - eapply FrameFacts.Forall2_compose; [|exact Ht12|exact Ht23].
    cbn. intros x y z Hxy Hyz. congruence.
  - eapply FrameFacts.Forall2_compose; [|exact Hp12|exact Hp23].
    cbn. intros x y z Hxy Hyz. congruence.
Qed.

Lemma checkpoint_row_bookkeeping now progress message t :
  without_bookkeeping
    (update_task_row now Processing (Some progress) (Some message) None None t)
  = without_bookkeeping t.
Proof.
  unfold update_task_row, stamps_started_at.
  destruct (progress =? 0); reflexivity.
Qed.

Lemma progress_only_checkpoint env site task_id progress message :
  preserves progress_only (checkpoint env site task_id progress message).
Proof.
  intros w. unfold checkpoint, db_update_task_status, update_task_status.
  destruct (store_raises env site); cbn [snd];
    [split; apply FrameFacts.Forall2_same; reflexivity|].
  split; cbn.
  - apply GitLabDBFacts.Forall2_map_same. intros t.
    destruct (has_task_id task_id t); [|reflexivity].
    apply checkpoint_row_bookkeeping.
  - apply FrameFacts.Forall2_same. reflexivity.
Qed.

Lemma progress_only_update_wiki_progress env task progress_pct stage detail_msg :
  preserves progress_only
    (update_wiki_progress env task progress_pct stage detail_msg).
Proof.
  unfold update_wiki_progress.
  apply FrameFacts.preserves_bind; [apply progress_only_trans| |].
  - apply progress_only_checkpoint.
  - intros _. destruct (Task.project_key task) as [key|];
      [|apply FrameFacts.preserves_ret, progress_only_refl].
    destruct (truthy (Some key));
      [|apply FrameFacts.preserves_ret, progress_only_refl].
    intros w. unfold mirror_project_progress.
    destruct (store_raises env (ProgressProject progress_pct detail_msg));
      cbn [snd]; [apply progress_only_refl|].
    split; cbn.
    + apply FrameFacts.Forall2_same. reflexivity.
    + apply GitLabDBFacts.Forall2_map_same. intros p.
      destruct (has_project_key key p); reflexivity.
Qed.

Lemma progress_only_generate_pages env task n rest : forall i,
  preserves progress_only
    (generate_pages env task (Some (update_wiki_progress env task)) n i rest).
Proof.
  induction rest as [|page rest IH]; intros i; cbn [generate_pages].
  - apply FrameFacts.preserves_ret, progress_only_refl.
  - apply FrameFacts.preserves_bind; [apply progress_only_trans| |].
    + apply progress_only_update_wiki_progress.
    + intros _.
      apply FrameFacts.preserves_bind; [apply progress_only_trans|apply IH|].
      intros done. apply FrameFacts.preserves_ret, progress_only_refl.
Qed.

Lemma progress_only_stages_1_to_4 env task :
  preserves progress_only (stages_1_to_4 env task).
Proof.
  unfold stages_1_to_4.
  apply FrameFacts.preserves_bind;
    [apply progress_only_trans|apply progress_only_checkpoint|]. intros _.
  apply FrameFacts.preserves_bind;
    [apply progress_only_trans|apply progress_only_checkpoint|]. intros _.
  apply FrameFacts.preserves_bind;
    [apply progress_only_trans
    |apply FrameFacts.preserves_call, progress_only_refl|].
  intros repo_path.
  apply FrameFacts.preserves_bind;
    [apply progress_only_trans|apply progress_only_checkpoint|]. intros _.
  apply FrameFacts.preserves_bind;
    [apply progress_only_trans
    |apply FrameFacts.preserves_call, progress_only_refl|].
  intros documents.
  apply FrameFacts.preserves_bind;
    [apply progress_only_trans|apply progress_only_checkpoint|]. intros _.
  apply FrameFacts.preserves_bind;
    [apply progress_only_trans
    |apply FrameFacts.preserves_call, progress_only_refl|].
  intros rag.
  apply FrameFacts.preserves_bind;
    [apply progress_only_trans|apply progress_only_checkpoint|]. intros _.
  apply FrameFacts.preserves_bind; [apply progress_only_trans| |].
  - unfold generate_wiki.
    apply FrameFacts.preserves_bind;
      [apply progress_only_trans
      |apply FrameFacts.preserves_call, progress_only_refl|].
    intros pages_structure.
    apply FrameFacts.preserves_bind;
      [apply progress_only_trans|apply progress_only_update_wiki_progress|].
    intros _.
    apply FrameFacts.preserves_bind;
      [apply progress_only_trans|apply progress_only_generate_pages|].
    intros done. apply FrameFacts.preserves_ret, progress_only_refl.
  - intros [wiki_structure documents_count].
    apply FrameFacts.preserves_ret, progress_only_refl.
Qed.

Lemma find_task_related (R : Task.row -> Task.row -> Prop) task_id ts ts' t :
  (forall x y, R x y -> Task.task_id y = Task.task_id x) ->
  Forall2 R ts ts' ->
  find (has_task_id task_id) ts = Some t ->
  exists t', find (has_task_id task_id) ts' = Some t' /\ R t t'.
Proof.
  intros Hkey H. induction H as [|x y ts ts' Hxy _ IH]; cbn [find];
    intros Hfind; [discriminate Hfind|].
  unfold has_task_id at 1. rewrite (Hkey x y Hxy).
  fold (has_task_id task_id x).
  destruct (has_task_id task_id x).
  - injection Hfind as <-. eauto.
  - apply IH. exact Hfind.
Qed.

Lemma find_project_related (R : Project.row -> Project.row -> Prop) key ps ps' p :
  (forall x y, R x y -> Project.project_key y = Project.project_key x) ->
  Forall2 R ps ps' ->
  find (has_project_key key) ps = Some p ->
  exists p', find (has_project_key key) ps' = Some p' /\ R p p'.
Proof.
  intros Hkey H. induction H as [|x y ps ps' Hxy _ IH]; cbn [find];
    intros Hfind; [discriminate Hfind|].
  unfold has_project_key at 1. rewrite (Hkey x y Hxy).
  fold (has_project_key key x).
  destruct (has_project_key key x).
  - injection Hfind as <-. eauto.
  - apply IH. exact Hfind.
Qed.

Lemma without_bookkeeping_task_id x y :
  without_bookkeeping y = without_bookkeeping x ->
  Task.task_id y = Task.task_id x.
Proof. intros H. exact (f_equal Task.task_id H). Qed.

Lemma without_progress_project_key x y :
  without_progress y = without_progress x ->
  Project.project_key y = Project.project_key x.
Proof. intros H. exact (f_equal Project.project_key H). Qed.

(** The effect of the except branch on the task's row. *)
Lemma on_exception_marks_task env task e w t :
  store_raises env TaskFailed = false ->
  find (has_task_id task.(Task.task_id)) w.(db).(wiki_generation_tasks)
  = Some t ->
  find (has_task_id task.(Task.task_id))
       (snd (on_exception env task e w)).(db).(wiki_generation_tasks)
  = Some (update_task_row (current_timestamp env TaskFailed) Failed (Some 0)
            (Some (failure_message e)) None (Some (str e)) t).
Proof.
  intros Hok Hfind. unfold on_exception.
  assert (Hstep : forall message error_message,
    find (has_task_id (Task.task_id task))
      (wiki_generation_tasks
         (db (snd (db_update_task_status env TaskFailed (Task.task_id task)
                     Failed (Some 0) message None error_message w))))
    = Some (update_task_row (current_timestamp env TaskFailed) Failed (Some 0)
              message None error_message t)).
  { intros message error_message.
    unfold db_update_task_status, update_task_status. rewrite Hok.
    cbn [snd db wiki_generation_tasks].
    rewrite PipelineFacts.find_update_task, Hfind
      by (intros t0; apply GitLabDBFacts.update_task_row_task_id).
    reflexivity. }
  destruct e as [m|m];
    rewrite (PipelineFacts.run_bind _ _ _ _
               (proj1 (PipelineFacts.yields_db_update_task_status
                         env _ _ _ _ _ _ _ w)));
    rewrite PipelineFacts.mark_project_tasks; apply Hstep.
Qed.

(** X17: when stage 1, 2 or 3 or the structure generation raises, the run
    still returns normally and marks the failure: the task's row ends
    'failed' with progress 0, error_message str(e), the message of the except
    branch and completed_at set, its result left as it was; and the project
    the task names ends 'failed' with current_task_id cleared and
    last_failed_at set.  (The store commits the two writes; the rows
    exist.) *)
Theorem stage_failure_marks_task_and_project :
  forall env task e w key before,
    stage_raises env task e ->
    store_raises env TaskFailed = false ->
    store_raises env ProjectFailure = false ->
    get_task false task.(Task.task_id) w.(db) = Some before ->
    Task.project_key task = Some key ->
    truthy (Some key) = true ->
    In key (project_keys w.(db)) ->
    let r := _process_task env task w in
    fst r = Ok tt /\
    (exists t',
        get_task false task.(Task.task_id) (snd r).(db) = Some t' /\
        Task.status t' = Failed /\
        Task.progress t' = 0 /\
        Task.error_message t' = Some (str e) /\
        Task.message t' = Some (failure_message e) /\
        Task.completed_at t' = Some (current_timestamp env TaskFailed) /\
        Task.result t' = Task.result before) /\
    (exists p',
        get_wiki_project_by_key false key (snd r).(db) = Some p' /\
        Project.status p' = ProjectFailed /\
        Project.current_task_id p' = None /\
        Project.last_failed_at p'
        = Some (current_timestamp env ProjectFailure)).
Proof.
  intros env task e w key before Hraise Hok1 Hok2 Hbefore Hkey Htruthy Hin r.
  subst r. split; [apply FrameFacts._process_task_returns|].
  rewrite (_process_task_abort env task e w Hraise).
  rewrite PipelineFacts.release_db.
  set (w4 := snd (stages_1_to_4 env task w)).
  destruct (progress_only_stages_1_to_4 env task w) as [Htasks4 Hprojects4].
  fold w4 in Htasks4, Hprojects4.
  unfold get_task in Hbefore.
  destruct (find_task_related _ _ _ _ _ without_bookkeeping_task_id
              Htasks4 Hbefore) as (t4 & Hfind4 & Hsame4).
  split.
  - unfold get_task.
    rewrite (on_exception_marks_task env task e w4 t4 Hok1 Hfind4).
    eexists. split; [reflexivity|].
    rewrite GitLabDBFacts.update_task_row_completed_at.
    cbn [is_terminal update_task_row stamps_started_at Z.eqb].
    repeat split.
    exact (f_equal Task.result Hsame4).
  - destruct (find_project_present key _ Hin) as [p Hp].
    destruct (find_project_related _ _ _ _ _ without_progress_project_key
                Hprojects4 Hp) as (p4 & Hfind4' & _).
    assert (Hfind5 :
      exists p5,
        find (has_project_key key)
          (wiki_projects
             (db (snd (db_update_task_status env TaskFailed (Task.task_id task)
                         Failed (Some 0) (Some (failure_message e)) None
                         (Some (str e)) w4)))) = Some p5).
    { exists p4. unfold db_update_task_status, update_task_status.
      destruct (store_raises env TaskFailed); exact Hfind4'. }
    destruct Hfind5 as [p5 Hfind5].
    assert (Hfinal :
      find (has_project_key key)
        (wiki_projects (db (snd (on_exception env task e w4))))
      = Some (project_transition (current_timestamp env ProjectFailure)
                ProjectFailed None None p5)).
    { unfold on_exception.
      destruct e as [m|m];
        rewrite (PipelineFacts.run_bind _ _ _ _
                   (proj1 (PipelineFacts.yields_db_update_task_status
                             env _ _ _ _ _ _ _ w4)));
        apply (mark_project_sets env ProjectFailure task ProjectFailed None key
                 _ p5 Hkey Htruthy Hok2 Hfind5). }
    unfold get_wiki_project_by_key. rewrite Hfinal. cbn.
    eexists. split; [reflexivity|]. repeat split.
Qed.

Lemma stage_failure_marks_task_and_project_witness :
  stage_raises env_download_fails Scenario.task
               (Exception "repository not found") /\
  In Scenario.key (project_keys ScenarioRun.claimed.(db)) /\
  exists t' p',
    get_task false "t1"
      (snd (_process_task env_download_fails Scenario.task
                          ScenarioRun.claimed)).(db) = Some t' /\
    Task.status t' = Failed /\
    Task.error_message t' = Some "repository not found" /\
    get_wiki_project_by_key false Scenario.key
      (snd (_process_task env_download_fails Scenario.task
                          ScenarioRun.claimed)).(db) = Some p' /\
    Project.status p' = ProjectFailed /\
    Project.current_task_id p' = None.
Proof.
  assert (H1 : stage_raises env_download_fails Scenario.task
                            (Exception "repository not found")) by reflexivity.
  assert (H2 : In Scenario.key (project_keys ScenarioRun.claimed.(db)))
    by (left; reflexivity).
  split; [exact H1|]. split; [exact H2|].
  pose proof (stage_failure_marks_task_and_project env_download_fails
                Scenario.task _ ScenarioRun.claimed Scenario.key _ H1 eq_refl
                eq_refl eq_refl eq_refl eq_refl H2) as H.
  cbv zeta in H.
  destruct H as (_ & (t' & Ht & Hst & _ & Herr & _) & (p' & Hp & Hps & Hpc & _)).
  exists t', p'. repeat split; assumption.
Defined.

(** Task updates leave the project rows as they are. *)
Lemma db_update_task_status_projects env site task_id status progress message
    result error_message w :
  (snd (db_update_task_status env site task_id status progress message result
                              error_message w)).(db).(wiki_projects)
  = w.(db).(wiki_projects).
Proof.
  unfold db_update_task_status, update_task_status.
  destruct (store_raises env site); reflexivity.
Qed.

(** The effect of save_to_project on the project's row. *)
Lemma save_to_project_sets env task wiki_structure documents_count cost_message
    key w p :
  Task.project_key task = Some key ->
  truthy (Some key) = true ->
  store_raises env PersistResult = false ->
  find (has_project_key key) w.(db).(wiki_projects) = Some p ->
  find (has_project_key key)
       (snd (save_to_project env task wiki_structure documents_count
                             cost_message w)).(db).(wiki_projects)
  = Some (saved_row (current_timestamp env PersistResult) wiki_structure
                    (Z.of_nat documents_count) (Some cost_message) p).
Proof.
  intros Hkey Htruthy Hok Hfind. unfold save_to_project.
  rewrite Hkey, Htruthy.
  unfold bind, db_save_wiki_project_result, save_wiki_project_result.
  rewrite Hok. cbn [fst snd].
  assert (Hsaved :
    find (has_project_key key)
      (map (fun p0 => if has_project_key key p0
                      then saved_row (current_timestamp env PersistResult)
                             wiki_structure (Z.of_nat documents_count)
                             (Some cost_message) p0
                      else p0)
           w.(db).(wiki_projects))
    = Some (saved_row (current_timestamp env PersistResult) wiki_structure
                      (Z.of_nat documents_count) (Some cost_message) p)).
  { rewrite SubmitFacts.find_map_same_key, Hfind
      by (intros p0; destruct (has_project_key key p0); reflexivity).
    cbn [option_map]. rewrite (proj2 (find_some _ _ Hfind)). reflexivity. }
  destruct (existsb _ (pages wiki_structure)); exact Hsaved.
Qed.

(** What get_wiki_project_by_key returns is the stored row, up to progress
    and message. *)
Lemma get_wiki_project_by_key_stored key d q :
  get_wiki_project_by_key false key d = Some q ->
  exists p,
    find (has_project_key key) d.(wiki_projects) = Some p /\
    without_progress q = without_progress p.
Proof.
  unfold get_wiki_project_by_key.
  destruct (find (has_project_key key) (wiki_projects d)) as [p|];
    [|discriminate].
  intros H. exists p. split; [reflexivity|].
  destruct (ProjectStatus_eqb (Project.status p) Generating
            && truthy (Project.current_task_id p));
    [|injection H as <-; reflexivity].
  destruct (Project.current_task_id p) as [current_task_id|];
    [|injection H as <-; reflexivity].
  destruct (find (has_task_id current_task_id) (wiki_generation_tasks d));
    injection H as <-; reflexivity.
Qed.

(** X18: when the stages of a run succeed and the store commits the saving
    of the result and the final update of the project, the project the task
    names ends 'generated' with current_task_id cleared, generation_count one
    more than before the run, last_success_date today, last_generated_at
    set, progress 100, and the structure, the number of pages and the number
    of documents of the run. *)
Theorem success_publishes_project :
  forall env task repo_path rag pages_structure w key before,
    stages_succeed env task repo_path rag pages_structure ->
    store_raises env PersistResult = false ->
    store_raises env ProjectGenerated = false ->
    Task.project_key task = Some key ->
    truthy (Some key) = true ->
    get_wiki_project_by_key false key w.(db) = Some before ->
    exists p',
      get_wiki_project_by_key false key (snd (_process_task env task w)).(db)
      = Some p' /\
      Project.status p' = Generated /\
      Project.current_task_id p' = None /\
      Project.generation_count p' = Project.generation_count before + 1 /\
      Project.last_success_date p' = Some (today env) /\
      Project.last_generated_at p'
      = Some (current_timestamp env ProjectGenerated) /\
      Project.progress p' = 100 /\
      Project.wiki_structure p'
      = Some (result_wiki_structure
                (result_of env task repo_path rag pages_structure)) /\
      Project.pages_count p'
      = Some (Z.of_nat (List.length pages_structure)) /\
      Project.documents_count p' = Some (Z.of_nat rag.(rag_documents)).
Proof.
  intros env task repo_path rag pages_structure w key before Hstages Hok1 Hok2
         Hkey Htruthy Hbefore.
  rewrite (PipelineFacts._process_task_success _ _ _ _ _ _ Hstages).
  cbn [snd]. rewrite PipelineFacts.release_db.
  set (w4 := snd (stages_1_to_4 env task w)).
  destruct (get_wiki_project_by_key_stored _ _ _ Hbefore) as (p & Hp & Hsame).
  destruct (progress_only_stages_1_to_4 env task w) as [_ Hprojects4].
  fold w4 in Hprojects4.
  destruct (find_project_related _ _ _ _ _ without_progress_project_key
              Hprojects4 Hp) as (p4 & Hfind4 & Hsame4).
  set (wiki_structure :=
         result_wiki_structure
           (result_of env task repo_path rag pages_structure)).
  unfold stage_5.
  rewrite (PipelineFacts.run_bind _ _ _ _
             (proj1 (PipelineFacts.yields_checkpoint env _ _ _ _ w4))).
  set (w5 := snd (checkpoint env StageSave _ _ _ w4)).
  assert (Hfind5 : find (has_project_key key) w5.(db).(wiki_projects) = Some p4).
  { subst w5. unfold checkpoint. rewrite db_update_task_status_projects.
    exact Hfind4. }
  rewrite (PipelineFacts.run_bind _ _ _ _
             (proj1 (PipelineFacts.yields_save_to_project env _ _ _ _ w5))).
  pose proof (save_to_project_sets env task wiki_structure (rag_documents rag)
                (cost_message_of env (Task.task_id task)) key w5 p4 Hkey
                Htruthy Hok1 Hfind5) as Hfind6.
  set (w6 := snd (save_to_project env _ _ _ _ w5)) in *.
  rewrite (PipelineFacts.run_bind _ _ _ _
             (proj1 (PipelineFacts.yields_db_update_task_status
                       env _ _ _ _ _ _ _ w6))).
  rewrite <- (db_update_task_status_projects env TaskCompleted
                (Task.task_id task) Completed (Some 100)
                (Some (cost_message_of env (Task.task_id task)))
                (Some (mkResult wiki_structure (Z.of_nat (rag_documents rag))
                                repo_path))
                None w6) in Hfind6.
  pose proof (mark_project_sets env ProjectGenerated task Generated
                (Some (today env)) key _ _ Hkey Htruthy Hok2 Hfind6) as Hfinal.
  unfold get_wiki_project_by_key. rewrite Hfinal. cbn.
  eexists. split; [reflexivity|].
  split; [reflexivity|]. split; [reflexivity|].
  split.
  { change (Project.generation_count p4 + 1
            = Project.generation_count before + 1).
    f_equal. transitivity (Project.generation_count p).
    - exact (f_equal Project.generation_count Hsame4).
    - symmetry. exact (f_equal Project.generation_count Hsame). }
  split; [reflexivity|]. split; [reflexivity|]. split; [reflexivity|].
  split; [reflexivity|].
  split; [|reflexivity].
  change (Some (Z.of_nat (List.length
                           (pages_with_content env task 0 pages_structure)))
          = Some (Z.of_nat (List.length pages_structure))).
  rewrite PipelineFacts.pages_with_content_length. reflexivity.
Qed.

Lemma success_publishes_project_witness :
  exists p',
    get_wiki_project_by_key false Scenario.key
      (snd (_process_task ScenarioRun.env Scenario.task ScenarioRun.claimed))
        .(db) = Some p' /\
    Project.status p' = Generated /\
    Project.generation_count p' = 1 /\
    Project.pages_count p' = Some 2.
Proof.
  assert (Hstages : stages_succeed ScenarioRun.env Scenario.task
                      "/root/.adalflow/repos/acme/widgets" (mkRag 3)
                      [ScenarioRun.overview; ScenarioRun.architecture]).
  { exists 3%nat. repeat split. }
  destruct (success_publishes_project ScenarioRun.env Scenario.task _ _ _
              ScenarioRun.claimed Scenario.key _ Hstages eq_refl eq_refl
              eq_refl eq_refl eq_refl)
    as (p' & Hp & Hst & _ & Hgc & _ & _ & _ & _ & Hpc & _).
  exists p'. repeat split; assumption.
Defined.

End RunFacts.

(** ** Single-flight submission *)
Module SingleFlightFacts.

Import GitLabDB WikiGenerator TaskQueue.










End SingleFlightFacts.

(** ** What follows a run, a lost write and a restart *)
Module LifecycleFacts.

Import GitLabDB WikiGenerator TaskQueue.

Lemma key_of_truthy q : truthy (Some (key_of q)) = true.
Proof.
  unfold key_of, make_project_key, truthy.
  destruct (Request.repo_type q); reflexivity.
Qed.

Lemma run_bind_raise {A B : Type} (c : M A) (k : A -> M B) w e :
  fst (c w) = Raise e -> bind c k w = (Raise e, snd (c w)).
Proof. unfold bind. destruct (c w) as [[a|e'] w']; cbn; congruence. Qed.

Lemma try_except_ok {A : Type} (c : M A) (h : exn -> M A) w a :
  fst (c w) = Ok a -> try_except c h w = c w.
Proof. unfold try_except. destruct (c w) as [[a'|e] w']; cbn; congruence. Qed.

Lemma try_except_raise {A : Type} (c : M A) (h : exn -> M A) w e :
  fst (c w) = Raise e -> try_except c h w = h e (snd (c w)).
Proof. unfold try_except. destruct (c w) as [[a|e'] w']; cbn; congruence. Qed.

(** Every run ends with the update of the project's status, to 'generated'
    at the end of the try block or to 'failed' in an except branch. *)
Lemma run_ends_with_mark env task w :
  exists site status last_success_date w0,
    (snd (_process_task env task w)).(db)
    = (snd (mark_project env site task status last_success_date w0)).(db) /\
    ((site = ProjectGenerated /\ status = Generated) \/
     (site = ProjectFailure /\ status = ProjectFailed)) /\
    frame task.(Task.task_id) task.(Task.project_key) w w0.
Proof.
  rewrite FrameFacts._process_task_world, PipelineFacts.release_db.
  pose proof (FrameFacts.frame_stages_1_to_4 env task w) as F4.
  destruct (fst (stages_1_to_4 env task w))
    as [[[repo_path wiki_structure] documents_count]|e] eqn:E4.
  - assert (Hrun : run_pipeline env task w
                   = stage_5 env task repo_path wiki_structure documents_count
                       (snd (stages_1_to_4 env task w))).
    { unfold run_pipeline. rewrite (PipelineFacts.run_bind _ _ _ _ E4).
      reflexivity. }
    rewrite (try_except_ok _ _ _ tt)
      by (rewrite Hrun; apply PipelineFacts.yields_stage_5).
    rewrite Hrun. set (w4 := snd (stages_1_to_4 env task w)) in *.
    unfold stage_5.
    rewrite (PipelineFacts.run_bind _ _ _ _
               (proj1 (PipelineFacts.yields_checkpoint env _ _ _ _ w4))).
    pose proof (FrameFacts.frame_checkpoint env StageSave (Task.task_id task)
                  (Task.project_key task) 95 "Saving wiki results..." w4) as F5.
    set (w5 := snd (checkpoint env StageSave _ _ _ w4)) in *.
    rewrite (PipelineFacts.run_bind _ _ _ _
               (proj1 (PipelineFacts.yields_save_to_project env _ _ _ _ w5))).
    pose proof (FrameFacts.frame_save_to_project env task wiki_structure
                  documents_count (cost_message_of env (Task.task_id task)) w5)
      as F6.
    set (w6 := snd (save_to_project env _ _ _ _ w5)) in *.
    rewrite (PipelineFacts.run_bind _ _ _ _
               (proj1 (PipelineFacts.yields_db_update_task_status
                         env _ _ _ _ _ _ _ w6))).
    eexists ProjectGenerated, Generated, _, _.
    split; [reflexivity|]. split; [left; auto|].
    eapply FrameFacts.frame_trans; [exact F4|].
    eapply FrameFacts.frame_trans; [exact F5|].
    eapply FrameFacts.frame_trans; [exact F6|].
    apply FrameFacts.frame_db_update_task_status.
  - assert (Hrun : fst (run_pipeline env task w) = Raise e /\
                   snd (run_pipeline env task w)
                   = snd (stages_1_to_4 env task w)).
    { unfold run_pipeline. rewrite (run_bind_raise _ _ _ _ E4). auto. }
    destruct Hrun as [Hr Hw].
    rewrite (try_except_raise _ _ _ _ Hr), Hw.
    set (w4 := snd (stages_1_to_4 env task w)) in *.
    unfold on_exception.
    destruct e as [m|m];
      rewrite (PipelineFacts.run_bind _ _ _ _
                 (proj1 (PipelineFacts.yields_db_update_task_status
                           env _ _ _ _ _ _ _ w4)));
      eexists ProjectFailure, ProjectFailed, _, _;
      (split; [reflexivity|]); (split; [right; auto|]);
      (eapply FrameFacts.frame_trans; [exact F4|]);
      apply FrameFacts.frame_db_update_task_status.
Qed.

Lemma mark_project_settles env site task status last_success_date key w :
  Task.project_key task = Some key ->
  truthy (Some key) = true ->
  store_raises env site = false ->
  In key (project_keys w.(db)) ->
  status <> Generating ->
  exists p',
    find (has_project_key key)
         (snd (mark_project env site task status last_success_date w))
           .(db).(wiki_projects) = Some p' /\
    Project.status p' = status /\
    Project.current_task_id p' = None.
Proof.
  intros Hkey Htruthy Hok Hin Hstatus.
  destruct (RunFacts.find_project_present key _ Hin) as [p Hp].
  rewrite (RunFacts.mark_project_sets env site task status last_success_date
             key w p Hkey Htruthy Hok Hp).
  eexists. split; [reflexivity|].
  destruct status; try contradiction; split; reflexivity.
Qed.

(** X19: a run never leaves its project generating when the store commits
    the final update of the project: whatever the stages do, the project the
    task names ends 'generated' or 'failed' with current_task_id cleared, so
    the next submission for the subject is not answered with the old task:
    create_task starts a new task under the new uuid and marks the project
    generating for it. *)
Theorem resubmission_after_run_starts_new_task :
  forall env env' task q w,
    store_raises env ProjectGenerated = false ->
    store_raises env ProjectFailure = false ->
    Task.project_key task = Some (key_of q) ->
    In (key_of q) (project_keys w.(db)) ->
    submit_commits env' ->
    ~ In env'.(uuid4) (task_ids w.(db)) ->
    let w1 := snd (_process_task env task w) in
    (exists p,
        get_wiki_project_by_key false (key_of q) w1.(db) = Some p /\
        (Project.status p = Generated \/ Project.status p = ProjectFailed) /\
        Project.current_task_id p = None) /\
    fst (create_task env' q w1) = Ok (Some env'.(uuid4)) /\
    generating_for (key_of q) (Some env'.(uuid4))
                   (snd (create_task env' q w1)).(db).
Proof.
  intros env env' task q w Hok1 Hok2 Hkey Hin Hcommits Hfresh w1.
  destruct (run_ends_with_mark env task w)
    as (site & status & last_success_date & w0 & Hdb & Hsite & Hframe).
  assert (Hin0 : In (key_of q) (project_keys w0.(db))).
  { rewrite (FrameFacts.touches_only_project_keys _ _ _ _ (proj1 Hframe)).
    exact Hin. }
  assert (Hok : store_raises env site = false)
    by (destruct Hsite as [[-> _]|[-> _]]; assumption).
  assert (Hstatus : status <> Generating)
    by (destruct Hsite as [[_ ->]|[_ ->]]; discriminate).
  destruct (mark_project_settles env site task status last_success_date
              (key_of q) w0 Hkey (key_of_truthy q) Hok Hin0 Hstatus)
    as (p' & Hfind & Hst & Hcur).
  rewrite <- Hdb in Hfind. fold w1 in Hfind.
  assert (Hnot : ProjectStatus_eqb (Project.status p') Generating = false)
    by (apply AcceptFacts.ProjectStatus_eqb_neq; congruence).
  assert (Hstart : startable q w1.(db)).
  { unfold startable. rewrite Hfind. congruence. }
  assert (Hfresh1 : ~ In env'.(uuid4) (task_ids w1.(db))).
  { subst w1. rewrite FrameFacts._process_task_world, PipelineFacts.release_db.
    rewrite (FrameFacts.touches_only_task_ids _ _ _ _
               (proj1 (FrameFacts.frame_run_pipeline env task w))).
    exact Hfresh. }
  split.
  - exists p'. unfold get_wiki_project_by_key. rewrite Hfind, Hnot.
    split; [reflexivity|]. split; [|exact Hcur].
    destruct Hsite as [[_ E]|[_ E]]; rewrite Hst, E; auto.
  - pose proof (AcceptFacts.create_task_startable env' q w1 Hcommits Hfresh1
                  Hstart) as H.
    cbv zeta in H. destruct H as (Hr & _ & Hgen & _). auto.
Qed.

Lemma resubmission_after_run_starts_new_task_witness :
  In (key_of Scenario.request) (project_keys ScenarioRun.claimed.(db)) /\
  submit_commits env_second /\
  ~ In "t2" (task_ids ScenarioRun.claimed.(db)) /\
  fst (create_task env_second Scenario.request
         (snd (_process_task env_download_fails Scenario.task
                             ScenarioRun.claimed)))
  = Ok (Some "t2").
Proof.
  assert (H1 : In (key_of Scenario.request)
                  (project_keys ScenarioRun.claimed.(db)))
    by (left; reflexivity).
  assert (H2 : submit_commits env_second) by (repeat split).
  assert (H3 : ~ In "t2" (task_ids ScenarioRun.claimed.(db)))
    by (intros [H|[]]; discriminate H).
  split; [exact H1|]. split; [exact H2|]. split; [exact H3|].
  pose proof (resubmission_after_run_starts_new_task env_download_fails
                env_second Scenario.task Scenario.request ScenarioRun.claimed
                eq_refl eq_refl eq_refl H1 H2 H3) as H.
  cbv zeta in H. exact (proj1 (proj2 H)).
Defined.

Lemma mark_project_lost env site task status last_success_date w :
  store_raises env site = true ->
  (snd (mark_project env site task status last_success_date w)).(db) = w.(db).
Proof.
  intros Hlost. unfold mark_project.
  destruct (Task.project_key task) as [key|]; [|reflexivity].
  destruct (truthy (Some key)); [|reflexivity].
  unfold bind, db_update_wiki_project_status, update_wiki_project_status.
  rewrite Hlost. reflexivity.
Qed.

(** X20: when a stage raises and the store loses the update of the project
    to 'failed', the task's row is failed but the project stays generating
    with current_task_id the failed task; every later submission for the
    subject is then answered with the id of that failed task and changes
    nothing. *)
Theorem lost_failure_write_blocks_subject :
  forall env env' task e q w before,
    stage_raises env task e ->
    store_raises env TaskFailed = false ->
    store_raises env ProjectFailure = true ->
    get_task false task.(Task.task_id) w.(db) = Some before ->
    generating_for (key_of q) (Some task.(Task.task_id)) w.(db) ->
    store_raises env' SubmitProject = false ->
    let w1 := snd (_process_task env task w) in
    (exists t',
        get_task false task.(Task.task_id) w1.(db) = Some t' /\
        Task.status t' = Failed) /\
    generating_for (key_of q) (Some task.(Task.task_id)) w1.(db) /\
    create_task env' q w1 = (Ok (Some task.(Task.task_id)), w1).
Proof.
  intros env env' task e q w before Hraise Hok Hlost Hbefore
         (p & Hp & Hstatus & Hcur) Hok' w1.
  assert (Hdb : w1.(db)
                = (snd (on_exception env task e
                          (snd (stages_1_to_4 env task w)))).(db)).
  { subst w1. rewrite (RunFacts._process_task_abort env task e w Hraise).
    apply PipelineFacts.release_db. }
  set (w4 := snd (stages_1_to_4 env task w)) in *.
  destruct (RunFacts.progress_only_stages_1_to_4 env task w)
    as [Htasks4 Hprojects4].
  fold w4 in Htasks4, Hprojects4.
  unfold get_task in Hbefore.
  destruct (RunFacts.find_task_related _ _ _ _ _
              RunFacts.without_bookkeeping_task_id Htasks4 Hbefore)
    as (t4 & Hfind4 & _).
  destruct (RunFacts.find_project_related _ _ _ _ _
              RunFacts.without_progress_project_key Hprojects4 Hp)
    as (p4 & Hpfind4 & Hsame4).
  assert (Hprojects :
    w1.(db).(wiki_projects) = w4.(db).(wiki_projects)).
  { rewrite Hdb. unfold on_exception.
    destruct e as [m|m];
      rewrite (PipelineFacts.run_bind _ _ _ _
                 (proj1 (PipelineFacts.yields_db_update_task_status
                           env _ _ _ _ _ _ _ w4)));
      rewrite (mark_project_lost _ _ _ _ _ _ Hlost);
      apply RunFacts.db_update_task_status_projects. }
  assert (Hgen : generating_for (key_of q) (Some task.(Task.task_id)) w1.(db)).
  { exists p4. rewrite Hprojects. split; [exact Hpfind4|]. split.
    - rewrite <- Hstatus. exact (f_equal Project.status Hsame4).
    - rewrite <- Hcur. exact (f_equal Project.current_task_id Hsame4). }
  split; [|split; [exact Hgen|]].
  - unfold get_task. rewrite Hdb.
    rewrite (RunFacts.on_exception_marks_task env task e w4 t4 Hok Hfind4).
    eexists. split; reflexivity.
  - destruct Hgen as (p1 & Hp1 & Hst1 & Hcur1). rewrite <- Hcur1.
    apply SubmitFacts.create_task_returns_current; assumption.
Qed.

Lemma lost_failure_write_blocks_subject_witness :
  stage_raises env_failure_write_lost Scenario.task
               (Exception "repository not found") /\
  generating_for (key_of Scenario.request) (Some "t1")
                 ScenarioRun.claimed.(db) /\
  fst (create_task env_second Scenario.request
         (snd (_process_task env_failure_write_lost Scenario.task
                             ScenarioRun.claimed)))
  = Ok (Some "t1").
Proof.
  assert (H1 : stage_raises env_failure_write_lost Scenario.task
                            (Exception "repository not found")) by reflexivity.
  assert (H2 : generating_for (key_of Scenario.request) (Some "t1")
                              ScenarioRun.claimed.(db)).
  { eexists. split; [reflexivity|]. split; reflexivity. }
  split; [exact H1|]. split; [exact H2|].
  pose proof (lost_failure_write_blocks_subject env_failure_write_lost
                env_second Scenario.task _ Scenario.request ScenarioRun.claimed
                _ H1 eq_refl eq_refl eq_refl H2 eq_refl) as H.
  cbv zeta in H. destruct H as (_ & _ & Hc).
  exact (f_equal fst Hc).
Defined.

Lemma find_task_map task_id (f : Task.row -> Task.row) ts :
  (forall t, Task.task_id (f t) = Task.task_id t) ->
  find (has_task_id task_id) (map f ts)
  = option_map f (find (has_task_id task_id) ts).
Proof.
  intros Hf. induction ts as [|t ts IH]; cbn [map find]; [reflexivity|].
  unfold has_task_id at 1. rewrite Hf. fold (has_task_id task_id t).
  destruct (has_task_id task_id t); [reflexivity|exact IH].
Qed.

(** X21: a restart recovers an interrupted generation.  When the server
    starts while a task is still queued or processing and its project is
    generating, init_task_queue (its sweep being committed) leaves the task
    failed with the interruption error, the project failed with
    current_task_id cleared and the worker running; the next submission for
    the subject then starts a new task. *)
Theorem restart_recovers_interrupted_generation :
  forall now env q w task_id t current,
    get_task false task_id w.(db) = Some t ->
    is_interrupted t = true ->
    Task.project_key t = Some (key_of q) ->
    generating_for (key_of q) current w.(db) ->
    submit_commits env ->
    ~ In env.(uuid4) (task_ids w.(db)) ->
    let w1 := snd (init_task_queue false now w) in
    w1.(running) = true /\
    (exists t',
        get_task false task_id w1.(db) = Some t' /\
        Task.status t' = Failed /\
        Task.error_message t' = Some interruption_error /\
        Task.completed_at t' = Some now) /\
    (exists p',
        get_wiki_project_by_key false (key_of q) w1.(db) = Some p' /\
        Project.status p' = ProjectFailed /\
        Project.current_task_id p' = None /\
        Project.last_failed_at p' = Some now) /\
    fst (create_task env q w1) = Ok (Some env.(uuid4)) /\
    generating_for (key_of q) (Some env.(uuid4))
                   (snd (create_task env q w1)).(db).
Proof.
  intros now env q w task_id t current Ht Hint Hkey (p & Hp & Hstatus & _)
         Hcommits Hfresh w1.
  assert (Hw1 :
    w1 = mkWorld
           (mkDB (map (fun t => if is_interrupted t
                                then mark_interrupted now t else t)
                      w.(db).(wiki_generation_tasks))
                 (map (fun p =>
                         if ProjectStatus_eqb p.(Project.status) Generating
                            && linked_to_interrupted
                                 w.(db).(wiki_generation_tasks) p
                         then mark_project_failed now p else p)
                      w.(db).(wiki_projects)))
           w.(written) w.(active_tasks) true).
  { subst w1. unfold init_task_queue.
    rewrite GitLabDBFacts.cleanup_interrupted_tasks_maps. reflexivity. }
  clearbody w1. subst w1. cbn [running db].
  assert (Hlinked :
    linked_to_interrupted w.(db).(wiki_generation_tasks) p = true).
  { unfold linked_to_interrupted. apply existsb_exists. exists t.
    unfold get_task in Ht. split; [exact (proj1 (find_some _ _ Ht))|].
    rewrite Hint. unfold linked. rewrite Hkey, key_of_truthy.
    exact (proj2 (find_some _ _ Hp)). }
  assert (Htask :
    find (has_task_id task_id)
      (map (fun t => if is_interrupted t then mark_interrupted now t else t)
           w.(db).(wiki_generation_tasks))
    = Some (mark_interrupted now t)).
  { rewrite find_task_map by (intros t0; destruct (is_interrupted t0);
                                reflexivity).
    unfold get_task in Ht. rewrite Ht. cbn [option_map]. rewrite Hint.
    reflexivity. }
  assert (Hproject :
    find (has_project_key (key_of q))
      (map (fun p => if ProjectStatus_eqb p.(Project.status) Generating
                        && linked_to_interrupted
                             w.(db).(wiki_generation_tasks) p
                     then mark_project_failed now p else p)
           w.(db).(wiki_projects))
    = Some (mark_project_failed now p)).
  { rewrite SubmitFacts.find_map_same_key
      by (intros p0; destruct (ProjectStatus_eqb _ _ && _); reflexivity).
    rewrite Hp. cbn [option_map]. rewrite Hstatus, Hlinked. reflexivity. }
  split; [reflexivity|]. split.
  { unfold get_task. cbn [wiki_generation_tasks]. rewrite Htask.
    eexists. split; [reflexivity|]. repeat split. }
  split.
  { unfold get_wiki_project_by_key. cbn [wiki_projects]. rewrite Hproject.
    eexists. split; [reflexivity|]. repeat split. }
  match goal with
  | |- context [create_task env q ?w0] =>
      pose proof (AcceptFacts.create_task_startable env q w0 Hcommits) as H
  end.
  cbv zeta in H. cbn [db] in H.
  assert (Hfresh1 :
    ~ In env.(uuid4)
        (task_ids
           (mkDB (map (fun t => if is_interrupted t
                                then mark_interrupted now t else t)
                      w.(db).(wiki_generation_tasks))
                 (map (fun p =>
                         if ProjectStatus_eqb p.(Project.status) Generating
                            && linked_to_interrupted
                                 w.(db).(wiki_generation_tasks) p
                         then mark_project_failed now p else p)
                      w.(db).(wiki_projects))))).
  { unfold task_ids. cbn [wiki_generation_tasks]. rewrite map_map.
    unfold task_ids in Hfresh.
    erewrite map_ext; [exact Hfresh|].
    intros t0. destruct (is_interrupted t0); reflexivity. }
  specialize (H Hfresh1).
  assert (Hstart :
    startable q
      (mkDB (map (fun t => if is_interrupted t
                           then mark_interrupted now t else t)
                 w.(db).(wiki_generation_tasks))
            (map (fun p =>
                    if ProjectStatus_eqb p.(Project.status) Generating
                       && linked_to_interrupted
                            w.(db).(wiki_generation_tasks) p
                    then mark_project_failed now p else p)
                 w.(db).(wiki_projects)))).
  { unfold startable. cbn [wiki_projects]. rewrite Hproject. discriminate. }
  destruct (H Hstart) as (Hr & _ & Hgen & _). auto.
Qed.

Lemma restart_recovers_interrupted_generation_witness :
  generating_for (key_of Scenario.request) (Some "t1")
                 ScenarioRun.claimed.(db) /\
  submit_commits env_second /\
  (snd (init_task_queue false 8 ScenarioRun.claimed)).(running) = true /\
  fst (create_task env_second Scenario.request
         (snd (init_task_queue false 8 ScenarioRun.claimed)))
  = Ok (Some "t2").
Proof.
  assert (H1 : generating_for (key_of Scenario.request) (Some "t1")
                              ScenarioRun.claimed.(db)).
  { eexists. split; [reflexivity|]. split; reflexivity. }
  assert (H2 : submit_commits env_second) by (repeat split).
  assert (H3 : ~ In "t2" (task_ids ScenarioRun.claimed.(db)))
    by (intros [H|[]]; discriminate H).
  split; [exact H1|]. split; [exact H2|].
  pose proof (restart_recovers_interrupted_generation 8 env_second
                Scenario.request ScenarioRun.claimed "t1" _ (Some "t1")
                eq_refl eq_refl eq_refl H1 H2 H3) as H.
  cbv zeta in H. destruct H as (Hrun & _ & _ & Hr & _).
  split; [exact Hrun|exact Hr].
Defined.

End LifecycleFacts.

(** ** Invariants of the store under the scheduler's operations *)
Module InvariantFacts.

Import GitLabDB WikiGenerator TaskQueue.

Lemma keeps_refl w : keeps w w.
Proof. intros H. exact H. Qed.

Lemma keeps_trans w1 w2 w3 : keeps w1 w2 -> keeps w2 w3 -> keeps w1 w3.
Proof. unfold keeps. auto. Qed.

Lemma keeps_same_db w w' : w'.(db) = w.(db) -> keeps w w'.
Proof. unfold keeps. intros ->. auto. Qed.

Lemma NoDup_app_fresh {A : Type} (l : list A) (x : A) :
  NoDup l -> ~ In x l -> NoDup (l ++ [x]).
Proof.
  induction l as [|y l IH]; cbn; intros Hnd Hx.
  - constructor; [intros []|constructor].
  - inversion Hnd as [|y' l' Hy Hl]; subst. constructor.
    + rewrite in_app_iff. intros [H|[H|[]]]; [auto|]. subst. auto.
    + apply IH; auto.
Qed.

Lemma NoDup_map_filter {A B : Type} (f : A -> B) (g : A -> bool) (l : list A) :
  NoDup (map f l) -> NoDup (map f (filter g l)).
Proof.
  induction l as [|x l IH]; cbn; intros Hnd; [constructor|].
  inversion Hnd as [|y l' Hx Hl]; subst.
  destruct (g x); cbn; [|auto]. constructor; [|auto].
  intros Hin. apply Hx. apply in_map_iff in Hin.
  destruct Hin as (z & Hz & Hin). apply filter_In in Hin.
  apply in_map_iff. exists z. tauto.
Qed.

Lemma consistent_tasks_map (f : Task.row -> Task.row) d :
  (forall t, Task.task_id (f t) = Task.task_id t) ->
  (forall t, task_row_consistent t -> task_row_consistent (f t)) ->
  consistent d ->
  consistent (mkDB (map f d.(wiki_generation_tasks)) d.(wiki_projects)).
Proof.
  intros Hid Hrow ((Hids & Hkeys) & Htasks & Hprojects).
  split; [split|split]; cbn.
  - unfold task_ids in *. cbn. rewrite map_map.
    erewrite map_ext; [exact Hids|]. exact Hid.
  - exact Hkeys.
  - apply Forall_map. eapply Forall_impl; [|exact Htasks]. exact Hrow.
  - exact Hprojects.
Qed.

Lemma consistent_projects_map (g : Project.row -> Project.row) d :
  (forall p, Project.project_key (g p) = Project.project_key p) ->
  (forall p, project_row_consistent p -> project_row_consistent (g p)) ->
  consistent d ->
  consistent (mkDB d.(wiki_generation_tasks) (map g d.(wiki_projects))).
Proof.
  intros Hid Hrow ((Hids & Hkeys) & Htasks & Hprojects).
  split; [split|split]; cbn.
  - exact Hids.
  - unfold project_keys in *. cbn. rewrite map_map.
    erewrite map_ext; [exact Hkeys|]. exact Hid.
  - exact Htasks.
  - apply Forall_map. eapply Forall_impl; [|exact Hprojects]. exact Hrow.
Qed.

Lemma update_task_row_consistent now status progress message result
    error_message t :
  settles status progress result error_message ->
  task_row_consistent (update_task_row now status progress message result
                                       error_message t).
Proof.
  unfold settles, update_task_row, task_row_consistent.
  destruct status.
  - intros _. destruct progress; exact I.
  - intros _. destruct progress as [p|]; cbn; [|exact I].
    destruct (p =? 0); exact I.
  - intros [-> Hresult]. destruct result; [|contradiction]. cbn.
    repeat split; discriminate.
  - intros [-> Herror]. destruct error_message; [|contradiction]. cbn.
    repeat split; discriminate.
Qed.

Lemma keeps_db_update_task_status env site task_id status progress message
    result error_message :
  settles status progress result error_message ->
  preserves keeps
    (db_update_task_status env site task_id status progress message result
                           error_message).
Proof.
  intros Hsettles w. unfold db_update_task_status, update_task_status.
  destruct (store_raises env site); cbn [snd]; [apply keeps_same_db; reflexivity|].
  intros H. cbn [db].
  apply (consistent_tasks_map
           (fun t => if has_task_id task_id t
                     then update_task_row (current_timestamp env site) status
                            progress message result error_message t
                     else t)); [| |exact H].
  - intros t. destruct (has_task_id task_id t);
      [apply GitLabDBFacts.update_task_row_task_id|reflexivity].
  - intros t Ht. destruct (has_task_id task_id t);
      [apply update_task_row_consistent; exact Hsettles|exact Ht].
Qed.

Lemma keeps_checkpoint env site task_id progress message :
  preserves keeps (checkpoint env site task_id progress message).
Proof. apply keeps_db_update_task_status. exact I. Qed.

Lemma project_transition_consistent now status task_id last_success_date p :
  (status = Generating -> task_id <> None) ->
  project_row_consistent
    (project_transition now status task_id last_success_date p).
Proof.
  unfold project_row_consistent. intros Hgen.
  destruct status; cbn; split; try discriminate; try contradiction; auto.
Qed.

Lemma keeps_db_update_wiki_project_status env site key status task_id
    last_success_date :
  (status = Generating -> task_id <> None) ->
  preserves keeps
    (db_update_wiki_project_status env site key status task_id
                                   last_success_date).
Proof.
  intros Hgen w.
  unfold db_update_wiki_project_status, update_wiki_project_status.
  destruct (store_raises env site); cbn [snd]; [apply keeps_same_db; reflexivity|].
  intros H. cbn [db set_db].
  apply (consistent_projects_map
           (fun p => if has_project_key key p
                     then project_transition (current_timestamp env site)
                            status task_id last_success_date p
                     else p)); [| |exact H].
  - intros p. destruct (has_project_key key p);
      [apply FrameFacts.project_transition_key|reflexivity].
  - intros p Hp. destruct (has_project_key key p);
      [apply project_transition_consistent; exact Hgen|exact Hp].
Qed.

Lemma keeps_mark_project env site task status last_success_date :
  status <> Generating ->
  preserves keeps (mark_project env site task status last_success_date).
Proof.
  intros Hstatus. unfold mark_project.
  destruct (Task.project_key task) as [key|];
    [|apply FrameFacts.preserves_ret, keeps_refl].
  destruct (truthy (Some key)); [|apply FrameFacts.preserves_ret, keeps_refl].
  apply FrameFacts.preserves_bind; [apply keeps_trans| |].
  - apply keeps_db_update_wiki_project_status. contradiction.
  - intros _. apply FrameFacts.preserves_ret, keeps_refl.
Qed.

Lemma keeps_save_to_project env task wiki_structure documents_count
    cost_message :
  preserves keeps
    (save_to_project env task wiki_structure documents_count cost_message).
Proof.
  unfold save_to_project.
  destruct (Task.project_key task) as [key|];
    [|apply FrameFacts.preserves_ret, keeps_refl].
  destruct (truthy (Some key)); [|apply FrameFacts.preserves_ret, keeps_refl].
  intros w. unfold bind, db_save_wiki_project_result,
    save_wiki_project_result, db_save_markdown_pages, save_markdown_pages, ret.
  destruct (store_raises env PersistResult); cbn; [apply keeps_same_db; reflexivity|].
  assert (Hkeeps :
    consistent w.(db) ->
    consistent
      (mkDB (wiki_generation_tasks (db w))
         (map (fun p =>
                 if has_project_key key p
                 then saved_row (current_timestamp env PersistResult)
                        wiki_structure (Z.of_nat documents_count)
                        (Some cost_message) p
                 else p)
            (wiki_projects (db w))))).
  { apply consistent_projects_map.
    - intros p. destruct (has_project_key key p); reflexivity.
    - intros p Hp. destruct (has_project_key key p); exact Hp. }
  destruct (existsb _ (pages wiki_structure)); cbn; exact Hkeeps.
Qed.

Lemma keeps_update_wiki_progress env task progress_pct stage detail_msg :
  preserves keeps (update_wiki_progress env task progress_pct stage detail_msg).
Proof.
  unfold update_wiki_progress.
  apply FrameFacts.preserves_bind; [apply keeps_trans| |].
  - apply keeps_db_update_task_status. exact I.
  - intros _. destruct (Task.project_key task) as [key|];
      [|apply FrameFacts.preserves_ret, keeps_refl].
    destruct (truthy (Some key));
      [|apply FrameFacts.preserves_ret, keeps_refl].
    intros w. unfold mirror_project_progress.
    destruct (store_raises env (ProgressProject progress_pct detail_msg));
      cbn [snd]; [apply keeps_same_db; reflexivity|].
    intros H. cbn [db set_db].
    apply (consistent_projects_map
             (fun p => if has_project_key key p
                       then Project.set_progress progress_pct
                              (Project.set_message (Some detail_msg) p)
                       else p)); [| |exact H].
    + intros p. destruct (has_project_key key p); reflexivity.
    + intros p Hp. destruct (has_project_key key p); exact Hp.
Qed.

Lemma keeps_generate_pages env task n rest : forall i,
  preserves keeps
    (generate_pages env task (Some (update_wiki_progress env task)) n i rest).
Proof.
  induction rest as [|page rest IH]; intros i; cbn [generate_pages].
  - apply FrameFacts.preserves_ret, keeps_refl.
  - apply FrameFacts.preserves_bind; [apply keeps_trans| |].
    + apply keeps_update_wiki_progress.
    + intros _.
      apply FrameFacts.preserves_bind; [apply keeps_trans|apply IH|].
      intros done. apply FrameFacts.preserves_ret, keeps_refl.
Qed.

Lemma keeps_stages_1_to_4 env task :
  preserves keeps (stages_1_to_4 env task).
Proof.
  unfold stages_1_to_4.
  apply FrameFacts.preserves_bind;
    [apply keeps_trans|apply keeps_checkpoint|]. intros _.
  apply FrameFacts.preserves_bind;
    [apply keeps_trans|apply keeps_checkpoint|]. intros _.
  apply FrameFacts.preserves_bind;
    [apply keeps_trans|apply FrameFacts.preserves_call, keeps_refl|].
  intros repo_path.
  apply FrameFacts.preserves_bind;
    [apply keeps_trans|apply keeps_checkpoint|]. intros _.
  apply FrameFacts.preserves_bind;
    [apply keeps_trans|apply FrameFacts.preserves_call, keeps_refl|].
  intros documents.
  apply FrameFacts.preserves_bind;
    [apply keeps_trans|apply keeps_checkpoint|]. intros _.
  apply FrameFacts.preserves_bind;
    [apply keeps_trans|apply FrameFacts.preserves_call, keeps_refl|].
  intros rag.
  apply FrameFacts.preserves_bind;
    [apply keeps_trans|apply keeps_checkpoint|]. intros _.
  apply FrameFacts.preserves_bind; [apply keeps_trans| |].
  - unfold generate_wiki.
    apply FrameFacts.preserves_bind;
      [apply keeps_trans|apply FrameFacts.preserves_call, keeps_refl|].
    intros pages_structure.
    apply FrameFacts.preserves_bind;
      [apply keeps_trans|apply keeps_update_wiki_progress|].
    intros _.
    apply FrameFacts.preserves_bind;
      [apply keeps_trans|apply keeps_generate_pages|].
    intros done. apply FrameFacts.preserves_ret, keeps_refl.
  - intros [wiki_structure documents_count].
    apply FrameFacts.preserves_ret, keeps_refl.
Qed.

Lemma keeps_process_task env task : preserves keeps (_process_task env task).
Proof.
  intros w. rewrite FrameFacts._process_task_world.
  eapply keeps_trans; [|apply keeps_same_db, PipelineFacts.release_db].
  revert w. apply FrameFacts.preserves_try_except; [apply keeps_trans| |].
  - unfold run_pipeline.
    apply FrameFacts.preserves_bind;
      [apply keeps_trans|apply keeps_stages_1_to_4|].
    intros [[repo_path wiki_structure] documents_count]. unfold stage_5.
    apply FrameFacts.preserves_bind;
      [apply keeps_trans|apply keeps_checkpoint|]. intros _.
    apply FrameFacts.preserves_bind;
      [apply keeps_trans|apply keeps_save_to_project|]. intros _.
    apply FrameFacts.preserves_bind; [apply keeps_trans| |].
    + apply keeps_db_update_task_status. split; [reflexivity|discriminate].
    + intros _. apply keeps_mark_project. discriminate.
  - intros e. unfold on_exception.
    apply FrameFacts.preserves_bind; [apply keeps_trans| |].
    + destruct e; apply keeps_db_update_task_status;
        (split; [reflexivity|discriminate]).
    + intros _. apply keeps_mark_project. discriminate.
Qed.

Lemma find_project_absent key (ps : list Project.row) :
  find (has_project_key key) ps = None ->
  ~ In key (map Project.project_key ps).
Proof.
  intros Hfind Hin.
  destruct (RunFacts.find_project_present key ps Hin) as [p Hp]. congruence.
Qed.

Lemma keeps_create_task env q : preserves keeps (create_task env q).
Proof.
  unfold create_task.
  apply FrameFacts.preserves_bind; [apply keeps_trans| |].
  - intros w. unfold db_get_or_create_wiki_project, get_or_create_wiki_project.
    destruct (store_raises env SubmitProject); [apply keeps_same_db; reflexivity|].
    fold (key_of q).
    destruct (find (has_project_key (key_of q)) (wiki_projects (db w)))
      eqn:Hfind; [apply keeps_same_db; reflexivity|].
    destruct (valid_repo_type (Request.repo_type q)); [|apply keeps_same_db; reflexivity].
    intros ((Hids & Hkeys) & Htasks & Hprojects).
    split; [split|split]; cbn.
    + exact Hids.
    + unfold project_keys in *. cbn. rewrite map_app. cbn.
      apply NoDup_app_fresh; [exact Hkeys|].
      apply find_project_absent. exact Hfind.
    + exact Htasks.
    + apply Forall_app. split; [exact Hprojects|].
      constructor; [|constructor]. split; [discriminate|].
      intros H. contradiction H. reflexivity.
  - intros project.
    destruct (ProjectStatus_eqb (Project.status project) Generating);
      [apply FrameFacts.preserves_ret, keeps_refl|].
    apply FrameFacts.preserves_bind; [apply keeps_trans| |].
    + intros w.
      unfold db_create_wiki_generation_task, create_wiki_generation_task.
      destruct (store_raises env SubmitTask); [apply keeps_same_db; reflexivity|]. cbn [orb].
      destruct (existsb (has_task_id (uuid4 env))
                        (wiki_generation_tasks (db w))) eqn:Hex;
        [apply keeps_same_db; reflexivity|].
      intros ((Hids & Hkeys) & Htasks & Hprojects).
      split; [split|split]; cbn.
      * unfold task_ids in *. cbn. rewrite map_app. cbn.
        apply NoDup_app_fresh; [exact Hids|].
        intros Hin. rewrite (StoreFacts.existsb_task_id_true _ _ Hin) in Hex.
        discriminate.
      * exact Hkeys.
      * apply Forall_app. split; [exact Htasks|].
        constructor; [exact I|constructor].
      * exact Hprojects.
    + intros success. destruct success;
        [|intros w; apply keeps_same_db; reflexivity].
      apply FrameFacts.preserves_bind; [apply keeps_trans| |].
      * apply keeps_db_update_wiki_project_status. discriminate.
      * intros _.
        apply FrameFacts.preserves_bind; [apply keeps_trans| |].
        -- intros w. destruct (running w); apply keeps_same_db; reflexivity.
        -- intros _. apply FrameFacts.preserves_ret, keeps_refl.
Qed.

Lemma consistent_sweep now d :
  consistent d -> consistent (snd (cleanup_interrupted_tasks false now d)).
Proof.
  intros H. rewrite GitLabDBFacts.cleanup_interrupted_tasks_maps. cbn [snd].
  apply (consistent_projects_map
           (fun p => if ProjectStatus_eqb p.(Project.status) Generating
                        && linked_to_interrupted d.(wiki_generation_tasks) p
                     then mark_project_failed now p else p)
           (mkDB (map (fun t => if is_interrupted t
                                then mark_interrupted now t else t)
                      d.(wiki_generation_tasks))
                 d.(wiki_projects))).
  - intros p. destruct (_ && _); reflexivity.
  - intros p Hp. destruct (_ && _); [|exact Hp].
    split; [discriminate|]. intros Hcur. contradiction Hcur. reflexivity.
  - apply consistent_tasks_map; [| |exact H].
    + intros t. destruct (is_interrupted t); reflexivity.
    + intros t Ht. destruct (is_interrupted t); [|exact Ht].
      repeat split; discriminate.
Qed.

Lemma consistent_purge now days d :
  consistent d -> consistent (snd (cleanup_old_tasks false now days d)).
Proof.
  intros ((Hids & Hkeys) & Htasks & Hprojects). unfold cleanup_old_tasks.
  destruct (days <? 0); [repeat split; assumption|].
  split; [split|split]; cbn.
  - apply NoDup_map_filter. exact Hids.
  - exact Hkeys.
  - apply Forall_forall. intros t Hin. apply filter_In in Hin.
    rewrite Forall_forall in Htasks. apply Htasks. tauto.
  - exact Hprojects.
Qed.

(** X22: the operations of the scheduler keep the store consistent.  From
    a store in which task ids and project keys are unique, every completed
    task has progress 100, a result and completed_at, every failed task has
    progress 0, an error_message and completed_at, and a project names a
    current task exactly while it is generating, no sequence of submissions,
    claims, runs, restarts, stops and retention sweeps, whatever the stages
    and the store do in them, leads to a store where this fails. *)
Theorem scheduler_keeps_store_consistent :
  forall w w',
    consistent w.(db) -> reaches w w' -> consistent w'.(db).
Proof.
  intros w w' H Hreach. induction Hreach as [|w1 w2 _ IH Hstep]; [exact H|].
  destruct Hstep.
  - exact (keeps_create_task _ _ _ IH).
  - unfold claim_next.
    destruct (_ <? _); [|exact IH].
    destruct (get_queued_tasks raises 1 _); exact IH.
  - exact (keeps_process_task _ _ _ IH).
  - unfold init_task_queue.
    destruct raises; [exact IH|].
    pose proof (consistent_sweep now _ IH) as Hs.
    destruct (cleanup_interrupted_tasks false now _). exact Hs.
  - exact IH.
  - cbn [db set_db]. destruct raises; [exact IH|].
    apply consistent_purge. exact IH.
Qed.

Lemma scheduler_keeps_store_consistent_witness :
  consistent ScenarioRun.idle.(db) /\
  consistent
    (snd (_process_task ScenarioRun.env Scenario.task
            (snd (create_task ScenarioRun.env Scenario.request
                              ScenarioRun.idle)))).(db).
Proof.
  assert (H : consistent ScenarioRun.idle.(db)).
  { split; [split; constructor|split; constructor]. }
  split; [exact H|].
  apply (scheduler_keeps_store_consistent ScenarioRun.idle); [exact H|].
  eapply reaches_step; [eapply reaches_step; [apply reaches_here|]|].
  - apply step_submit.
  - apply step_process.
Defined.

End InvariantFacts.

(** ** The project query during a run, the worker loop and the service *)
Module ServiceFacts.

Import GitLabDB WikiGenerator TaskQueue WikiService.

(** While a project is generating and names a task, the query reads progress
    and message from that task's row. *)
Lemma get_wiki_project_by_key_blends key d p task_id t :
  find (has_project_key key) d.(wiki_projects) = Some p ->
  Project.status p = Generating ->
  Project.current_task_id p = Some task_id ->
  task_id <> EmptyString ->
  find (has_task_id task_id) d.(wiki_generation_tasks) = Some t ->
  get_wiki_project_by_key false key d
  = Some (Project.set_progress t.(Task.progress)
            (Project.set_message t.(Task.message) p)).
Proof.
  intros Hp Hstatus Hcur Hne Ht. unfold get_wiki_project_by_key.
  rewrite Hp, Hstatus, Hcur, Ht.
  assert (Htruthy : truthy (Some task_id) = true).
  { unfold truthy. destruct (String.eqb task_id EmptyString) eqn:E;
      [|reflexivity].
    apply String.eqb_eq in E. contradiction. }
  rewrite Htruthy. reflexivity.
Qed.

(** X23: the project query follows the task's progress during a run.  When
    the progress callback's update of the task is committed, then
    get_wiki_project_by_key of the generating project that names the task
    shows the callback's percentage and message, whether or not the
    callback's own write to the project row went through. *)
Theorem project_query_follows_task_progress :
  forall env task progress_pct stage detail_msg w key,
    store_raises env (ProgressTask progress_pct detail_msg) = false ->
    task.(Task.task_id) <> EmptyString ->
    In task.(Task.task_id) (task_ids w.(db)) ->
    generating_for key (Some task.(Task.task_id)) w.(db) ->
    exists p',
      get_wiki_project_by_key false key
        (snd (update_wiki_progress env task progress_pct stage detail_msg w))
          .(db) = Some p' /\
      Project.status p' = Generating /\
      Project.progress p' = progress_pct /\
      Project.message p' = Some detail_msg.
Proof.
  intros env task progress_pct stage detail_msg w key Hok Hne Hin
         (p & Hp & Hstatus & Hcur).
  unfold update_wiki_progress.
  rewrite (PipelineFacts.run_bind _ _ _ _
             (proj1 (PipelineFacts.yields_db_update_task_status
                       env _ _ _ _ _ _ _ w))).
  destruct (PipelineFacts.find_task_present _ _ Hin) as [t Ht].
  set (t1 := update_task_row
               (current_timestamp env (ProgressTask progress_pct detail_msg))
               Processing (Some progress_pct) (Some detail_msg) None None t).
  set (w1 := snd (db_update_task_status env _ _ _ _ _ _ _ w)).
  assert (Ht1 : find (has_task_id (Task.task_id task))
                     w1.(db).(wiki_generation_tasks) = Some t1).
  { subst w1. unfold db_update_task_status, update_task_status. rewrite Hok.
    cbn [snd db wiki_generation_tasks].
    rewrite PipelineFacts.find_update_task, Ht
      by (intros t0; apply GitLabDBFacts.update_task_row_task_id).
    reflexivity. }
  assert (Hp1 : find (has_project_key key) w1.(db).(wiki_projects) = Some p).
  { subst w1. rewrite RunFacts.db_update_task_status_projects. exact Hp. }
  assert (Hprogress : Task.progress t1 = progress_pct /\
                      Task.message t1 = Some detail_msg).
  { subst t1. unfold update_task_row, stamps_started_at.
    destruct (progress_pct =? 0); split; reflexivity. }
  destruct Hprogress as [Hpct Hmsg].
  assert (Hsame : forall w2 p2,
    w2.(db).(wiki_generation_tasks) = w1.(db).(wiki_generation_tasks) ->
    find (has_project_key key) w2.(db).(wiki_projects) = Some p2 ->
    Project.status p2 = Generating ->
    Project.current_task_id p2 = Some (Task.task_id task) ->
    exists p',
      get_wiki_project_by_key false key w2.(db) = Some p' /\
      Project.status p' = Generating /\
      Project.progress p' = progress_pct /\
      Project.message p' = Some detail_msg).
  { intros w2 p2 Htasks Hp2 Hstatus2 Hcur2.
    rewrite <- Htasks in Ht1.
    rewrite (get_wiki_project_by_key_blends key _ p2 _ t1 Hp2 Hstatus2 Hcur2
               Hne Ht1).
    eexists. split; [reflexivity|]. rewrite Hpct, Hmsg. auto. }
  destruct (Task.project_key task) as [k|];
    [|exact (Hsame w1 p eq_refl Hp1 Hstatus Hcur)].
  destruct (truthy (Some k));
    [|exact (Hsame w1 p eq_refl Hp1 Hstatus Hcur)].
  unfold mirror_project_progress.
  destruct (store_raises env (ProgressProject progress_pct detail_msg));
    [exact (Hsame w1 p eq_refl Hp1 Hstatus Hcur)|].
  cbn [snd].
  eapply (Hsame _ (if has_project_key k p
                   then Project.set_progress progress_pct
                          (Project.set_message (Some detail_msg) p)
                   else p)).
  - reflexivity.
  - cbn [db set_db wiki_projects].
    rewrite SubmitFacts.find_map_same_key, Hp1
      by (intros p0; destruct (has_project_key k p0); reflexivity).
    reflexivity.
  - destruct (has_project_key k p); exact Hstatus.
  - destruct (has_project_key k p); exact Hcur.
Qed.

Lemma project_query_follows_task_progress_witness :
  generating_for Scenario.key (Some "t1") ScenarioRun.claimed.(db) /\
  exists p',
    get_wiki_project_by_key false Scenario.key
      (snd (update_wiki_progress ScenarioRun.env_page_1_fails Scenario.task 82 "pages"
              "Generating page 2/2: Architecture" ScenarioRun.claimed)).(db)
    = Some p' /\
    Project.progress p' = 82.
Proof.
  assert (H : generating_for Scenario.key (Some "t1")
                             ScenarioRun.claimed.(db)).
  { eexists. split; [reflexivity|]. split; reflexivity. }
  split; [exact H|].
  destruct (project_query_follows_task_progress ScenarioRun.env_page_1_fails
              Scenario.task 82 "pages" "Generating page 2/2: Architecture"
              ScenarioRun.claimed Scenario.key eq_refl)
    as (p' & Hp & _ & Hpct & _);
    [discriminate|left; reflexivity|exact H|].
  exists p'. split; assumption.
Defined.

Lemma filter_others (task_id : string) (active : list string) :
  ~ In task_id active ->
  filter (fun a => negb (String.eqb a task_id)) active = active.
Proof.
  induction active as [|a active IH]; cbn; intros Hnot; [reflexivity|].
  destruct (String.eqb a task_id) eqn:E.
  - apply String.eqb_eq in E. subst. contradiction Hnot. auto.
  - cbn. rewrite IH; [reflexivity|]. intros Hin. apply Hnot. auto.
Qed.

Lemma activate_in task_id active : In task_id (activate task_id active).
Proof.
  unfold activate.
  destruct (existsb (String.eqb task_id) active) eqn:E.
  - apply existsb_exists in E. destruct E as (a & Hin & Ha).
    apply String.eqb_eq in Ha. subst. exact Hin.
  - apply in_or_app. right. left. reflexivity.
Qed.

Lemma activate_length task_id active :
  (List.length (activate task_id active) <= S (List.length active))%nat.
Proof.
  unfold activate. destruct (existsb (String.eqb task_id) active); [lia|].
  rewrite length_app. cbn. lia.
Qed.

Lemma activate_then_release task_id active :
  ~ In task_id active ->
  filter (fun a => negb (String.eqb a task_id)) (activate task_id active)
  = active.
Proof.
  intros Hnot. unfold activate.
  destruct (existsb (String.eqb task_id) active); [apply filter_others, Hnot|].
  rewrite filter_app, (filter_others _ _ Hnot). cbn.
  rewrite String.eqb_refl. cbn. apply app_nil_r.
Qed.

(** X24: one pass of the worker loop.  The pass never touches the store and
    never takes more slots than max_concurrent_tasks allows; it claims a
    task only while a slot is free, and the task it claims is a queued row
    that no queued row precedes in creation order; the task's id is then
    among the active tasks, and the run of that task gives the slot back. *)
Theorem claim_next_takes_oldest_within_limit :
  forall max_concurrent_tasks raises w,
    let r := claim_next max_concurrent_tasks raises w in
    (snd r).(db) = w.(db) /\
    (snd r).(written) = w.(written) /\
    (snd r).(running) = w.(running) /\
    (Z.of_nat (List.length w.(active_tasks)) <= max_concurrent_tasks ->
     Z.of_nat (List.length (snd r).(active_tasks)) <= max_concurrent_tasks) /\
    match fst r with
    | Ok (Some task) =>
        Z.of_nat (List.length w.(active_tasks)) < max_concurrent_tasks /\
        In task w.(db).(wiki_generation_tasks) /\
        Task.status task = Queued /\
        (forall u, In u w.(db).(wiki_generation_tasks) ->
                   Task.status u = Queued -> created_no_later task u) /\
        In task.(Task.task_id) (snd r).(active_tasks) /\
        (forall env,
            ~ In task.(Task.task_id) w.(active_tasks) ->
            (snd (_process_task env task (snd r))).(active_tasks)
            = w.(active_tasks))
    | Ok None => snd r = w
    | Raise _ => False
    end.
Proof.
  intros max_concurrent_tasks raises w r. subst r. unfold claim_next.
  destruct (Z.of_nat (List.length (active_tasks w)) <? max_concurrent_tasks)
    eqn:Hfree; [|cbn; auto].
  apply Z.ltb_lt in Hfree.
  destruct (get_queued_tasks raises 1 (db w)) as [|task rest] eqn:Hq;
    [cbn; auto|].
  assert (Hraises : raises = false).
  { destruct raises; [discriminate Hq|reflexivity]. }
  subst raises.
  destruct (QueueFacts.next_queued_task_is_oldest _ _ _ Hq)
    as (Hin & Hqueued & Holdest).
  cbn [fst snd db written running active_tasks].
  split; [reflexivity|]. split; [reflexivity|]. split; [reflexivity|].
  split.
  { intros _. pose proof (activate_length (Task.task_id task) (active_tasks w)).
    lia. }
  split; [exact Hfree|]. split; [exact Hin|]. split; [exact Hqueued|].
  split; [exact Holdest|]. split; [apply activate_in|].
  intros env Hnot.
  rewrite FrameFacts._process_task_world. cbn [release active_tasks].
  rewrite (proj1 (proj2 (FrameFacts.frame_run_pipeline env task _))).
  cbn [active_tasks]. apply activate_then_release. exact Hnot.
Qed.

Lemma validate_request_passes request :
  validate_request request = None ->
  request.(repo_url) <> EmptyString /\
  valid_repo_type request.(repo_type) = true /\
  request.(owner) <> EmptyString /\
  request.(repo_name) <> EmptyString.
Proof.
  unfold validate_request, valid_repo_type.
  destruct (String.eqb (repo_url request) EmptyString) eqn:E1;
    [discriminate|].
  destruct (existsb _ _) eqn:E2; cbn [negb]; [|discriminate].
  destruct (String.eqb (owner request) EmptyString) eqn:E3;
    cbn [orb]; [discriminate|].
  destruct (String.eqb (repo_name request) EmptyString) eqn:E4;
    [discriminate|].
  intros _. apply String.eqb_neq in E1, E3, E4. auto.
Qed.

(** X25: a request that passes validate_request for a subject that has no
    project row yet is accepted whenever the store commits and the uuid is
    new: the repo_type the service lets through satisfies the CHECK of
    wiki_projects, create_wiki_task returns the new task_id, and the queued
    row carries the request with provider and model replaced by the
    configured defaults where the request leaves them empty. *)
Theorem service_accepts_valid_request :
  forall env default_provider default_model request w,
    validate_request request = None ->
    get_wiki_project_by_repo false request.(repo_type) request.(owner)
                             request.(repo_name) w.(db) = None ->
    submit_commits env ->
    ~ In env.(uuid4) (task_ids w.(db)) ->
    let q := task_request default_provider default_model request in
    let r := create_wiki_task env default_provider default_model request w in
    valid_repo_type request.(repo_type) = true /\
    fst r = inr (Some env.(uuid4)) /\
    get_task false env.(uuid4) (snd r).(db)
    = Some (queued_row (current_timestamp env SubmitTask) env.(uuid4) q
                       (Some (key_of q))) /\
    (request.(provider) = None -> q.(Request.provider) = default_provider) /\
    (request.(model) = None -> q.(Request.model) = default_model) /\
    generating_for (key_of q) (Some env.(uuid4)) (snd r).(db) /\
    (snd r).(running) = true.
Proof.
  intros env default_provider default_model request w Hvalid Hnew Hcommits
         Hfresh q r.
  destruct (validate_request_passes request Hvalid) as (_ & Htype & _ & _).
  assert (Hstart : startable q w.(db)).
  { unfold startable. subst q. unfold key_of. cbn [task_request
      Request.repo_type Request.owner Request.repo_name].
    unfold get_wiki_project_by_repo, get_wiki_project_by_key in Hnew.
    destruct (find _ (wiki_projects (db w))) as [p|]; [|exact Htype].
    exfalso. destruct (_ && _); [|discriminate Hnew].
    destruct (Project.current_task_id p); [|discriminate Hnew].
    destruct (find _ _); discriminate Hnew. }
  pose proof (AcceptFacts.create_task_startable env q w Hcommits Hfresh Hstart)
    as H.
  cbv zeta in H. destruct H as (Hr & Htasks & Hgen & _ & Hrun & _).
  pose proof (AcceptFacts.get_task_appended (db w)
                (db (snd (create_task env q w)))
                (queued_row (current_timestamp env SubmitTask) (uuid4 env) q
                            (Some (key_of q)))
                Hfresh Htasks) as Hrow.
  cbn [queued_row Task.task_id] in Hrow.
  subst r. unfold create_wiki_task. rewrite Hvalid. fold q.
  destruct (create_task env q w) as [[task_id|e] w'] eqn:Hc;
    cbn [fst snd] in *; [|discriminate Hr].
  injection Hr as ->.
  split; [exact Htype|]. split; [reflexivity|]. split; [exact Hrow|].
  split; [intros E; subst q; cbn; rewrite E; reflexivity|].
  split; [intros E; subst q; cbn; rewrite E; reflexivity|].
  split; [exact Hgen|exact Hrun].
Qed.

Lemma service_accepts_valid_request_witness :
  validate_request service_request = None /\
  submit_commits ScenarioRun.env /\
  fst (create_wiki_task ScenarioRun.env "google" "gemini-2.5-flash"
         service_request ScenarioRun.idle) = inr (Some "t1").
Proof.
  assert (H1 : validate_request service_request = None) by reflexivity.
  assert (H2 : submit_commits ScenarioRun.env) by (repeat split).
  split; [exact H1|]. split; [exact H2|].
  pose proof (service_accepts_valid_request ScenarioRun.env "google"
                "gemini-2.5-flash" service_request ScenarioRun.idle H1 eq_refl
                H2) as H.
  cbv zeta in H. apply H. intros [].
Defined.

Lemma validate_request_raises request e :
  validate_request request = Some e -> e = TypeError.
Proof.
  unfold validate_request, new_InvalidRepositoryError.
  destruct (String.eqb (repo_url request) EmptyString); [congruence|].
  destruct (negb _); [congruence|].
  destruct (_ || _); [congruence|discriminate].
Qed.

(** X26: a request without repo_url, with a repo_type other than github,
    gitlab, bitbucket and gerrit, or without owner or repo_name never
    reaches the queue, and it is not answered with InvalidRepositoryError:
    the constructor call of that exception in validate_request raises
    TypeError, which create_wiki_task wraps like any other exception, so the
    caller gets WikiGenerationError caused by the TypeError, and the store,
    the log of writes and the worker are as they were.  For no request at all
    does create_wiki_task raise InvalidRepositoryError. *)
Theorem service_rejects_invalid_request :
  forall env default_provider default_model request w,
    request.(repo_url) = EmptyString \/
    valid_repo_type request.(repo_type) = false \/
    request.(owner) = EmptyString \/
    request.(repo_name) = EmptyString ->
    validate_request request = Some TypeError /\
    create_wiki_task env default_provider default_model request w
    = (inl (WikiGenerationError TypeError), w) /\
    (forall request' w' message,
        fst (create_wiki_task env default_provider default_model request' w')
        <> inl (InvalidRepositoryError message)).
Proof.
  intros env default_provider default_model request w Hbad.
  assert (Hv : validate_request request = Some TypeError).
  { destruct (validate_request request) as [e|] eqn:Hv.
    - rewrite (validate_request_raises _ _ Hv). reflexivity.
    - exfalso.
      destruct (validate_request_passes request Hv) as (H1 & H2 & H3 & H4).
      destruct Hbad as [E|[E|[E|E]]]; congruence. }
  split; [exact Hv|]. split.
  - unfold create_wiki_task. rewrite Hv. reflexivity.
  - intros request' w' message. unfold create_wiki_task.
    destruct (validate_request request') as [e|] eqn:Hv'.
    + rewrite (validate_request_raises _ _ Hv'). discriminate.
    + destruct (create_task env _ w') as [[task_id|e] w'']; discriminate.
Qed.

Lemma service_rejects_invalid_request_witness :
  create_wiki_task ScenarioRun.env "google" "gemini-2.5-flash"
    (mkRequest "https://example.com/acme/widgets" "svn" "acme" "widgets"
               None None "en" true None None None None None false)
    ScenarioRun.claimed
  = (inl (WikiGenerationError TypeError), ScenarioRun.claimed).
Proof.
  apply service_rejects_invalid_request. right. left. reflexivity.
Defined.

End ServiceFacts.
